(** * Sentinova: the ticket lifecycle, the classification pipeline and the
      dashboard aggregations, embedded from [processing_agent.py] and
      [dashboard.py]. *)

From Stdlib Require Import String Ascii.
From Stdlib Require Import List ZArith NArith QArith Bool Lia Sorted.
From Stdlib Require Import Floats.SpecFloat.
Import ListNotations.
Close Scope Q_scope.

(** ** Python strings

    A Python [str] is a sequence of Unicode code points; a code point is a
    number. *)

Definition str := list N.

(** A literal of the source, written as a Rocq string (code points below 256). *)
Definition py (s : string) : str := map N_of_ascii (list_ascii_of_string s).
Arguments py s%_string.

Definition in_range (lo hi c : N) : bool := ((lo <=? c) && (c <=? hi))%N.

(** The characters that [str.strip()] removes and that [\s] matches in a
    [str] pattern: the code points for which [str.isspace()] holds. *)
Definition is_space (c : N) : bool :=
  in_range 9 13 c || in_range 28 32 c || (c =? 133)%N || (c =? 160)%N
  || (c =? 5760)%N || in_range 8192 8202 c || (c =? 8232)%N || (c =? 8233)%N
  || (c =? 8239)%N || (c =? 8287)%N || (c =? 12288)%N.

Definition str_eq_dec : forall a b : str, {a = b} + {a <> b} :=
  list_eq_dec N.eq_dec.

Definition str_eqb (a b : str) : bool := if str_eq_dec a b then true else false.

(** [s.startswith(p)], returning what follows the prefix. *)
Fixpoint strip_prefix (p s : str) : option str :=
  match p, s with
  | [], _ => Some s
  | x :: p', y :: s' => if (x =? y)%N then strip_prefix p' s' else None
  | _ :: _, [] => None
  end.

Definition startswith (s p : str) : bool :=
  match strip_prefix p s with Some _ => true | None => false end.

Definition endswith (s p : str) : bool := startswith (rev s) (rev p).

(** [s[n:]] and [s[:-n]] for a non-negative literal [n]. *)
Definition slice_from (n : nat) (s : str) : str := skipn n s.
Definition slice_to_minus (n : nat) (s : str) : str :=
  firstn (length s - n) s.

Fixpoint lstrip (s : str) : str :=
  match s with
  | a :: tl => if is_space a then lstrip tl else s
  | [] => []
  end.

Fixpoint rstrip (s : str) : str :=
  match s with
  | a :: tl =>
      match rstrip tl with
      | [] => if is_space a then [] else [a]
      | r => a :: r
      end
  | [] => []
  end.

(** [s.strip()] *)
Definition strip (s : str) : str := lstrip (rstrip s).

(** ** The text normalizer: [clean_text] *)

Module Normalizer.

(** Substitutions that scan the text once and, at each character, either
    drop it or keep (a replacement of) it, looking only at what follows. *)
Section Runs.
  Variable drop : N -> str -> bool.
  Variable repl : N -> N.

Fixpoint rewrite_runs (s : str) : str :=
  match s with
  | [] => []
  | a :: tl => if drop a tl then rewrite_runs tl else repl a :: rewrite_runs tl
  end.

End Runs.

(** [re.sub(r'\s+', ' ', text)]: a whitespace character followed by another
    one is dropped, the last of a run becomes one space. *)
Definition ws_drop (a : N) (tl : str) : bool :=
  is_space a && match tl with b :: _ => is_space b | [] => false end.
Definition ws_repl (a : N) : N := if is_space a then 32%N else a.
Definition sub_ws : str -> str := rewrite_runs ws_drop ws_repl.

(** [re.sub(r'[c]{n+1,}', c * n, text)]: an occurrence of [c] followed by
    at least [n] more is dropped, so a run longer than [n] keeps [n]. *)
Definition squeeze_drop (c : N) (n : nat) (a : N) (tl : str) : bool :=
  (a =? c)%N && startswith tl (repeat c n).
Definition squeeze (c : N) (n : nat) : str -> str :=
  rewrite_runs (squeeze_drop c n) (fun a => a).

(** [re.sub(r'[.]{3,}', '...', text)] *)
Definition sub_dots : str -> str := squeeze 46 3.
(** [re.sub(r'[!]{2,}', '!', text)] *)
Definition sub_bangs : str -> str := squeeze 33 1.
(** [re.sub(r'[?]{2,}', '?', text)] *)
Definition sub_quests : str -> str := squeeze 63 1.

(** Lines, as [^], [$] and [.] see them under [re.MULTILINE]: the text is
    cut at every line feed. *)
Fixpoint splitlines (s : str) : list str :=
  match s with
  | [] => [[]]
  | a :: tl =>
      if (a =? 10)%N then [] :: splitlines tl
      else match splitlines tl with
           | l :: ls => (a :: l) :: ls
           | [] => [[a]]
           end
  end.

Fixpoint joinlines (ls : list str) : str :=
  match ls with
  | [] => []
  | [l] => l
  | l :: ls' => l ++ 10%N :: joinlines ls'
  end.

(** [re.sub(r'^(p1|p2|...).*$', '', text, flags=re.MULTILINE)]: every line
    that starts with one of the prefixes is emptied. *)
Definition sub_lines (prefixes : list str) (s : str) : str :=
  joinlines
    (map (fun l => if existsb (startswith l) prefixes then [] else l)
         (splitlines s)).

Definition header_prefixes : list str :=
  [py "From:"; py "To:"; py "Subject:"; py "Date:"].

Definition sub_headers : str -> str := sub_lines header_prefixes.
Definition sub_signature : str -> str := sub_lines [py "--"].

(** The character alternatives of the URL pattern:
    [[a-zA-Z]|[0-9]|[$-_@.&+]|[!*\(\),]]; the last alternative,
    [%[0-9a-fA-F][0-9a-fA-F]], is made of characters of the others. *)
Definition is_url_char (c : N) : bool :=
  in_range 97 122 c || in_range 65 90 c
  || in_range 48 57 c
  || in_range 36 95 c || (c =? 64)%N || (c =? 46)%N || (c =? 38)%N || (c =? 43)%N
  || (c =? 33)%N || (c =? 42)%N || (c =? 40)%N || (c =? 41)%N || (c =? 44)%N.

(** Length of the longest run of URL characters at the head. *)
Fixpoint url_run (s : str) : nat :=
  match s with
  | a :: tl => if is_url_char a then S (url_run tl) else 0
  | [] => 0
  end.

(** [://(?:...)+] at the head: its length, 0 when it does not match. *)
Definition url_tail (s : str) : nat :=
  match strip_prefix (py "://") s with
  | Some r => match url_run r with 0 => 0 | S k => 3 + S k end
  | None => 0
  end.

(** [http[s]?://(?:...)+] at the head: its length, 0 when it does not
    match. The optional [s] is tried first. *)
Definition url_len (s : str) : nat :=
  match strip_prefix (py "http") s with
  | Some r =>
      let without_s := match url_tail r with 0 => 0 | S k => 4 + S k end in
      match strip_prefix (py "s") r with
      | Some r' =>
          match url_tail r' with 0 => without_s | S k => 5 + S k end
      | None => without_s
      end
  | None => 0
  end.

(** [re.sub(URL, '', text)]: [skip] characters of a match are still to be
    dropped. *)
Fixpoint sub_urls_from (skip : nat) (s : str) : str :=
  match s with
  | [] => []
  | a :: tl =>
      match skip with
      | S k => sub_urls_from k tl
      | 0 => match url_len s with
             | S k => sub_urls_from k tl
             | 0 => a :: sub_urls_from 0 tl
             end
      end
  end.

Definition sub_urls : str -> str := sub_urls_from 0.

(** Does a pattern, given by its test at the head, match somewhere? *)
Fixpoint any_suffix (test : str -> bool) (s : str) : bool :=
  match s with
  | [] => false
  | _ :: tl => test s || any_suffix test tl
  end.

(** Does the URL pattern match at the head of [s], somewhere in [s]? *)
Definition url_at (s : str) : bool := negb (Nat.eqb (url_len s) 0).
Definition has_url : str -> bool := any_suffix url_at.

(** The last character. *)
Fixpoint last_char (s : str) : option N :=
  match s with
  | [] => None
  | [a] => Some a
  | _ :: tl => last_char tl
  end.

(** A whitespace character that [sub_ws] would change: one that is not a
    space, or one that another whitespace character follows. *)
Definition ws_at (s : str) : bool :=
  match s with
  | a :: tl =>
      is_space a
      && (negb (a =? 32)%N || match tl with b :: _ => is_space b | [] => false end)
  | [] => false
  end.

(** No whitespace at either end. *)
Definition trimmed (s : str) : bool :=
  match hd_error s with Some a => negb (is_space a) | None => true end
  && match last_char s with Some a => negb (is_space a) | None => true end.

(** A run of more than [n] characters [c] at the head. *)
Definition run_at (c : N) (n : nat) (s : str) : bool := startswith s (repeat c (S n)).

Definition clean_text (text : str) : str :=
  match text with
  | [] => []
  | _ =>
      let text := sub_ws (strip text) in
      let text := sub_headers text in
      let text := sub_signature text in
      let text := sub_urls text in
      let text := sub_dots text in
      let text := sub_bangs text in
      let text := sub_quests text in
      strip text
  end.

End Normalizer.

(** ** Python values, as [json.loads] produces them *)

#[warnings="-register-all"]
Inductive pyval :=
| VNone
| VBool (b : bool)
| VInt (n : Z)
| VFloat (f : spec_float)
| VStr (s : str)
| VList (l : list pyval)
| VDict (d : list (str * pyval)).

(** A [dict] with [str] keys: an association list without repeated keys in
    use; [dset] overwrites in place, as an assignment [d[k] = v] does. *)
Definition dict := list (str * pyval).

Fixpoint dget (k : str) (d : dict) : option pyval :=
  match d with
  | [] => None
  | (k', v) :: d' => if str_eqb k k' then Some v else dget k d'
  end.

Fixpoint dset (k : str) (v : pyval) (d : dict) : dict :=
  match d with
  | [] => [(k, v)]
  | (k', v') :: d' =>
      if str_eqb k k' then (k, v) :: d' else (k', v') :: dset k v d'
  end.

Definition dhas (k : str) (d : dict) : bool :=
  match dget k d with Some _ => true | None => false end.

(** ** Floats (binary64) *)

Definition prec : Z := 53.
Definition emax : Z := 1024.

Definition f_zero : spec_float := S754_zero false.
Definition f_one : spec_float := Eval vm_compute in binary_normalize prec emax 1 0 false.
Definition f_half : spec_float := Eval vm_compute in binary_normalize prec emax 1 (-1) false.

(** The exceptions the worker can meet. *)
Inductive exn :=
| TransportError          (* [generate_content] raised *)
| EmptyResponse           (* Exception("Empty response from Gemini API") *)
| InvalidJSON             (* Exception("Invalid JSON response from Gemini: ...") *)
| MissingKey (k : str)    (* ValueError("Missing required key: ...") *)
| NotADict                (* the decoded value is no dict: the key test or the subscript raises *)
| ValueError
| TypeError
| OverflowError
| KeyError (k : str)
| NotFound (id : str)     (* [update] of a document that does not exist *)
| OutOfFuel.

Inductive result (A : Type) :=
| Ok (a : A)
| Raise (e : exn).
Arguments Ok {A} a.
Arguments Raise {A} e.

(** [float(v)]. An [int] is rounded to the nearest binary64, ties to even,
    and raises OverflowError when that is out of range; a [str] is parsed
    by [float_of_str] (None: ValueError). *)
Definition py_float (float_of_str : str -> option spec_float) (v : pyval)
  : result spec_float :=
  match v with
  | VFloat f => Ok f
  | VInt n =>
      match binary_normalize prec emax n 0 false with
      | S754_infinity _ => Raise OverflowError
      | f => Ok f
      end
  | VBool b => Ok (if b then f_one else f_zero)
  | VStr s =>
      match float_of_str s with
      | Some f => Ok f
      | None => Raise ValueError
      end
  | VNone | VList _ | VDict _ => Raise TypeError
  end.

(** [min(a, b)] and [max(a, b)] of two floats: the first argument is kept
    unless the second is strictly smaller (larger). *)
Definition py_min (a b : spec_float) : spec_float := if SFltb b a then b else a.
Definition py_max (a b : spec_float) : spec_float := if SFltb a b then b else a.

(** ** The ticket store and the world of the worker *)

Inductive status := New | Processing | Processed | Error.

Definition status_eqb (a b : status) : bool :=
  match a, b with
  | New, New | Processing, Processing | Processed, Processed | Error, Error => true
  | _, _ => false
  end.

(** A document of the [raw_tickets] collection. An absent field is [None];
    times are milliseconds. *)
Record ticket := {
  message : option str;
  status_of : status;
  timestamp : option Z;
  processed_timestamp : option Z;
  sentiment : option pyval;
  summary : option pyval;
  confidence : option pyval;
  keywords : option pyval
}.

Inductive event :=
| EvWrite (id : str) (st : status)      (* a document update that succeeded *)
| EvGenerate (prompt : str)             (* a call of [model.generate_content] *)
| EvSleep (ms : Z)                      (* [time.sleep] *)
| EvBatchLog (processed errors : nat).  (* "Batch processing complete: ..." *)

(** The collection in the order in which the store enumerates it, the
    server clock, the number of classifier calls so far and what happened,
    oldest first. *)
Record world := {
  docs : list (str * ticket);
  clock : Z;
  calls : nat;
  trace : list event
}.

(** What the agent is configured with and talks to. [generate_content n p]
    is the answer to the call number [n] with prompt [p]: the text of the
    response, or [None] when the call raises. *)
Record env := {
  json_loads : str -> option pyval;
  float_of_str : str -> option spec_float;
  generate_content : nat -> str -> option str;
  prompt_head : str;
  batch_size : nat
}.

(** State and exceptions. *)
Definition M (A : Type) := world -> result A * world.

Definition ret {A} (a : A) : M A := fun w => (Ok a, w).
Definition raise {A} (e : exn) : M A := fun w => (Raise e, w).
Definition bind {A B} (m : M A) (k : A -> M B) : M B :=
  fun w => match m w with
           | (Ok a, w') => k a w'
           | (Raise e, w') => (Raise e, w')
           end.
(** [try: m except Exception as e: h e] *)
Definition try_except {A} (m : M A) (h : exn -> M A) : M A :=
  fun w => match m w with
           | (Ok a, w') => (Ok a, w')
           | (Raise e, w') => h e w'
           end.
Definition lift {A} (r : result A) : M A := fun w => (r, w).

Declare Scope monad_scope.
Delimit Scope monad_scope with monad.
Notation "x <- c ;; k" := (bind c (fun x => k))
  (at level 61, c at next level, right associativity) : monad_scope.
Notation "c ;;; k" := (bind c (fun _ => k))
  (at level 61, right associativity) : monad_scope.
Open Scope monad_scope.

Definition emit (e : event) : M unit :=
  fun w => (Ok tt, {| docs := docs w; clock := clock w; calls := calls w;
                      trace := trace w ++ [e] |}).

Definition sleep (ms : Z) : M unit :=
  fun w => (Ok tt, {| docs := docs w; clock := (clock w + ms)%Z; calls := calls w;
                      trace := trace w ++ [EvSleep ms] |}).

Definition rbind {A B} (r : result A) (k : A -> result B) : result B :=
  match r with
  | Ok a => k a
  | Raise e => Raise e
  end.
Notation "x <-- c ;; k" := (rbind c (fun x => k))
  (at level 61, c at next level, right associativity) : monad_scope.

(** [d[k]] *)
Definition subscript (d : dict) (k : str) : result pyval :=
  match dget k d with
  | Some v => Ok v
  | None => Raise (KeyError k)
  end.

(** ** The classifier call: [analyze_sentiment_with_gemini] *)

Module Classifier.
Import Normalizer.

Definition required_keys : list str :=
  [py "sentiment"; py "summary"; py "confidence"; py "keywords"].

Definition valid_sentiments : list str :=
  [py "anger"; py "confusion"; py "delight"; py "neutral"].

(** [for key in required_keys: if key not in result: raise ValueError(...)] *)
Fixpoint check_keys (keys : list str) (d : dict) : result unit :=
  match keys with
  | [] => Ok tt
  | k :: ks => if dhas k d then check_keys ks d else Raise (MissingKey k)
  end.

(** [v in valid_sentiments] *)
Definition is_valid_sentiment (v : pyval) : bool :=
  match v with
  | VStr s => existsb (str_eqb s) valid_sentiments
  | _ => false
  end.

Definition is_list (v : pyval) : bool :=
  match v with VList _ => true | _ => false end.

(** [v[:5]] *)
Definition slice5 (v : pyval) : result pyval :=
  match v with
  | VList l => Ok (VList (firstn 5 l))
  | VStr s => Ok (VStr (firstn 5 s))
  | _ => Raise TypeError
  end.

(** [max(0.0, min(1.0, float(c)))] inside
    [try: ... except (ValueError, TypeError): 0.5]. *)
Definition clamp_confidence (E : env) (c : pyval) : result spec_float :=
  match py_float (float_of_str E) c with
  | Ok f => Ok (py_max f_zero (py_min f_one f))
  | Raise ValueError | Raise TypeError => Ok f_half
  | Raise e => Raise e
  end.

(** Lines 164-189: validation and repair of the decoded response. *)
Definition validate (E : env) (v : pyval) : result dict :=
  match v with
  | VDict result =>
      _ <-- check_keys required_keys result;;
      s <-- subscript result (py "sentiment");;
      let result :=
        if is_valid_sentiment s then result
        else dset (py "sentiment") (VStr (py "neutral")) result in
      c <-- subscript result (py "confidence");;
      conf <-- clamp_confidence E c;;
      let result := dset (py "confidence") (VFloat conf) result in
      k <-- subscript result (py "keywords");;
      let result :=
        if is_list k then result else dset (py "keywords") (VList []) result in
      k <-- subscript result (py "keywords");;
      k5 <-- slice5 k;;
      Ok (dset (py "keywords") k5 result)
  | _ => Raise NotADict
  end.

(** Lines 155-159: the Markdown fences. *)
Definition unfence (response_text : str) : str :=
  let response_text :=
    if startswith response_text (py "```json")
    then slice_from 7 response_text else response_text in
  if endswith response_text (py "```")
  then slice_to_minus 3 response_text else response_text.

(** Lines 151-189, on the text of the response. *)
Definition parse_response (E : env) (text : str) : result dict :=
  match text with
  | [] => Raise EmptyResponse
  | _ =>
      let response_text := unfence (strip text) in
      match json_loads E response_text with
      | None => Raise InvalidJSON
      | Some v => validate E v
      end
  end.

Definition too_short : dict :=
  [ (py "sentiment", VStr (py "neutral"));
    (py "summary", VStr (py "Message too short for analysis"));
    (py "confidence", VFloat f_half);
    (py "keywords", VList []) ].

(** [self.model.generate_content(prompt, ...)] and its [.text]. *)
Definition generate (E : env) (prompt : str) : M str :=
  fun w =>
    let w' := {| docs := docs w; clock := clock w; calls := S (calls w);
                 trace := trace w ++ [EvGenerate prompt] |} in
    match generate_content E (calls w) prompt with
    | Some text => (Ok text, w')
    | None => (Raise TransportError, w')
    end.

(** The body of [analyze_sentiment_with_gemini]: one attempt. Both
    [except] clauses re-raise. *)
Definition analyze_once (E : env) (message : str) : M dict :=
  let cleaned_message := clean_text message in
  if length cleaned_message <? 10 then ret too_short
  else
    let prompt := prompt_head E ++ cleaned_message in
    text <- generate E prompt ;;
    lift (parse_response E text).

(** The decorator [@retry(stop_max_attempt_number=3,
    wait_exponential_multiplier=1000)] of the [retrying] package. *)
Definition stop_max_attempt_number : nat := 3.
Definition wait_exponential_multiplier : Z := 1000.
Definition MAX_WAIT : Z := 1073741823.

Definition stop_after_attempt (previous_attempt_number : nat) : bool :=
  stop_max_attempt_number <=? previous_attempt_number.

Definition exponential_sleep (previous_attempt_number : nat) : Z :=
  let exp := (2 ^ Z.of_nat previous_attempt_number)%Z in
  let result := (wait_exponential_multiplier * exp)%Z in
  let result := if (MAX_WAIT <? result)%Z then MAX_WAIT else result in
  if (result <? 0)%Z then 0%Z else result.

(** [Retrying.call]: the loop runs until an attempt returns or
    [stop_after_attempt] holds; [fuel] bounds its iterations. *)
Fixpoint retry_call {A} (fuel attempt_number : nat) (fn : M A) : M A :=
  match fuel with
  | 0 => raise OutOfFuel
  | S fuel' =>
      try_except fn (fun e =>
        if stop_after_attempt attempt_number then raise e
        else sleep (Z.max 0 (exponential_sleep attempt_number)) ;;;
             retry_call fuel' (S attempt_number) fn)
  end.

Definition analyze_sentiment_with_gemini (E : env) (message : str) : M dict :=
  retry_call stop_max_attempt_number 1 (analyze_once E message).

(** The call number [n] fails: the transport raises, or the text of the
    response does not decode as JSON. *)
Definition classifier_fails (E : env) (n : nat) (prompt : str) : Prop :=
  match generate_content E n prompt with
  | None => True
  | Some text => text <> [] /\ json_loads E (unfence (strip text)) = None
  end.

End Classifier.

(** ** The worker: [update_ticket_status], [get_pending_tickets],
       [process_tickets_batch]

    In this module every call of the store's client reaches the
    collection: the query returns the documents, and an update fails only
    on a document that is not there. The methods with the paths taken when
    a call of the client itself raises (lines 216-218, 241-243 and 285-289)
    are those of [Agent] below; the two agree when no call raises. *)

Module Worker.
Import Classifier.

(** The fields of [update_data]. *)
Definition apply_update (st : status) (now : Z)
    (fields : option (pyval * pyval * pyval * pyval)) (t : ticket) : ticket :=
  match fields with
  | Some (s, su, c, k) =>
      {| message := message t; status_of := st; timestamp := timestamp t;
         processed_timestamp := Some now;
         sentiment := Some s; summary := Some su;
         confidence := Some c; keywords := Some k |}
  | None =>
      {| message := message t; status_of := st; timestamp := timestamp t;
         processed_timestamp := Some now;
         sentiment := sentiment t; summary := summary t;
         confidence := confidence t; keywords := keywords t |}
  end.

(** [ticket_ref.update(update_data)]: only an existing document is updated. *)
Fixpoint update_doc (id : str) (f : ticket -> ticket) (ds : list (str * ticket))
  : option (list (str * ticket)) :=
  match ds with
  | [] => None
  | (i, t) :: ds' =>
      if str_eqb id i then Some ((i, f t) :: ds')
      else match update_doc id f ds' with
           | Some r => Some ((i, t) :: r)
           | None => None
           end
  end.

Definition update_ticket_status (ticket_id : str) (st : status)
    (sentiment_data : option dict) : M unit :=
  fields <- lift (match sentiment_data with
                  | Some ((_ :: _) as d) =>
                      s <-- subscript d (py "sentiment");;
                      su <-- subscript d (py "summary");;
                      c <-- subscript d (py "confidence");;
                      k <-- subscript d (py "keywords");;
                      Ok (Some (s, su, c, k))
                  | _ => Ok None
                  end) ;;
  fun w =>
    match update_doc ticket_id (apply_update st (clock w) fields) (docs w) with
    | Some ds =>
        (Ok tt, {| docs := ds; clock := clock w; calls := calls w;
                   trace := trace w ++ [EvWrite ticket_id st] |})
    | None => (Raise (NotFound ticket_id), w)
    end.

Definition is_new (d : str * ticket) : bool := status_eqb (status_of (snd d)) New.

(** [tickets_ref.where('status', '==', 'new').limit(self.batch_size).get()],
    when the query returns; [Agent.get_pending_tickets] has the [except]
    clause of lines 216-218. *)
Definition get_pending_tickets (E : env) : M (list (str * ticket)) :=
  fun w => (Ok (firstn (batch_size E) (filter is_new (docs w))), w).

(** [ticket.get('message', '')] *)
Definition get_message (t : ticket) : str :=
  match message t with Some m => m | None => [] end.

(** The body of the [for] loop on one ticket, with the two counters. *)
Definition process_ticket (E : env) (counts : nat * nat) (ticket : str * ticket)
  : M (nat * nat) :=
  let '(processed_count, error_count) := counts in
  let ticket_id := fst ticket in
  try_except
    (let message := get_message (snd ticket) in
     match strip message with
     | [] =>
         update_ticket_status ticket_id Error None ;;;
         ret (processed_count, S error_count)
     | _ =>
         update_ticket_status ticket_id Processing None ;;;
         sentiment_result <- analyze_sentiment_with_gemini E message ;;
         update_ticket_status ticket_id Processed (Some sentiment_result) ;;;
         sleep 2000 ;;;
         ret (S processed_count, error_count)
     end)
    (fun _ =>
       try_except (update_ticket_status ticket_id Error None) (fun _ => ret tt) ;;;
       ret (processed_count, S error_count)).

Fixpoint for_each {A B} (body : B -> A -> M B) (l : list A) (acc : B) : M B :=
  match l with
  | [] => ret acc
  | x :: l' => acc' <- body acc x ;; for_each body l' acc'
  end.

(** The function returns nothing on either path: its value is [None]. *)
Definition process_tickets_batch (E : env) : M pyval :=
  tickets <- get_pending_tickets E ;;
  match tickets with
  | [] => ret VNone
  | _ =>
      counts <- for_each (process_ticket E) tickets (0, 0) ;;
      emit (EvBatchLog (fst counts) (snd counts)) ;;;
      ret VNone
  end.

End Worker.

(** ** The dashboard: [render_alerts_section], [render_sentiment_trends]

    The data frame is the list of its rows; a row is a ticket document, a
    missing timestamp ([NaT]) or sentiment is [None]. Only what the two
    functions compute is kept, not what they draw. *)

Module Dashboard.

Inductive level := Critical | Elevated | Stable.

Definition hours (n : Z) : Z := (n * 3600000)%Z.
Definition day_ms : Z := 86400000.

(** [df['timestamp'] >= window]: false on [NaT]. *)
Definition ts_ge (window : Z) (t : ticket) : bool :=
  match timestamp t with
  | Some ts => (window <=? ts)%Z
  | None => false
  end.

(** [df['sentiment'] == 'anger'] *)
Definition is_anger (t : ticket) : bool :=
  match sentiment t with
  | Some (VStr s) => str_eqb s (py "anger")
  | _ => false
  end.

(** Lines 222-235. The quotient [len(recent_anger) / recent_total] is kept
    as the exact rational; [None] is the early [return] that shows
    nothing. *)
Definition render_alerts_section (df : list ticket) (now : Z) : option (level * Q) :=
  match df with
  | [] => None
  | _ =>
      let window := (now - hours 24)%Z in
      let recent_anger := filter (fun t => is_anger t && ts_ge window t) df in
      let recent_total := length (filter (ts_ge window) df) in
      let anger_ratio : Q :=
        if 0 <? recent_total
        then Qmake (Z.of_nat (length recent_anger)) (Pos.of_nat recent_total)
        else 0%Q in
      Some (if Qle_bool (3 # 10) anger_ratio then Critical
            else if Qle_bool (2 # 10) anger_ratio then Elevated
            else Stable,
            anger_ratio)
  end.

(** [df['timestamp'].dt.date], as a day number. *)
Definition date_of (ts : Z) : Z := (ts / day_ms)%Z.

(** The group of a row under [groupby(['date', 'sentiment'])]; rows with a
    missing key are left out. The worker writes no other sentiment than a
    string: another value counts as missing. *)
Definition group_key (t : ticket) : option (Z * str) :=
  match timestamp t, sentiment t with
  | Some ts, Some (VStr s) => Some (date_of ts, s)
  | _, _ => None
  end.

Fixpoint group_keys (df : list ticket) : list (Z * str) :=
  match df with
  | [] => []
  | t :: df' =>
      match group_key t with
      | Some k => k :: group_keys df'
      | None => group_keys df'
      end
  end.

(** Sorted labels without repetition, as [groupby] and [unstack] order
    them. *)
Section Labels.
  Variable A : Type.
  Variable cmp : A -> A -> comparison.

Fixpoint insert_label (x : A) (l : list A) : list A :=
  match l with
  | [] => [x]
  | y :: l' =>
      match cmp x y with
      | Lt => x :: l
      | Eq => l
      | Gt => y :: insert_label x l'
      end
  end.

Definition labels (l : list A) : list A := fold_right insert_label [] l.

End Labels.
Arguments insert_label {A} cmp x l.
Arguments labels {A} cmp l.

(** Order of [str]: by code points, a proper prefix first. *)
Fixpoint str_compare (a b : str) : comparison :=
  match a, b with
  | [], [] => Eq
  | [], _ :: _ => Lt
  | _ :: _, [] => Gt
  | x :: a', y :: b' =>
      match (x ?= y)%N with
      | Eq => str_compare a' b'
      | c => c
      end
  end.

Definition key_eqb (k1 k2 : Z * str) : bool :=
  (fst k1 =? fst k2)%Z && str_eqb (snd k1) (snd k2).

(** [.size()] of one group. *)
Definition group_size (keys : list (Z * str)) (k : Z * str) : nat :=
  length (filter (key_eqb k) keys).

(** The frame [daily]: row labels, column labels and the counts by row. *)
Record frame := {
  index : list Z;
  columns : list str;
  values : list (list nat)
}.

(** [df.groupby(['date', 'sentiment']).size().unstack(fill_value=0)];
    [None] is the early [return]. *)
Definition render_sentiment_trends (df : list ticket) : option frame :=
  match df with
  | [] => None
  | _ =>
      let keys := group_keys df in
      let dates := labels Z.compare (map fst keys) in
      let sentiments := labels str_compare (map snd keys) in
      Some {| index := dates;
              columns := sentiments;
              values := map (fun d => map (fun s => group_size keys (d, s)) sentiments)
                            dates |}
  end.

End Dashboard.

(** ** The store *)

Fixpoint find_doc (id : str) (ds : list (str * ticket)) : option ticket :=
  match ds with
  | [] => None
  | (i, t) :: ds' => if str_eqb id i then Some t else find_doc id ds'
  end.

Definition status_in (ds : list (str * ticket)) (id : str) : option status :=
  match find_doc id ds with
  | Some t => Some (status_of t)
  | None => None
  end.

(** ** Sample data *)

Module Samples.

(** A classifier that is down and a decoder that accepts nothing. *)
Definition E_down : env :=
  {| json_loads := fun _ => None;
     float_of_str := fun _ => None;
     generate_content := fun _ _ => None;
     prompt_head := py "Analyze the sentiment: ";
     batch_size := 10 |}.

(** A JSON text written with apostrophes for its quotation marks. *)
Definition json_text (s : string) : str :=
  map (fun c => if (c =? 39)%N then 34%N else c) (py s).
Arguments json_text s%_string.

Definition sample_json : str :=
  json_text "{'sentiment': 'anger', 'summary': 'outage', 'confidence': 0.95, 'keywords': ['down']}".

Definition f_095 : spec_float :=
  Eval vm_compute in SFdiv prec emax (binary_normalize prec emax 95 0 false)
                                    (binary_normalize prec emax 100 0 false).

Definition sample_value : pyval :=
  VDict [ (py "sentiment", VStr (py "anger"));
          (py "summary", VStr (py "outage"));
          (py "confidence", VFloat f_095);
          (py "keywords", VList [VStr (py "down")]) ].

(** The same answer in Markdown fences, as the model likes to give it. *)
Definition fenced_reply : str :=
  py "```json" ++ [10%N] ++ sample_json ++ [10%N] ++ py "```" ++ [10%N].

(** A decoder that knows the sample and a classifier that always gives
    the fenced answer. *)
Definition E_fenced : env :=
  {| json_loads := fun s => if str_eqb (strip s) sample_json
                            then Some sample_value else None;
     float_of_str := fun _ => None;
     generate_content := fun _ _ => Some fenced_reply;
     prompt_head := py "Analyze the sentiment: ";
     batch_size := 10 |}.

(** A response whose confidence is the integer 10^400. *)
Definition huge_confidence : dict :=
  [ (py "sentiment", VStr (py "anger"));
    (py "summary", VStr (py "outage"));
    (py "confidence", VInt (10 ^ 400));
    (py "keywords", VList [VStr (py "down")]) ].

Definition sample_dict : dict :=
  match sample_value with VDict d => d | _ => [] end.

(** A response with a capitalised sentiment, no summary text, a
    confidence that does not parse and six keywords. *)
Definition shouted_dict : dict :=
  [ (py "sentiment", VStr (py "Anger"));
    (py "summary", VNone);
    (py "confidence", VStr (py "high"));
    (py "keywords", VList [VStr (py "a"); VStr (py "b"); VStr (py "c");
                           VStr (py "d"); VStr (py "e"); VStr (py "f")]);
    (py "language", VStr (py "en")) ].

(** A classifier whose answer always decodes to that response. *)
Definition E_huge : env :=
  {| json_loads := fun _ => Some (VDict huge_confidence);
     float_of_str := fun _ => None;
     generate_content := fun _ _ => Some (py "{...}");
     prompt_head := py "Analyze the sentiment: ";
     batch_size := 10 |}.

Definition new_ticket (m : string) (created : Z) : ticket :=
  {| message := Some (py m); status_of := New; timestamp := Some created;
     processed_timestamp := None;
     sentiment := None; summary := None; confidence := None; keywords := None |}.

Definition world_of (ds : list (str * ticket)) : world :=
  {| docs := ds; clock := 1000; calls := 0; trace := [] |}.

Definition t_blank : ticket := new_ticket "   " 100.
Definition t_angry : ticket :=
  new_ticket "My internet has been down for 3 days! I need it fixed NOW!" 200.

Definition w_blank : world := world_of [(py "t1", t_blank)].

(** What validation makes of the two sample responses. *)
Definition angry_result : dict :=
  Eval vm_compute in
    match Classifier.validate E_fenced sample_value with Ok r => r | Raise _ => [] end.
Definition shouted_result : dict :=
  Eval vm_compute in
    match Classifier.validate E_fenced (VDict shouted_dict) with
    | Ok r => r | Raise _ => [] end.

(** A blank ticket and a ticket for a classifier that is down. *)
Definition w_two : world := world_of [(py "t1", t_blank); (py "t2", t_angry)].
Definition w_angry : world := world_of [(py "t1", t_angry)].

(** Two pending tickets that the store lists newest first. *)
Definition w_unordered : world :=
  world_of [(py "a", new_ticket "first in the store" 5);
            (py "b", new_ticket "second in the store" 3)].

End Samples.

(** [createdAt] never decreases along the sequence (a missing time compares
    with nothing). *)
Fixpoint created_ascending (l : list (str * ticket)) : bool :=
  match l with
  | a :: (b :: _) as tl =>
      match timestamp (snd a), timestamp (snd b) with
      | Some x, Some y => (x <=? y)%Z
      | _, _ => true
      end && created_ascending tl
  | _ => true
  end.

(** A computation that leaves the collection as it is. *)
Definition preserves_docs {A} (m : M A) : Prop :=
  forall w, docs (snd (m w)) = docs w.

(** ** The claims' own words, to compare the code with *)

Module Spec.
Import Dashboard.

(** The number of tickets of a batch that have a given status in a
    collection. *)
Definition reached (ds : list (str * ticket)) (st : status)
    (batch : list (str * ticket)) : nat :=
  length (filter (fun d => match status_in ds (fst d) with
                           | Some s => status_eqb s st
                           | None => false
                           end) batch).

(** The window: the tickets created within the last 24 hours. *)
Definition in_last_24h (now : Z) (t : ticket) : bool :=
  match timestamp t with
  | Some ts => (now - 24 * 60 * 60 * 1000 <=? ts)%Z
  | None => false
  end.

Definition window (df : list ticket) (now : Z) : list ticket :=
  filter (in_last_24h now) df.

(** The count of Anger tickets in the window divided by the count of all
    tickets in it, 0 when the window is empty. *)
Definition ratio (df : list ticket) (now : Z) : Q :=
  match length (window df now) with
  | 0 => 0%Q
  | S n => Qmake (Z.of_nat (length (filter is_anger (window df now))))
                 (Pos.of_succ_nat n)
  end.

(** The number of tickets of a date and a sentiment. *)
Definition tickets_on (df : list ticket) (d : Z) (s : str) : nat :=
  length (filter (fun t => match timestamp t, sentiment t with
                           | Some ts, Some (VStr s') =>
                               (date_of ts =? d)%Z && str_eqb s' s
                           | _, _ => false
                           end) df).

(** The cell of a frame at a row and a column, by position. *)
Definition cell (fr : frame) (i j : nat) : nat := nth j (nth i (values fr) []) 0.

End Spec.

Module DashboardSamples.
Import Dashboard.

Definition processed_ticket (s : string) (created : Z) : ticket :=
  {| message := Some (py "a message"); status_of := Processed;
     timestamp := Some created; processed_timestamp := Some (created + 5000)%Z;
     sentiment := Some (VStr (py s)); summary := Some (VStr (py "summary"));
     confidence := Some (VFloat f_half); keywords := Some (VList []) |}.

(** An angry ticket on day 1 and a neutral one on day 3. *)
Definition df_days_1_3 : list ticket :=
  [processed_ticket "anger" (1 * day_ms + 5); processed_ticket "neutral" (3 * day_ms + 7)].

(** Three angry tickets out of ten, all recent at the time [now_10]. *)
Definition now_10 : Z := 1000000.
Definition df_3_of_10 : list ticket :=
  map (processed_ticket "anger") [999001; 999002; 999003]%Z
  ++ map (processed_ticket "neutral")
       [999004; 999005; 999006; 999007; 999008; 999009; 999010]%Z.

End DashboardSamples.

(** ** Relations between the world before and after a computation *)

(** A computation whose every run relates the world it starts in to the
    world it ends in. *)
Definition respects {A} (R : world -> world -> Prop) (m : M A) : Prop :=
  forall w, R w (snd (m w)).

(** The same document: its id, its message and its creation time. *)
Definition same_identity (a b : str * ticket) : Prop :=
  fst a = fst b
  /\ message (snd a) = message (snd b)
  /\ timestamp (snd a) = timestamp (snd b).

(** The collection holds the same documents, in the same order. *)
Definition keeps_documents (w w' : world) : Prop :=
  Forall2 same_identity (docs w) (docs w').

(** The trace has grown by events that all satisfy [P]. *)
Definition appends (P : event -> Prop) (w w' : world) : Prop :=
  exists evs, trace w' = trace w ++ evs /\ Forall P evs.

(** An event that the processing of the tickets [ids] may leave: a write
    to one of them of a status other than New, a call, a sleep or the log
    line. *)
Definition batch_event (ids : list str) (e : event) : Prop :=
  match e with
  | EvWrite i st => In i ids /\ st <> New
  | _ => True
  end.

(** A ticket that carries a classification as the worker writes it. *)
Definition classified (t : ticket) : Prop :=
  (exists s, sentiment t = Some (VStr s) /\ In s Classifier.valid_sentiments)
  /\ (exists c, confidence t = Some (VFloat c)
                /\ SFleb f_zero c = true /\ SFleb c f_one = true)
  /\ (exists k, keywords t = Some (VList k) /\ length k <= 5)
  /\ summary t <> None
  /\ processed_timestamp t <> None.

(** ** More of the dashboard: [get_system_stats], [apply_filters], the
       lists of messages and the overview *)

Module DashboardMore.
Import Dashboard.

(** *** [get_system_stats] *)

(** A [dict] of counters. *)
Definition counter := list (str * nat).

Fixpoint cget (k : str) (c : counter) : option nat :=
  match c with
  | [] => None
  | (k', n) :: c' => if str_eqb k k' then Some n else cget k c'
  end.

(** [k in c] *)
Definition cmem (k : str) (c : counter) : bool :=
  match cget k c with Some _ => true | None => false end.

(** [c[k] += 1]; [None] is the KeyError of a key that [c] does not have. *)
Fixpoint cincr (k : str) (c : counter) : option counter :=
  match c with
  | [] => None
  | (k', n) :: c' =>
      if str_eqb k k' then Some ((k', S n) :: c')
      else match cincr k c' with
           | Some r => Some ((k', n) :: r)
           | None => None
           end
  end.

Definition stats_keys : list str :=
  [py "total"; py "processed"; py "new"; py "processing"; py "error"].

(** [dict.fromkeys(keys, v)] *)
Definition fromkeys (keys : list str) (v : nat) : counter :=
  map (fun k => (k, v)) keys.

(** The body of the loop, for the [status] field of one document ([None]
    when the document has none). *)
Definition count_doc (stats : counter) (st : option str) : option counter :=
  let status := match st with Some s => s | None => py "unknown" end in
  match (if cmem status stats then cincr status stats else Some stats) with
  | Some stats => cincr (py "total") stats
  | None => None
  end.

Fixpoint count_docs (stats : counter) (statuses : list (option str))
  : option counter :=
  match statuses with
  | [] => Some stats
  | st :: rest =>
      match count_doc stats st with
      | Some stats' => count_docs stats' rest
      | None => None
      end
  end.

(** Lines 96-110, on the status fields of the documents of the collection;
    an exception in the loop gives the counters at zero. *)
Definition get_system_stats (statuses : list (option str)) : counter :=
  match count_docs (fromkeys stats_keys 0) statuses with
  | Some stats => stats
  | None => fromkeys stats_keys 0
  end.

(** The status of a ticket as the store holds it. *)
Definition status_name (st : status) : str :=
  match st with
  | New => py "new"
  | Processing => py "processing"
  | Processed => py "processed"
  | Error => py "error"
  end.

Definition statuses_of (w : world) : list (option str) :=
  map (fun d => Some (status_name (status_of (snd d)))) (docs w).

(** How many documents have the status [s]. *)
Definition status_count (s : str) (statuses : list (option str)) : nat :=
  length (filter (fun st => match st with
                            | Some s' => str_eqb s' s
                            | None => false
                            end) statuses).

(** *** [apply_filters] *)

(** A row of the frame that [load_tickets_data] builds: the fields of the
    ticket and its [source] column. *)
Record row := {
  row_ticket : ticket;
  row_source : option str
}.

Definition days (n : Z) : Z := (n * day_ms)%Z.

(** Lines 140-147. *)
Definition cutoff_of (time_range : str) (now : Z) : Z :=
  if str_eqb time_range (py "Last 24 hours") then (now - hours 24)%Z
  else if str_eqb time_range (py "Last 3 days") then (now - days 3)%Z
  else if str_eqb time_range (py "Last week") then (now - days 7)%Z
  else (now - days 30)%Z.

(** [column.isin(values)] for a column of strings. *)
Definition sentiment_isin (values : list str) (r : row) : bool :=
  match sentiment (row_ticket r) with
  | Some (VStr s) => existsb (str_eqb s) values
  | _ => false
  end.

Definition source_isin (values : list str) (r : row) : bool :=
  match row_source r with
  | Some s => existsb (str_eqb s) values
  | None => false
  end.

(** Lines 134-155; [now] is the time of the call. The frame always has a
    [source] column. *)
Definition apply_filters (df : list row) (time_range : str)
    (sentiment_filter source_filter : list str) (now : Z) : list row :=
  match df with
  | [] => df
  | _ =>
      let cutoff := cutoff_of time_range now in
      let df := filter (fun r => ts_ge cutoff (row_ticket r)) df in
      let df := filter (fun r => ts_ge cutoff (row_ticket r)) df in
      let df := match sentiment_filter with
                | [] => df
                | _ => filter (sentiment_isin sentiment_filter) df
                end in
      let df := match source_filter with
                | [] => df
                | _ => filter (source_isin source_filter) df
                end in
      df
  end.

(** The alert that [main] shows: on the filtered frame, at a later time. *)
Definition main_alert (df : list row) (time_range : str)
    (sentiment_filter source_filter : list str) (now now' : Z)
  : option (level * Q) :=
  render_alerts_section
    (map row_ticket (apply_filters df time_range sentiment_filter source_filter now))
    now'.

(** *** The lists of messages *)

(** The order of [sort_values('timestamp', ascending=False)]: newest
    first, rows without a time last. *)
Definition shown_before (a b : ticket) : bool :=
  match timestamp a, timestamp b with
  | Some x, Some y => (y <=? x)%Z
  | Some _, None => true
  | None, Some _ => false
  | None, None => true
  end.

Fixpoint insert_desc (t : ticket) (l : list ticket) : list ticket :=
  match l with
  | [] => [t]
  | u :: l' => if shown_before t u then t :: l else u :: insert_desc t l'
  end.

(** The sort itself is the library's; the order that it gives to rows of
    equal time is not fixed by the source, and this one keeps them as they
    were. *)
Definition sort_values_desc (df : list ticket) : list ticket :=
  fold_right insert_desc [] df.

(** Lines 227 and 236-238 of [render_alerts_section]: the angry messages
    that are listed. *)
Definition recent_anger_shown (df : list ticket) (now : Z) : list ticket :=
  match df with
  | [] => []
  | _ =>
      let window := (now - hours 24)%Z in
      let recent_anger :=
        sort_values_desc (filter (fun t => is_anger t && ts_ge window t) df) in
      firstn 5 recent_anger
  end.

(** Lines 275-283: the rows of [render_recent_messages]. *)
Definition render_recent_messages (df : list ticket) : list ticket :=
  match df with
  | [] => []
  | _ => firstn 20 (sort_values_desc df)
  end.

(** *** [render_sentiment_overview] *)

Definition is_sentiment (s : str) (t : ticket) : bool :=
  match sentiment t with
  | Some (VStr s') => str_eqb s' s
  | _ => false
  end.

(** An [int] that a binary64 holds exactly, as a float. *)
Definition float_of_nat (n : nat) : spec_float :=
  binary_normalize prec emax (Z.of_nat n) 0 false.

(** Line 196: [(count / total * 100) if total > 0 else 0]. The division
    and the product are those of binary64, each rounded to nearest; the
    other branch gives the [int] 0. *)
Definition percent (count total : nat) : pyval :=
  if 0 <? total
  then VFloat (SFmul prec emax
                 (SFdiv prec emax (float_of_nat count) (float_of_nat total))
                 (float_of_nat 100))
  else VInt 0.

(** Lines 186-197: for each of the four sentiments its count and its share
    in percent; [None] is the warning shown for an empty frame. *)
Definition render_sentiment_overview (df : list ticket)
  : option (list (str * nat * pyval)) :=
  match df with
  | [] => None
  | _ =>
      Some (map (fun s =>
                   let count := length (filter (is_sentiment s) df) in
                   let pct := percent count (length df) in
                   (s, count, pct))
                [py "anger"; py "confusion"; py "delight"; py "neutral"])
  end.

End DashboardMore.

Module DashboardMoreSamples.
Import Dashboard DashboardMore DashboardSamples.

Definition email_row (t : ticket) : row :=
  {| row_ticket := t; row_source := Some (py "Email") |}.

(** The ten recent tickets of [df_3_of_10], all from the mail agent. *)
Definition rows_3_of_10 : list row := map email_row df_3_of_10.

(** Three tickets, one confused, one delighted, one neutral. *)
Definition df_thirds : list ticket :=
  [processed_ticket "confusion" 1; processed_ticket "delight" 2;
   processed_ticket "neutral" 3].

(** Seven tickets created at the times 1 to 7. *)
Definition df_seven : list ticket :=
  map (processed_ticket "anger") [3; 1; 7; 2; 6; 4; 5]%Z.

End DashboardMoreSamples.

(** ** The form agent: [validate_form_data] and the four handlers *)

Module FormAgent.

(** What a call gives: its value, or the exception that it raises. The
    only one that [validate_form_data] can raise on a JSON value is the
    AttributeError of [.strip()] on a value that is not a string. *)
Inductive outcome (A : Type) : Type :=
| Returns (a : A)
| AttributeError.
Arguments Returns {A} a.
Arguments AttributeError {A}.

(** [not data] *)
Definition falsy (v : pyval) : bool :=
  match v with
  | VNone => true
  | VBool b => negb b
  | VInt n => (n =? 0)%Z
  | VFloat f => SFeqb f f_zero
  | VStr s => match s with [] => true | _ => false end
  | VList l => match l with [] => true | _ => false end
  | VDict d => match d with [] => true | _ => false end
  end.

(** Lines 101-110. *)
Definition validate_form_data (data : pyval) : outcome (bool * str) :=
  match data with
  | VDict d =>
      match dget (py "message") d with
      | None => Returns (false, py "Missing required field: message")
      | Some (VStr m) =>
          match strip m with
          | [] => Returns (false, py "Missing required field: message")
          | _ =>
              if (10000 <? Z.of_nat (length m))%Z
              then Returns (false, py "Message too long (max 10000 characters)")
              else Returns (true, py "Valid")
          end
      | Some _ => AttributeError
      end
  | _ => Returns (false, py "Data must be a JSON object")
  end.

(** The answer of a handler: the success body with its message and the id
    of the submission, or an error body with its status code. *)
Inductive response :=
| Success (message submission_id : str)
| Failure (code : Z) (error : str).

(** The common body of the four handlers, lines 150-217, on the value that
    [request.get_json()] returned; [store] is [store_form_submission],
    [None] when it raises. *)
Definition handle_form (store : pyval -> str -> option str)
    (form_type success_message : str) (data : pyval) : response :=
  if falsy data then Failure 400 (py "No JSON data provided")
  else
    match validate_form_data data with
    | AttributeError => Failure 500 (py "Internal server error")
    | Returns (false, message) => Failure 400 message
    | Returns (true, _) =>
        match store data form_type with
        | Some submission_id => Success success_message submission_id
        | None => Failure 500 (py "Internal server error")
        end
    end.

Definition handle_contact_form store :=
  handle_form store (py "Contact") (py "Contact form submitted successfully").
Definition handle_feedback_form store :=
  handle_form store (py "Feedback") (py "Feedback submitted successfully").
Definition handle_support_form store :=
  handle_form store (py "Support") (py "Support ticket submitted successfully").
Definition handle_custom_form store :=
  handle_form store (py "Custom") (py "Form submitted successfully").

End FormAgent.

Module FormSamples.
Import FormAgent.

Definition store_ok (data : pyval) (form_type : str) : option str := Some (py "doc1").

Definition good_form : pyval :=
  VDict [(py "email", VStr (py "a@b.c")); (py "message", VStr (py "The app crashes"))].

(** The message is a number. *)
Definition number_form : pyval := VDict [(py "message", VInt 42)].

End FormSamples.

(** ** The agent over a client whose calls may raise

    [Worker] above takes every call of the store's client to reach the
    collection. Here a call may raise before it does (the network, the
    credentials): the [try]/[except] paths of lines 216-218, 241-243 and
    285-289 are taken then. *)

Module Agent.
Import Classifier.

(** When a call of the client raises: the query of the pending tickets, and
    the update of a document to a status. *)
Record client := {
  query_raises : world -> bool;
  update_raises : str -> status -> world -> bool
}.

(** A client whose calls always reach the collection. *)
Definition reliable : client :=
  {| query_raises := fun _ => false; update_raises := fun _ _ _ => false |}.

(** [query.get()] of [where('status', '==', 'new').limit(self.batch_size)] *)
Definition query_get (C : client) (E : env) : M (list (str * ticket)) :=
  fun w =>
    if query_raises C w then (Raise TransportError, w)
    else (Ok (firstn (batch_size E) (filter Worker.is_new (docs w))), w).

(** Lines 198-218: an exception of the query is logged and the result is
    the empty list. *)
Definition get_pending_tickets (C : client) (E : env) : M (list (str * ticket)) :=
  try_except (query_get C E) (fun _ => ret []).

(** Lines 220-243: [update_data] is built first, then
    [ticket_ref.update(update_data)] is called; the [except] clause logs
    and raises again. *)
Definition update_ticket_status (C : client) (ticket_id : str) (st : status)
    (sentiment_data : option dict) : M unit :=
  fields <- lift (match sentiment_data with
                  | Some ((_ :: _) as d) =>
                      s <-- subscript d (py "sentiment");;
                      su <-- subscript d (py "summary");;
                      c <-- subscript d (py "confidence");;
                      k <-- subscript d (py "keywords");;
                      Ok (Some (s, su, c, k))
                  | _ => Ok None
                  end) ;;
  fun w =>
    if update_raises C ticket_id st w then (Raise TransportError, w)
    else
      match Worker.update_doc ticket_id
              (Worker.apply_update st (clock w) fields) (docs w) with
      | Some ds =>
          (Ok tt, {| docs := ds; clock := clock w; calls := calls w;
                     trace := trace w ++ [EvWrite ticket_id st] |})
      | None => (Raise (NotFound ticket_id), w)
      end.

(** The body of the [for] loop, lines 256-289. *)
Definition process_ticket (C : client) (E : env) (counts : nat * nat)
    (ticket : str * ticket) : M (nat * nat) :=
  let '(processed_count, error_count) := counts in
  let ticket_id := fst ticket in
  try_except
    (let message := Worker.get_message (snd ticket) in
     match strip message with
     | [] =>
         update_ticket_status C ticket_id Error None ;;;
         ret (processed_count, S error_count)
     | _ =>
         update_ticket_status C ticket_id Processing None ;;;
         sentiment_result <- analyze_sentiment_with_gemini E message ;;
         update_ticket_status C ticket_id Processed (Some sentiment_result) ;;;
         sleep 2000 ;;;
         ret (S processed_count, error_count)
     end)
    (fun _ =>
       try_except (update_ticket_status C ticket_id Error None) (fun _ => ret tt) ;;;
       ret (processed_count, S error_count)).

(** Lines 245-291. *)
Definition process_tickets_batch (C : client) (E : env) : M pyval :=
  tickets <- get_pending_tickets C E ;;
  match tickets with
  | [] => ret VNone
  | _ =>
      counts <- Worker.for_each (process_ticket C E) tickets (0, 0) ;;
      emit (EvBatchLog (fst counts) (snd counts)) ;;;
      ret VNone
  end.

End Agent.

Module AgentSamples.
Import Agent Samples.

(** A client that cannot reach the document [t1]. *)
Definition C_no_t1 : client :=
  {| query_raises := fun _ => false;
     update_raises := fun id _ _ => str_eqb id (py "t1") |}.

(** A client that reaches every document but [zz]. *)
Definition C_no_zz : client :=
  {| query_raises := fun _ => false;
     update_raises := fun id _ _ => str_eqb id (py "zz") |}.

(** A client whose query raises. *)
Definition C_no_query : client :=
  {| query_raises := fun _ => true; update_raises := fun _ _ _ => false |}.

End AgentSamples.

(** The calls that a batch started in [w] makes do not raise: its query,
    and every update of a document that the query returns. *)
Definition calls_succeed (C : Agent.client) (E : env) (w : world) : Prop :=
  Agent.query_raises C w = false
  /\ forall id st w0,
       In id (map fst (firstn (batch_size E) (filter Worker.is_new (docs w)))) ->
       Agent.update_raises C id st w0 = false.

(** * Properties *)

Lemma str_eqb_refl (a : str) : str_eqb a a = true.
Proof. unfold str_eqb. destruct (str_eq_dec a a); congruence. Qed.

Lemma str_eqb_eq (a b : str) : str_eqb a b = true <-> a = b.
Proof. unfold str_eqb. destruct (str_eq_dec a b); split; congruence. Qed.

Lemma str_eqb_neq (a b : str) : str_eqb a b = false <-> a <> b.
Proof. unfold str_eqb. destruct (str_eq_dec a b); split; congruence. Qed.

Module StoreFacts.
Import Worker.

Lemma update_doc_found id f ds t :
  find_doc id ds = Some t ->
  exists ds', update_doc id f ds = Some ds' /\ find_doc id ds' = Some (f t).
Proof.
  induction ds as [|[i u] ds IH]; simpl; [discriminate|].
  destruct (str_eqb id i) eqn:Hi.
  - intros [= ->]. eexists. split; [reflexivity|]. simpl. now rewrite Hi.
  - intros H. destruct (IH H) as (ds' & -> & Hf).
    eexists. split; [reflexivity|]. simpl. now rewrite Hi.
Qed.

Lemma update_doc_other id f ds ds' j :
  update_doc id f ds = Some ds' -> j <> id -> find_doc j ds' = find_doc j ds.
Proof.
  revert ds'. induction ds as [|[i u] ds IH]; simpl; [discriminate|].
  intros ds'. destruct (str_eqb id i) eqn:Hi.
  - intros [= <-] Hj. apply str_eqb_eq in Hi. subst i. simpl.
    apply str_eqb_neq in Hj. now rewrite Hj.
  - destruct (update_doc id f ds) as [r|] eqn:Hr; [|discriminate].
    intros [= <-] Hj. simpl. destruct (str_eqb j i); [reflexivity|].
    now apply IH.
Qed.

Lemma update_doc_ids id f ds ds' :
  update_doc id f ds = Some ds' -> map fst ds' = map fst ds.
Proof.
  revert ds'. induction ds as [|[i u] ds IH]; simpl; [discriminate|].
  intros ds'. destruct (str_eqb id i).
  - now intros [= <-].
  - destruct (update_doc id f ds) as [r|]; [|discriminate].
    intros [= <-]. simpl. f_equal. now apply IH.
Qed.

Lemma find_doc_in_ids id ds :
  In id (map fst ds) <-> find_doc id ds <> None.
Proof.
  induction ds as [|[i u] ds IH]; simpl.
  - tauto.
  - destruct (str_eqb id i) eqn:Hi.
    + apply str_eqb_eq in Hi. subst. split; [discriminate|auto].
    + apply str_eqb_neq in Hi. rewrite <- IH. split; [|tauto].
      intros [H|H]; [congruence|exact H].
Qed.

(** A status update without classification data, on a document of the
    store. *)
Lemma update_status_run id st t w :
  find_doc id (docs w) = Some t ->
  exists ds',
    update_ticket_status id st None w =
      (Ok tt, {| docs := ds'; clock := clock w; calls := calls w;
                 trace := trace w ++ [EvWrite id st] |})
    /\ update_doc id (apply_update st (clock w) None) (docs w) = Some ds'
    /\ find_doc id ds' = Some (apply_update st (clock w) None t).
Proof.
  intros H.
  destruct (update_doc_found id (apply_update st (clock w) None) _ _ H)
    as (ds' & Hu & Hf).
  exists ds'. unfold update_ticket_status, bind, lift. now rewrite Hu.
Qed.

End StoreFacts.

(** ** The worker *)

Module WorkerFacts.
Import Worker StoreFacts Samples.

(** C1. A ticket whose message is empty or only whitespace is written to
    Error by the only store update made for it: no update to Processing is
    made and the classifier is not called. *)
Theorem blank_message_straight_to_error
    (E : env) (w : world) (id : str) (t t0 : ticket) (counts : nat * nat) :
  strip (get_message t) = [] ->
  find_doc id (docs w) = Some t0 ->
  exists w',
    process_ticket E counts (id, t) w = (Ok (fst counts, S (snd counts)), w')
    /\ trace w' = trace w ++ [EvWrite id Error]
    /\ calls w' = calls w
    /\ status_in (docs w') id = Some Error.
Proof.
  intros Hblank Hdoc. destruct counts as [p e].
  destruct (update_status_run id Error _ w Hdoc) as (ds' & Hrun & _ & Hfind).
  eexists. unfold process_ticket, try_except, bind. cbn [fst snd].
  rewrite Hblank. rewrite Hrun. simpl.
  split; [reflexivity|]. split; [reflexivity|]. split; [reflexivity|].
  unfold status_in. cbn [docs]. rewrite Hfind. reflexivity.
Qed.

Lemma blank_message_straight_to_error_witness :
  exists w',
    process_ticket E_down (0, 0) (py "t1", t_blank) w_blank = (Ok (0, 1), w')
    /\ trace w' = [EvWrite (py "t1") Error]
    /\ calls w' = 0
    /\ status_in (docs w') (py "t1") = Some Error.
Proof.
  apply (blank_message_straight_to_error E_down w_blank (py "t1") t_blank t_blank (0, 0));
    reflexivity.
Defined.

(** C8, as the code has it. Every status update stamps
    [processed_timestamp] with the server time, also the one to
    Processing; an update without classification data changes nothing
    else than the status and that stamp, and the four classification
    fields are written by the update that carries them. *)
Theorem status_update_frame (id : str) (st : status) (t : ticket) (w : world) :
  find_doc id (docs w) = Some t ->
  (exists w' t',
     update_ticket_status id st None w = (Ok tt, w')
     /\ find_doc id (docs w') = Some t'
     /\ status_of t' = st
     /\ processed_timestamp t' = Some (clock w)
     /\ message t' = message t /\ timestamp t' = timestamp t
     /\ sentiment t' = sentiment t /\ summary t' = summary t
     /\ confidence t' = confidence t /\ keywords t' = keywords t)
  /\ (forall d s su c k,
        d <> [] ->
        dget (py "sentiment") d = Some s -> dget (py "summary") d = Some su ->
        dget (py "confidence") d = Some c -> dget (py "keywords") d = Some k ->
        exists w' t',
          update_ticket_status id st (Some d) w = (Ok tt, w')
          /\ find_doc id (docs w') = Some t'
          /\ status_of t' = st
          /\ processed_timestamp t' = Some (clock w)
          /\ message t' = message t /\ timestamp t' = timestamp t
          /\ sentiment t' = Some s /\ summary t' = Some su
          /\ confidence t' = Some c /\ keywords t' = Some k).
Proof.
  intros Hdoc. split.
  - destruct (update_status_run id st _ w Hdoc) as (ds' & Hrun & _ & Hfind).
    do 2 eexists. split; [exact Hrun|]. split; [exact Hfind|].
    simpl. repeat split; reflexivity.
  - intros d s su c k Hd Hs Hsu Hc Hk.
    destruct (update_doc_found id
                (apply_update st (clock w) (Some (s, su, c, k))) _ _ Hdoc)
      as (ds' & Hu & Hf).
    exists {| docs := ds'; clock := clock w; calls := calls w;
              trace := trace w ++ [EvWrite id st] |}.
    eexists. split.
    + unfold update_ticket_status, bind, lift, subscript.
      destruct d as [|kv d]; [congruence|].
      rewrite Hs, Hsu, Hc, Hk. simpl. rewrite Hu. reflexivity.
    + split; [exact Hf|]. simpl. repeat split; reflexivity.
Qed.

Lemma status_update_frame_witness :
  exists w' t',
    update_ticket_status (py "t1") Processing None w_angry = (Ok tt, w')
    /\ find_doc (py "t1") (docs w') = Some t'
    /\ status_of t' = Processing
    /\ processed_timestamp t' = Some 1000%Z
    /\ message t' = message t_angry /\ timestamp t' = timestamp t_angry
    /\ sentiment t' = sentiment t_angry /\ summary t' = summary t_angry
    /\ confidence t' = confidence t_angry /\ keywords t' = keywords t_angry.
Proof.
  apply (status_update_frame (py "t1") Processing t_angry w_angry).
  reflexivity.
Defined.

(** C8 as stated fails: the update to Processing of a new ticket, whose
    [processed_timestamp] is unset, sets it. *)
Lemma processing_sets_processed_timestamp :
  exists w' t',
    update_ticket_status (py "t1") Processing None w_angry = (Ok tt, w')
    /\ find_doc (py "t1") (docs w_angry) = Some t_angry
    /\ processed_timestamp t_angry = None
    /\ find_doc (py "t1") (docs w') = Some t'
    /\ status_of t' = Processing
    /\ processed_timestamp t' = Some 1000%Z.
Proof.
  do 2 eexists. vm_compute. repeat split; reflexivity.
Qed.

End WorkerFacts.

(** ** Strings *)

Module StrFacts.

Lemma strip_prefix_app (p r : str) : strip_prefix p (p ++ r) = Some r.
Proof.
  induction p as [|x p IH]; simpl; [reflexivity|].
  now rewrite N.eqb_refl.
Qed.

Lemma strip_prefix_some (p s r : str) : strip_prefix p s = Some r -> s = p ++ r.
Proof.
  revert s. induction p as [|x p IH]; intros s; simpl.
  - now intros [= ->].
  - destruct s as [|y s]; [discriminate|].
    destruct (x =? y)%N eqn:Hxy; [|discriminate].
    apply N.eqb_eq in Hxy. subst y. intros H. f_equal. now apply IH.
Qed.

Lemma startswith_app (p r : str) : startswith (p ++ r) p = true.
Proof. unfold startswith. now rewrite strip_prefix_app. Qed.

Lemma startswith_iff (s p : str) :
  startswith s p = true <-> exists r, s = p ++ r.
Proof.
  unfold startswith. split.
  - destruct (strip_prefix p s) as [r|] eqn:H; [|discriminate].
    intros _. exists r. now apply strip_prefix_some.
  - intros [r ->]. now rewrite strip_prefix_app.
Qed.

Lemma endswith_app (b c : str) : endswith (b ++ c) c = true.
Proof. unfold endswith. rewrite rev_app_distr. apply startswith_app. Qed.

Lemma slice_from_app (p r : str) : slice_from (length p) (p ++ r) = r.
Proof.
  unfold slice_from. rewrite skipn_app, skipn_all, Nat.sub_diag. reflexivity.
Qed.

Lemma slice_to_minus_app (b c : str) :
  slice_to_minus (length c) (b ++ c) = b.
Proof.
  unfold slice_to_minus. rewrite length_app, Nat.add_sub.
  rewrite firstn_app, firstn_all, Nat.sub_diag. simpl. apply app_nil_r.
Qed.

Lemma strip_nil_of_nil (s : str) : s = [] -> strip s = [].
Proof. now intros ->. Qed.

End StrFacts.

(** ** The classifier call *)

Module ClassifierFacts.
Import Normalizer Classifier StrFacts Samples.

(** What [unfence] leaves of a text in fences. *)
Lemma unfence_both (body : str) :
  unfence (py "```json" ++ body ++ py "```") = body.
Proof.
  unfold unfence. rewrite startswith_app.
  change 7 with (length (py "```json")). rewrite slice_from_app.
  rewrite endswith_app.
  change 3 with (length (py "```")). apply slice_to_minus_app.
Qed.

Lemma unfence_open (body : str) :
  endswith body (py "```") = false ->
  unfence (py "```json" ++ body) = body.
Proof.
  intros H. unfold unfence. rewrite startswith_app.
  change 7 with (length (py "```json")). rewrite slice_from_app.
  now rewrite H.
Qed.

Lemma unfence_close (body : str) :
  startswith (body ++ py "```") (py "```json") = false ->
  unfence (body ++ py "```") = body.
Proof.
  intros H. unfold unfence. rewrite H. rewrite endswith_app.
  change 3 with (length (py "```")). apply slice_to_minus_app.
Qed.

Lemma py_float_raises (fos : str -> option spec_float) (v : pyval) (e : exn) :
  py_float fos v = Raise e -> e = ValueError \/ e = TypeError \/ e = OverflowError.
Proof.
  destruct v; simpl; try (intros [= <-]; tauto); try discriminate.
  - destruct (binary_normalize prec emax n 0 false); try discriminate.
    intros [= <-]; tauto.
  - destruct (fos s); try discriminate. intros [= <-]; tauto.
Qed.

Lemma clamp_confidence_raises (E : env) (c : pyval) (e : exn) :
  clamp_confidence E c = Raise e -> e = OverflowError.
Proof.
  unfold clamp_confidence.
  destruct (py_float (float_of_str E) c) as [f|e'] eqn:H; [discriminate|].
  apply py_float_raises in H.
  destruct H as [-> | [-> | ->]]; try discriminate. now intros [= <-].
Qed.

Lemma check_keys_raises (keys : list str) (d : dict) (e : exn) :
  check_keys keys d = Raise e -> exists k, e = MissingKey k.
Proof.
  induction keys as [|k ks IH]; simpl; [discriminate|].
  destruct (dhas k d); [exact IH|]. intros [= <-]. now exists k.
Qed.

Lemma rbind_raise {A B} (r : result A) (k : A -> result B) (e : exn) :
  rbind r k = Raise e -> r = Raise e \/ exists a, r = Ok a /\ k a = Raise e.
Proof.
  destruct r as [a|e']; simpl.
  - intros H. right. now exists a.
  - intros [= ->]. now left.
Qed.

Lemma subscript_raises (d : dict) (k : str) (e : exn) :
  subscript d k = Raise e -> e = KeyError k.
Proof. unfold subscript. destruct (dget k d); [discriminate|]. now intros [= <-]. Qed.

Lemma slice5_raises (v : pyval) (e : exn) : slice5 v = Raise e -> e = TypeError.
Proof. destruct v; simpl; try discriminate; now intros [= <-]. Qed.

Ltac peel H := apply rbind_raise in H; destruct H as [H | (? & _ & H)].

(** A decoded value is never rejected as undecodable. *)
Lemma validate_not_invalid_json (E : env) (v : pyval) :
  validate E v <> Raise InvalidJSON.
Proof.
  intros H. destruct v; unfold validate in H; try discriminate.
  peel H. { apply check_keys_raises in H. destruct H; discriminate. }
  peel H. { apply subscript_raises in H. discriminate. }
  peel H. { apply subscript_raises in H. discriminate. }
  peel H. { apply clamp_confidence_raises in H. discriminate. }
  peel H. { apply subscript_raises in H. discriminate. }
  peel H. { apply subscript_raises in H. discriminate. }
  peel H. { apply slice5_raises in H. discriminate. }
  discriminate.
Qed.

(** C10. A response whose text, once trimmed, opens with the fence
    [```json], closes with the fence [```], or both, is decoded without its
    fences: when what is between them decodes, the attempt goes on to the
    validation of the decoded value and is no JSON-decode failure. *)
Theorem fenced_response_is_decoded (E : env) (text body : str) (v : pyval) :
  strip text = py "```json" ++ body ++ py "```"
  \/ (strip text = py "```json" ++ body /\ endswith body (py "```") = false)
  \/ (strip text = body ++ py "```"
      /\ startswith (strip text) (py "```json") = false) ->
  json_loads E body = Some v ->
  parse_response E text = validate E v
  /\ parse_response E text <> Raise InvalidJSON.
Proof.
  intros Hfence Hbody.
  assert (Hun : unfence (strip text) = body).
  { destruct Hfence as [-> | [[-> Hend] | [Heq Hstart]]].
    - apply unfence_both.
    - now apply unfence_open.
    - rewrite Heq in *. now apply unfence_close. }
  assert (Hne : text <> []).
  { intros ->. simpl in Hfence.
    destruct Hfence as [H | [[H _] | [H _]]];
      try discriminate H.
    destruct body; discriminate H. }
  assert (Hp : parse_response E text = validate E v).
  { unfold parse_response. destruct text as [|a text]; [congruence|].
    now rewrite Hun, Hbody. }
  split; [exact Hp|]. rewrite Hp. apply validate_not_invalid_json.
Qed.

Lemma fenced_response_is_decoded_witness :
  parse_response E_fenced fenced_reply = validate E_fenced sample_value
  /\ parse_response E_fenced fenced_reply <> Raise InvalidJSON.
Proof.
  apply (fenced_response_is_decoded E_fenced fenced_reply
           ([10%N] ++ sample_json ++ [10%N]) sample_value).
  - left. vm_compute. reflexivity.
  - vm_compute. reflexivity.
Defined.

(** *** Validation *)

Lemma dget_dset_same (k : str) (v : pyval) (d : dict) :
  dget k (dset k v d) = Some v.
Proof.
  induction d as [|[k' v'] d IH]; simpl.
  - now rewrite str_eqb_refl.
  - destruct (str_eqb k k') eqn:H; simpl; [now rewrite str_eqb_refl|].
    now rewrite H.
Qed.

Lemma dget_dset_other (k k' : str) (v : pyval) (d : dict) :
  k <> k' -> dget k' (dset k v d) = dget k' d.
Proof.
  intros Hk. induction d as [|[k0 v0] d IH]; simpl.
  - apply not_eq_sym in Hk. apply str_eqb_neq in Hk. now rewrite Hk.
  - destruct (str_eqb k k0) eqn:H; simpl.
    + apply str_eqb_eq in H. subst k0.
      apply not_eq_sym in Hk. apply str_eqb_neq in Hk. now rewrite Hk.
    + destruct (str_eqb k' k0); [reflexivity|exact IH].
Qed.

Lemma SFltb_SFleb (a b : spec_float) : SFltb a b = true -> SFleb a b = true.
Proof.
  unfold SFltb, SFleb. destruct (SFcompare a b) as [[]|]; congruence.
Qed.

(** [max(0.0, min(1.0, f))] lies between 0.0 and 1.0, whatever [f] is (a
    NaN gives 1.0). *)
Lemma clamp_in_unit (f : spec_float) :
  let r := py_max f_zero (py_min f_one f) in
  SFleb f_zero r = true /\ SFleb r f_one = true.
Proof.
  unfold py_max, py_min. destruct (SFltb f f_one) eqn:H1.
  - destruct (SFltb f_zero f) eqn:H0.
    + split; now apply SFltb_SFleb.
    + split; reflexivity.
  - split; reflexivity.
Qed.

Lemma clamp_confidence_ok (E : env) (c : pyval) (f : spec_float) :
  clamp_confidence E c = Ok f -> SFleb f_zero f = true /\ SFleb f f_one = true.
Proof.
  unfold clamp_confidence.
  destruct (py_float (float_of_str E) c) as [g|e].
  - intros [= <-]. apply clamp_in_unit.
  - destruct e; try discriminate; intros [= <-]; split; reflexivity.
Qed.

(** A value that is not parseable as a number gives 0.5. *)
Lemma clamp_confidence_unparseable (E : env) (c : pyval) :
  py_float (float_of_str E) c = Raise ValueError
  \/ py_float (float_of_str E) c = Raise TypeError ->
  clamp_confidence E c = Ok f_half.
Proof. unfold clamp_confidence. now intros [-> | ->]. Qed.

Lemma is_valid_sentiment_spec (v : pyval) :
  is_valid_sentiment v = true -> exists s, v = VStr s /\ In s valid_sentiments.
Proof.
  destruct v; try discriminate. unfold is_valid_sentiment. intros H.
  exists s. split; [reflexivity|].
  apply existsb_exists in H. destruct H as (x & Hin & Hx).
  apply str_eqb_eq in Hx. now subst x.
Qed.

(** What every accepted response looks like after validation: a known
    sentiment, a confidence between 0 and 1, at most five keywords. *)
Lemma validate_ok_repaired (E : env) (v : pyval) (d : dict) :
  validate E v = Ok d ->
  (exists s, dget (py "sentiment") d = Some (VStr s) /\ In s valid_sentiments)
  /\ (exists c, dget (py "confidence") d = Some (VFloat c)
                /\ SFleb f_zero c = true /\ SFleb c f_one = true)
  /\ (exists k, dget (py "keywords") d = Some (VList k) /\ length k <= 5).
Proof.
  destruct v as [| | | | |l|r]; unfold validate; try discriminate.
  destruct (check_keys required_keys r); [|discriminate]. cbn [rbind].
  destruct (subscript r (py "sentiment")) as [s|] eqn:Hs; [|discriminate].
  cbn [rbind].
  set (r1 := if is_valid_sentiment s then r
             else dset (py "sentiment") (VStr (py "neutral")) r).
  assert (Hr1 : exists s', dget (py "sentiment") r1 = Some (VStr s')
                       /\ In s' valid_sentiments).
  { subst r1. destruct (is_valid_sentiment s) eqn:Hv.
    - apply is_valid_sentiment_spec in Hv. destruct Hv as (s' & -> & Hin).
      exists s'. split; [|exact Hin]. unfold subscript in Hs.
      destruct (dget (py "sentiment") r); congruence.
    - exists (py "neutral"). split; [apply dget_dset_same|].
      simpl. tauto. }
  destruct (subscript r1 (py "confidence")) as [c|]; [|discriminate].
  cbn [rbind].
  destruct (clamp_confidence E c) as [conf|] eqn:Hc; [|discriminate].
  cbn [rbind]. apply clamp_confidence_ok in Hc.
  set (r2 := dset (py "confidence") (VFloat conf) r1).
  destruct (subscript r2 (py "keywords")) as [k|] eqn:Hk; [|discriminate].
  cbn [rbind].
  set (r3 := if is_list k then r2 else dset (py "keywords") (VList []) r2).
  destruct (subscript r3 (py "keywords")) as [k'|] eqn:Hk'; [|discriminate].
  cbn [rbind].
  destruct (slice5 k') as [k5|] eqn:Hk5; [|discriminate]. cbn [rbind].
  intros [= <-].
  assert (Hsent3 : dget (py "sentiment") r3 = dget (py "sentiment") r1).
  { subst r3 r2. destruct (is_list k);
      repeat (rewrite dget_dset_other by (vm_compute; discriminate));
      reflexivity. }
  assert (Hconf3 : dget (py "confidence") r3 = Some (VFloat conf)).
  { subst r3 r2. destruct (is_list k);
      repeat (rewrite dget_dset_other by (vm_compute; discriminate));
      apply dget_dset_same. }
  split; [|split].
  - rewrite dget_dset_other by (vm_compute; discriminate).
    rewrite Hsent3. exact Hr1.
  - exists conf. rewrite dget_dset_other by (vm_compute; discriminate).
    split; [exact Hconf3|exact Hc].
  - rewrite dget_dset_same.
    assert (Hl : exists l, k' = VList l).
    { subst r3. destruct (is_list k) eqn:Hl.
      - rewrite Hk in Hk'. injection Hk' as <-.
        destruct k; try discriminate. now eexists.
      - unfold subscript in Hk'. rewrite dget_dset_same in Hk'.
        injection Hk' as <-. now eexists. }
    destruct Hl as [l ->]. unfold slice5 in Hk5. injection Hk5 as <-.
    eexists. split; [reflexivity|]. exact (firstn_le_length 5 l).
Qed.

(** C4 fails on the code. A response that has the four keys and whose
    confidence is the integer 10^400 is not repaired: [float] raises
    OverflowError, which the handler for ValueError and TypeError lets
    through, and the attempt fails. *)
Theorem huge_confidence_is_not_clamped (E : env) :
  check_keys required_keys huge_confidence = Ok tt
  /\ validate E (VDict huge_confidence) = Raise OverflowError.
Proof. split; vm_compute; reflexivity. Qed.

End ClassifierFacts.

(** ** Retries and the processing of one ticket *)

Module PipelineFacts.
Import Normalizer Classifier Worker StoreFacts Samples.

Lemma clean_text_of_blank (m : str) : strip m = [] -> clean_text m = [].
Proof.
  intros H. unfold clean_text. destruct m; [reflexivity|]. now rewrite H.
Qed.

(** One attempt on a message that reaches the classifier, when the call
    fails. *)
Lemma analyze_once_fails (E : env) (m : str) (w : world) :
  10 <= length (clean_text m) ->
  classifier_fails E (calls w) (prompt_head E ++ clean_text m) ->
  exists e,
    (e = TransportError \/ e = InvalidJSON)
    /\ analyze_once E m w =
         (Raise e, {| docs := docs w; clock := clock w; calls := S (calls w);
                      trace := trace w ++ [EvGenerate (prompt_head E ++ clean_text m)] |}).
Proof.
  intros Hlen Hfail. unfold analyze_once.
  destruct (length (clean_text m) <? 10) eqn:Hlt.
  { apply Nat.ltb_lt in Hlt. lia. }
  unfold bind, generate, classifier_fails in *.
  destruct (generate_content E (calls w) (prompt_head E ++ clean_text m))
    as [text|].
  - destruct Hfail as [Hne Hj]. exists InvalidJSON. split; [now right|].
    unfold lift, parse_response. destruct text; [congruence|]. now rewrite Hj.
  - exists TransportError. split; [now left|reflexivity].
Qed.

Lemma analyze_fails_after_three (E : env) (m : str) (w : world) :
  let p := prompt_head E ++ clean_text m in
  10 <= length (clean_text m) ->
  (forall n, classifier_fails E n p) ->
  exists e,
    (e = TransportError \/ e = InvalidJSON)
    /\ analyze_sentiment_with_gemini E m w =
         (Raise e,
          {| docs := docs w; clock := (clock w + 2000 + 4000)%Z;
             calls := 3 + calls w;
             trace := trace w ++ [EvGenerate p; EvSleep 2000; EvGenerate p;
                                  EvSleep 4000; EvGenerate p] |}).
Proof.
  intros p Hlen Hfail.
  unfold analyze_sentiment_with_gemini, stop_max_attempt_number.
  cbn [retry_call]. unfold try_except at 1.
  destruct (analyze_once_fails E m w Hlen (Hfail _)) as (e1 & _ & ->).
  change (stop_after_attempt 1) with false. cbv iota.
  unfold bind at 1, sleep at 1. unfold try_except at 1.
  match goal with |- context [analyze_once E m ?w1] =>
    destruct (analyze_once_fails E m w1 Hlen (Hfail _)) as (e2 & _ & ->) end.
  change (stop_after_attempt 2) with false. cbv iota.
  unfold bind at 1, sleep at 1. unfold try_except at 1.
  match goal with |- context [analyze_once E m ?w1] =>
    destruct (analyze_once_fails E m w1 Hlen (Hfail _)) as (e3 & He3 & ->) end.
  change (stop_after_attempt 3) with true. cbv iota.
  exists e3. split; [exact He3|]. unfold raise. cbn [docs clock calls trace].
  repeat rewrite <- app_assoc. reflexivity.
Qed.

(** C2. When every call of the classifier for a message fails (the
    transport raises or the response does not decode), the decorated
    function makes exactly three calls, sleeping 2000 ms and then 4000 ms
    between them, and raises the exception of the last attempt; the
    processing of the ticket then ends with the update to Error. *)
Theorem classifier_down_three_attempts
    (E : env) (w : world) (id : str) (t t0 : ticket) (counts : nat * nat) :
  let m := get_message t in
  let p := prompt_head E ++ clean_text m in
  10 <= length (clean_text m) ->
  (forall n, classifier_fails E n p) ->
  find_doc id (docs w) = Some t0 ->
  (exists e w1,
     analyze_sentiment_with_gemini E m w = (Raise e, w1)
     /\ (e = TransportError \/ e = InvalidJSON)
     /\ trace w1 = trace w ++ [EvGenerate p; EvSleep 2000; EvGenerate p;
                               EvSleep 4000; EvGenerate p]
     /\ calls w1 = 3 + calls w)
  /\ exponential_sleep 2 = (2 * exponential_sleep 1)%Z
  /\ (exists w2,
        process_ticket E counts (id, t) w = (Ok (fst counts, S (snd counts)), w2)
        /\ trace w2 = trace w ++ [EvWrite id Processing;
                                  EvGenerate p; EvSleep 2000; EvGenerate p;
                                  EvSleep 4000; EvGenerate p;
                                  EvWrite id Error]
        /\ calls w2 = 3 + calls w
        /\ status_in (docs w2) id = Some Error).
Proof.
  intros m p Hlen Hfail Hdoc. split; [|split; [reflexivity|]].
  - destruct (analyze_fails_after_three E m w Hlen Hfail) as (e & He & Hrun).
    do 2 eexists. split; [exact Hrun|]. split; [exact He|]. split; reflexivity.
  - destruct counts as [pc ec].
    unfold process_ticket. cbn [fst snd]. fold m.
    destruct (strip m) as [|c s] eqn:Hstrip.
    { apply clean_text_of_blank in Hstrip. rewrite Hstrip in Hlen.
      simpl in Hlen. lia. }
    unfold try_except at 1. unfold bind at 1.
    destruct (update_status_run id Processing _ w Hdoc) as (ds1 & -> & _ & Hf1).
    unfold bind at 1.
    match goal with |- context [analyze_sentiment_with_gemini E m ?w1] =>
      destruct (analyze_fails_after_three E m w1 Hlen Hfail) as (e & _ & ->) end.
    unfold bind at 1. unfold try_except at 1.
    match goal with |- context [update_ticket_status id Error None ?w1] =>
      destruct (update_status_run id Error _ w1 Hf1) as (ds2 & -> & _ & Hf2) end.
    eexists. split; [reflexivity|]. cbn [docs clock calls trace].
    split; [|split; [reflexivity|]].
    + repeat rewrite <- app_assoc. reflexivity.
    + unfold status_in. rewrite Hf2. reflexivity.
Qed.

Lemma classifier_down_three_attempts_witness :
  let p := prompt_head E_down ++ clean_text (get_message t_angry) in
  (exists e w1,
     analyze_sentiment_with_gemini E_down (get_message t_angry) w_angry = (Raise e, w1)
     /\ (e = TransportError \/ e = InvalidJSON)
     /\ trace w1 = trace w_angry ++ [EvGenerate p; EvSleep 2000; EvGenerate p;
                                     EvSleep 4000; EvGenerate p]
     /\ calls w1 = 3 + calls w_angry)
  /\ exponential_sleep 2 = (2 * exponential_sleep 1)%Z
  /\ (exists w2,
        process_ticket E_down (0, 0) (py "t1", t_angry) w_angry = (Ok (0, 1), w2)
        /\ trace w2 = trace w_angry ++ [EvWrite (py "t1") Processing;
                                        EvGenerate p; EvSleep 2000; EvGenerate p;
                                        EvSleep 4000; EvGenerate p;
                                        EvWrite (py "t1") Error]
        /\ calls w2 = 3 + calls w_angry
        /\ status_in (docs w2) (py "t1") = Some Error).
Proof.
  apply (classifier_down_three_attempts E_down w_angry (py "t1") t_angry t_angry (0, 0)).
  - vm_compute. lia.
  - intros n. exact I.
  - reflexivity.
Defined.

End PipelineFacts.

(** ** The dashboard *)

Module DashboardFacts.
Import Dashboard Spec DashboardSamples.

Lemma filter_andb {A} (f g : A -> bool) (l : list A) :
  filter (fun x => f x && g x) l = filter f (filter g l).
Proof.
  induction l as [|x l IH]; simpl; [reflexivity|].
  destruct (g x); simpl; destruct (f x); simpl; rewrite IH; reflexivity.
Qed.

Lemma ts_ge_window (now : Z) (t : ticket) :
  ts_ge (now - hours 24) t = in_last_24h now t.
Proof. reflexivity. Qed.

Lemma level_cases (r : Q) :
  let lv := if Qle_bool (3 # 10) r then Critical
            else if Qle_bool (2 # 10) r then Elevated else Stable in
  (lv = Critical <-> (3 # 10 <= r)%Q)
  /\ (lv = Elevated <-> (2 # 10 <= r)%Q /\ (r < 3 # 10)%Q)
  /\ (lv = Stable <-> (r < 2 # 10)%Q).
Proof.
  cbv zeta.
  destruct (Qle_bool (3 # 10) r) eqn:H3; [|destruct (Qle_bool (2 # 10) r) eqn:H2].
  - apply Qle_bool_iff in H3.
    assert (H2 : (2 # 10 <= r)%Q)
      by (eapply Qle_trans; [|exact H3]; unfold Qle; simpl; lia).
    repeat split; try discriminate; try tauto.
    + intros [_ H]. apply Qlt_not_le in H. tauto.
    + intros H. apply Qlt_not_le in H. tauto.
  - apply Qle_bool_iff in H2.
    assert (H3' : (r < 3 # 10)%Q).
    { apply Qnot_le_lt. intros H. apply Qle_bool_iff in H. congruence. }
    repeat split; try discriminate; try tauto.
    + intros H. apply Qlt_not_le in H3'. tauto.
    + intros H. apply Qlt_not_le in H. tauto.
  - assert (H2' : (r < 2 # 10)%Q).
    { apply Qnot_le_lt. intros H. apply Qle_bool_iff in H. congruence. }
    assert (H3' : ~ (3 # 10 <= r)%Q).
    { intros H. apply Qle_bool_iff in H. congruence. }
    repeat split; try discriminate; try tauto.
    intros [H _]. apply Qlt_not_le in H2'. tauto.
Qed.

(** C5, as the code has it. For a collection that is not empty the ratio
    is the number of Anger tickets of the last 24 hours over the number of
    all tickets of the last 24 hours, 0 when there are none; the level is
    Critical exactly when the ratio is at least 0.30, Elevated exactly
    when it is at least 0.20 and below 0.30, Stable otherwise, and an empty
    window gives Stable with ratio 0. *)
Theorem alert_level_of_nonempty (df : list ticket) (now : Z) :
  df <> [] ->
  exists lv r,
    render_alerts_section df now = Some (lv, r)
    /\ r = ratio df now
    /\ (lv = Critical <-> (3 # 10 <= r)%Q)
    /\ (lv = Elevated <-> (2 # 10 <= r)%Q /\ (r < 3 # 10)%Q)
    /\ (lv = Stable <-> (r < 2 # 10)%Q)
    /\ (window df now = [] -> lv = Stable /\ r = 0%Q).
Proof.
  intros Hne. destruct df as [|t0 df]; [congruence|].
  unfold render_alerts_section.
  set (l := t0 :: df).
  set (r := if 0 <? length (filter (ts_ge (now - hours 24)) l)
            then Qmake (Z.of_nat (length (filter (fun t => is_anger t && ts_ge (now - hours 24) t) l)))
                       (Pos.of_nat (length (filter (ts_ge (now - hours 24)) l)))
            else 0%Q).
  assert (Hr : r = ratio l now).
  { subst r. unfold ratio, window. rewrite filter_andb.
    rewrite (filter_ext _ _ (ts_ge_window now)).
    destruct (length (filter (in_last_24h now) l)) as [|n] eqn:Hn.
    - reflexivity.
    - change (0 <? S n) with true. cbv iota.
      now rewrite Pos.of_nat_succ. }
  do 2 eexists. split; [reflexivity|]. fold r.
  destruct (level_cases r) as (Hc & He & Hs).
  split; [exact Hr|]. split; [exact Hc|]. split; [exact He|]. split; [exact Hs|].
  intros Hw. assert (H0 : r = 0%Q).
  { rewrite Hr. unfold ratio. now rewrite Hw. }
  split; [|exact H0]. apply Hs. rewrite H0. reflexivity.
Qed.

Lemma alert_level_of_nonempty_witness :
  exists lv r,
    render_alerts_section df_3_of_10 now_10 = Some (lv, r)
    /\ r = ratio df_3_of_10 now_10
    /\ (lv = Critical <-> (3 # 10 <= r)%Q)
    /\ (lv = Elevated <-> (2 # 10 <= r)%Q /\ (r < 3 # 10)%Q)
    /\ (lv = Stable <-> (r < 2 # 10)%Q)
    /\ (window df_3_of_10 now_10 = [] -> lv = Stable /\ r = 0%Q).
Proof.
  apply (alert_level_of_nonempty df_3_of_10 now_10).
  vm_compute. discriminate.
Defined.

(** Three angry tickets out of ten are at the Critical boundary. *)
Example three_of_ten_is_critical :
  render_alerts_section df_3_of_10 now_10 = Some (Critical, (3 # 10)%Q).
Proof. vm_compute. reflexivity. Qed.

(** C5 as stated fails on the empty collection: its window is empty, and
    nothing is reported. *)
Lemma empty_collection_reports_nothing :
  window [] 0 = [] /\ render_alerts_section [] 0 = None.
Proof. split; reflexivity. Qed.

(** *** The daily frame *)

Section LabelFacts.
  Context {A : Type} (cmp : A -> A -> comparison).
  Hypothesis cmp_eq : forall x y, cmp x y = Eq -> x = y.

Lemma insert_label_in (x y : A) (l : list A) :
  In y (insert_label cmp x l) <-> y = x \/ In y l.
Proof.
  induction l as [|z l IH]; simpl.
  - intuition congruence.
  - destruct (cmp x z) eqn:Hc; simpl.
    + apply cmp_eq in Hc. subst z. intuition congruence.
    + intuition congruence.
    + rewrite IH. intuition congruence.
Qed.

Lemma labels_in (y : A) (l : list A) : In y (labels cmp l) <-> In y l.
Proof.
  induction l as [|x l IH]; simpl; [tauto|].
  rewrite insert_label_in, IH. intuition congruence.
Qed.

End LabelFacts.

Lemma insert_label_sorted (x : Z) (l : list Z) :
  StronglySorted Z.lt l -> StronglySorted Z.lt (insert_label Z.compare x l).
Proof.
  induction 1 as [|y l Hs IH Hall]; simpl.
  - constructor; constructor.
  - destruct (x ?= y)%Z eqn:Hc.
    + now constructor.
    + pose proof (proj1 (Z.compare_lt_iff x y) Hc) as Hlt.
      constructor; [now constructor|].
      constructor; [exact Hlt|].
      rewrite Forall_forall in *. intros z Hz. specialize (Hall z Hz). lia.
    + pose proof (proj1 (Z.compare_gt_iff x y) Hc) as Hgt.
      constructor; [exact IH|].
      apply Forall_forall. intros z Hz.
      apply (insert_label_in Z.compare Z.compare_eq) in Hz.
      destruct Hz as [-> | Hz]; [exact Hgt|].
      rewrite Forall_forall in Hall. now apply Hall.
Qed.

Lemma labels_sorted (l : list Z) : StronglySorted Z.lt (labels Z.compare l).
Proof.
  induction l as [|x l IH]; simpl; [constructor|].
  now apply insert_label_sorted.
Qed.

Lemma group_keys_in (k : Z * str) (df : list ticket) :
  In k (group_keys df) <-> exists t, In t df /\ group_key t = Some k.
Proof.
  induction df as [|t df IH]; simpl.
  - split; [tauto|]. intros (t & [] & _).
  - destruct (group_key t) as [k'|] eqn:Hk; simpl; rewrite IH; split.
    + intros [<- | (u & Hu & Hg)]; [exists t; auto | exists u; auto].
    + intros (u & [<- | Hu] & Hg); [left; congruence | right; exists u; auto].
    + intros (u & Hu & Hg). exists u; auto.
    + intros (u & [<- | Hu] & Hg); [congruence | exists u; auto].
Qed.

Lemma group_key_some (t : ticket) (d : Z) (s : str) :
  group_key t = Some (d, s) <->
  exists ts, timestamp t = Some ts /\ sentiment t = Some (VStr s) /\ date_of ts = d.
Proof.
  unfold group_key. split.
  - destruct (timestamp t) as [ts|]; [|discriminate].
    destruct (sentiment t) as [[]|]; try discriminate.
    intros [= <- <-]. now exists ts.
  - intros (ts & -> & -> & <-). reflexivity.
Qed.

Lemma str_eqb_sym (a b : str) : str_eqb a b = str_eqb b a.
Proof.
  destruct (str_eqb b a) eqn:H.
  - apply str_eqb_eq in H. subst. apply str_eqb_refl.
  - apply str_eqb_neq in H. apply str_eqb_neq. congruence.
Qed.

Lemma group_size_tickets_on (df : list ticket) (d : Z) (s : str) :
  group_size (group_keys df) (d, s) = tickets_on df d s.
Proof.
  unfold group_size, tickets_on.
  induction df as [|t df IH]; simpl; [reflexivity|].
  unfold group_key.
  destruct (timestamp t) as [ts|]; [|exact IH].
  destruct (sentiment t) as [[]|]; try exact IH.
  simpl. unfold key_eqb at 1. simpl.
  rewrite (Z.eqb_sym d), (str_eqb_sym s).
  destruct ((date_of ts =? d)%Z && str_eqb s0 s); simpl; now rewrite IH.
Qed.

(** The order of the column labels. *)
Lemma str_compare_eq (a b : str) : str_compare a b = Eq -> a = b.
Proof.
  revert b. induction a as [|x a IH]; intros [|y b]; simpl; try discriminate;
    [reflexivity|].
  destruct (x ?= y)%N eqn:Hc; try discriminate.
  intros H. apply N.compare_eq in Hc. subst y. now rewrite (IH b H).
Qed.

Lemma str_compare_gt (a b : str) : str_compare a b = Gt -> str_compare b a = Lt.
Proof.
  revert b. induction a as [|x a IH]; intros [|y b]; simpl; try discriminate;
    [reflexivity|].
  rewrite (N.compare_antisym x y).
  destruct (x ?= y)%N; simpl; try discriminate; [apply IH|reflexivity].
Qed.

Lemma str_compare_trans (a b c : str) :
  str_compare a b = Lt -> str_compare b c = Lt -> str_compare a c = Lt.
Proof.
  revert b c. induction a as [|x a IH]; intros [|y b] [|z c]; simpl;
    try discriminate; try reflexivity.
  destruct (x ?= y)%N eqn:Hxy; try discriminate;
    destruct (y ?= z)%N eqn:Hyz; try discriminate; intros H1 H2.
  - apply N.compare_eq in Hxy, Hyz. subst y z. rewrite N.compare_refl.
    now apply (IH b c).
  - apply N.compare_eq in Hxy. subst y. now rewrite Hyz.
  - apply N.compare_eq in Hyz. subst z. now rewrite Hxy.
  - rewrite N.compare_lt_iff in Hxy, Hyz.
    now rewrite (proj2 (N.compare_lt_iff x z) (N.lt_trans _ _ _ Hxy Hyz)).
Qed.

Section OrderedLabels.
  Variable A : Type.
  Variable cmp : A -> A -> comparison.
  Hypothesis cmp_eq : forall x y, cmp x y = Eq -> x = y.
  Hypothesis cmp_gt : forall x y, cmp x y = Gt -> cmp y x = Lt.
  Hypothesis cmp_trans :
    forall x y z, cmp x y = Lt -> cmp y z = Lt -> cmp x z = Lt.

Lemma insert_label_ordered (x : A) (l : list A) :
  StronglySorted (fun a b => cmp a b = Lt) l ->
  StronglySorted (fun a b => cmp a b = Lt) (insert_label cmp x l).
Proof.
  induction 1 as [|y l Hs IH Hall]; simpl.
  - constructor; constructor.
  - destruct (cmp x y) eqn:Hc.
    + now constructor.
    + constructor; [now constructor|].
      constructor; [exact Hc|].
      rewrite Forall_forall in *. intros z Hz.
      exact (cmp_trans x y z Hc (Hall z Hz)).
    + constructor; [exact IH|].
      apply Forall_forall. intros z Hz.
      apply (insert_label_in cmp cmp_eq) in Hz.
      destruct Hz as [-> | Hz]; [now apply cmp_gt|].
      rewrite Forall_forall in Hall. now apply Hall.
Qed.

Lemma labels_ordered (l : list A) :
  StronglySorted (fun a b => cmp a b = Lt) (labels cmp l).
Proof.
  induction l as [|x l IH]; simpl; [constructor|].
  now apply insert_label_ordered.
Qed.

End OrderedLabels.

(** C7, as the code has it. The frame has one row for every date on which
    a ticket with a timestamp and a sentiment was created and no other row,
    the dates strictly ascending; one column for every sentiment that such
    a ticket carries and no other column, the sentiments strictly
    ascending; as many rows of counts as dates, each with as many counts as
    columns; and every cell is the number of tickets of its date and its
    sentiment, so 0 where there are none. *)
Theorem daily_trend_rows (df : list ticket) :
  df <> [] ->
  exists fr,
    render_sentiment_trends df = Some fr
    /\ StronglySorted Z.lt (index fr)
    /\ (forall d, In d (index fr) <->
                  exists t ts s, In t df /\ timestamp t = Some ts
                                 /\ sentiment t = Some (VStr s) /\ date_of ts = d)
    /\ (forall i j d s,
          nth_error (index fr) i = Some d ->
          nth_error (columns fr) j = Some s ->
          cell fr i j = tickets_on df d s)
    /\ StronglySorted (fun a b => str_compare a b = Lt) (columns fr)
    /\ (forall s, In s (columns fr) <->
                  exists t ts, In t df /\ timestamp t = Some ts
                               /\ sentiment t = Some (VStr s))
    /\ length (values fr) = length (index fr)
    /\ Forall (fun counts => length counts = length (columns fr)) (values fr)
    /\ values fr
       = map (fun d => map (fun s => tickets_on df d s) (columns fr)) (index fr).
Proof.
  intros Hne. destruct df as [|t0 df]; [congruence|].
  set (l := t0 :: df). eexists. split; [reflexivity|]. cbn [index columns values].
  split; [apply labels_sorted|]. split; [|split; [|split; [|split; [|split; [|split]]]]].
  - intros d. rewrite (labels_in Z.compare Z.compare_eq), in_map_iff. split.
    + intros ([d' s] & <- & Hin). apply group_keys_in in Hin.
      destruct Hin as (t & Ht & Hk). apply group_key_some in Hk.
      destruct Hk as (ts & H1 & H2 & H3). now exists t, ts, s.
    + intros (t & ts & s & Ht & H1 & H2 & H3). exists (d, s). split; [reflexivity|].
      apply group_keys_in. exists t. split; [exact Ht|].
      apply group_key_some. now exists ts.
  - intros i j d s Hi Hj. unfold cell. cbn [values].
    erewrite (nth_error_nth _ _ _ (map_nth_error _ _ _ Hi)).
    erewrite (nth_error_nth _ _ _ (map_nth_error _ _ _ Hj)).
    apply group_size_tickets_on.
  - apply labels_ordered;
      [exact str_compare_eq|exact str_compare_gt|exact str_compare_trans].
  - intros s. rewrite (labels_in str_compare str_compare_eq), in_map_iff. split.
    + intros ([d s'] & <- & Hin). apply group_keys_in in Hin.
      destruct Hin as (t & Ht & Hk). apply group_key_some in Hk.
      destruct Hk as (ts & H1 & H2 & H3). now exists t, ts.
    + intros (t & ts & Ht & H1 & H2). exists (date_of ts, s). split; [reflexivity|].
      apply group_keys_in. exists t. split; [exact Ht|].
      apply group_key_some. now exists ts.
  - apply length_map.
  - apply Forall_forall. intros counts Hin. apply in_map_iff in Hin.
    destruct Hin as (d & <- & _). apply length_map.
  - apply map_ext. intros d. apply map_ext. intros s.
    apply group_size_tickets_on.
Qed.

Lemma daily_trend_rows_witness :
  exists fr,
    render_sentiment_trends df_days_1_3 = Some fr
    /\ StronglySorted Z.lt (index fr)
    /\ (forall d, In d (index fr) <->
                  exists t ts s, In t df_days_1_3 /\ timestamp t = Some ts
                                 /\ sentiment t = Some (VStr s) /\ date_of ts = d)
    /\ (forall i j d s,
          nth_error (index fr) i = Some d ->
          nth_error (columns fr) j = Some s ->
          cell fr i j = tickets_on df_days_1_3 d s)
    /\ StronglySorted (fun a b => str_compare a b = Lt) (columns fr)
    /\ (forall s, In s (columns fr) <->
                  exists t ts, In t df_days_1_3 /\ timestamp t = Some ts
                               /\ sentiment t = Some (VStr s))
    /\ length (values fr) = length (index fr)
    /\ Forall (fun counts => length counts = length (columns fr)) (values fr)
    /\ values fr
       = map (fun d => map (fun s => tickets_on df_days_1_3 d s) (columns fr))
           (index fr).
Proof.
  apply (daily_trend_rows df_days_1_3). vm_compute. discriminate.
Defined.

(** A ticket that has no sentiment yet is in no group: its date gets no
    row from it. *)
Example unclassified_ticket_has_no_row :
  exists fr,
    render_sentiment_trends
      [processed_ticket "anger" (1 * day_ms + 5);
       {| message := Some (py "a message"); status_of := New;
          timestamp := Some (2 * day_ms + 1)%Z; processed_timestamp := None;
          sentiment := None; summary := None; confidence := None;
          keywords := None |}]
    = Some fr
    /\ index fr = [1%Z] /\ columns fr = [py "anger"] /\ values fr = [[1]].
Proof. eexists. split; [reflexivity|]. repeat split. Qed.

(** C7 as stated fails: with tickets on day 1 and on day 3 only, the
    frame has the rows of day 1 and day 3, and day 2, which lies between
    them, has no row. *)
Lemma day_without_tickets_has_no_row :
  exists fr,
    render_sentiment_trends df_days_1_3 = Some fr
    /\ index fr = [1; 3]%Z
    /\ values fr = [[1; 0]; [0; 1]]
    /\ (1 <= 2 <= 3)%Z /\ ~ In 2%Z (index fr).
Proof.
  eexists. split; [reflexivity|]. split; [reflexivity|]. split; [reflexivity|].
  split; [lia|]. vm_compute. intros [H | [H | []]]; discriminate.
Qed.

End DashboardFacts.

(** ** The batch *)

Module BatchFacts.
Import Normalizer Classifier Worker StoreFacts Samples Spec.

Lemma retry_call_preserves_docs {A} (fn : M A) (fuel n : nat) :
  preserves_docs fn -> preserves_docs (retry_call fuel n fn).
Proof.
  intros Hfn. revert n. induction fuel as [|fuel IH]; intros n w.
  - reflexivity.
  - cbn [retry_call]. unfold try_except. specialize (Hfn w).
    destruct (fn w) as [[a|e] w1]; cbn [snd] in *; [exact Hfn|].
    destruct (stop_after_attempt n); [exact Hfn|].
    unfold bind, sleep. rewrite IH. exact Hfn.
Qed.

Lemma analyze_once_preserves_docs (E : env) (m : str) :
  preserves_docs (analyze_once E m).
Proof.
  intros w. unfold analyze_once.
  destruct (length (clean_text m) <? 10); [reflexivity|].
  unfold bind, generate, lift.
  destruct (generate_content E (calls w) (prompt_head E ++ clean_text m));
    [destruct (parse_response E s)|]; reflexivity.
Qed.

Lemma analyze_preserves_docs (E : env) (m : str) :
  preserves_docs (analyze_sentiment_with_gemini E m).
Proof. apply retry_call_preserves_docs, analyze_once_preserves_docs. Qed.

(** A status update on a document of the store either raises before the
    write, leaving the world as it is, or writes the status and touches no
    other document. *)
Lemma update_cases (id : str) (st : status) (data : option dict) (w : world) :
  find_doc id (docs w) <> None ->
  (exists e, update_ticket_status id st data w = (Raise e, w))
  \/ (exists w',
        update_ticket_status id st data w = (Ok tt, w')
        /\ status_in (docs w') id = Some st
        /\ (forall j, j <> id -> find_doc j (docs w') = find_doc j (docs w))).
Proof.
  intros Hdoc. destruct (find_doc id (docs w)) as [t|] eqn:Ht; [|congruence].
  assert (Hwrite : forall fields,
    exists w',
      (match update_doc id (apply_update st (clock w) fields) (docs w) with
       | Some ds => (Ok tt, {| docs := ds; clock := clock w; calls := calls w;
                               trace := trace w ++ [EvWrite id st] |})
       | None => (Raise (NotFound id), w)
       end) = (Ok tt, w')
      /\ status_in (docs w') id = Some st
      /\ (forall j, j <> id -> find_doc j (docs w') = find_doc j (docs w))).
  { intros fields.
    destruct (update_doc_found id (apply_update st (clock w) fields) _ _ Ht)
      as (ds' & Hu & Hf).
    rewrite Hu. eexists. split; [reflexivity|]. cbn [docs]. split.
    - unfold status_in. rewrite Hf. now destruct fields as [[[[? ?] ?] ?]|].
    - intros j Hj. now apply (update_doc_other id _ _ _ j Hu). }
  unfold update_ticket_status, bind, lift.
  destruct data as [[|kv d]|].
  - right. apply Hwrite.
  - unfold rbind.
    destruct (subscript (kv :: d) (py "sentiment")); [|left; now eexists].
    destruct (subscript (kv :: d) (py "summary")); [|left; now eexists].
    destruct (subscript (kv :: d) (py "confidence")); [|left; now eexists].
    destruct (subscript (kv :: d) (py "keywords")); [|left; now eexists].
    right. apply Hwrite.
  - right. apply Hwrite.
Qed.

Lemma update_none_ok (id : str) (st : status) (w : world) :
  find_doc id (docs w) <> None ->
  exists w',
    update_ticket_status id st None w = (Ok tt, w')
    /\ status_in (docs w') id = Some st
    /\ (forall j, j <> id -> find_doc j (docs w') = find_doc j (docs w)).
Proof.
  intros Hdoc. destruct (find_doc id (docs w)) as [t|] eqn:Ht; [|congruence].
  destruct (update_status_run id st t w Ht) as (ds' & Hrun & Hu & Hf).
  eexists. split; [exact Hrun|]. cbn [docs]. split.
  - unfold status_in. now rewrite Hf.
  - intros j Hj. now apply (update_doc_other id _ _ _ j Hu).
Qed.

Lemma status_in_some (ds : list (str * ticket)) (id : str) (st : status) :
  status_in ds id = Some st -> find_doc id ds <> None.
Proof. unfold status_in. destruct (find_doc id ds); congruence. Qed.

(** One ticket of the batch: it ends Processed and is counted as
    processed, or it ends in Error and is counted as an error; no other
    document changes. *)
Lemma process_ticket_outcome (E : env) (x : str * ticket) (w : world) (p e : nat) :
  find_doc (fst x) (docs w) <> None ->
  exists w1,
    ((process_ticket E (p, e) x w = (Ok (S p, e), w1)
      /\ status_in (docs w1) (fst x) = Some Processed)
     \/ (process_ticket E (p, e) x w = (Ok (p, S e), w1)
         /\ status_in (docs w1) (fst x) = Some Error))
    /\ (forall j, j <> fst x -> find_doc j (docs w1) = find_doc j (docs w)).
Proof.
  intros Hdoc. destruct x as [id t]. cbn [fst] in *.
  remember (process_ticket E (p, e) (id, t) w) as R eqn:HR.
  unfold process_ticket in HR. cbn [fst snd] in HR.
  unfold try_except, bind, sleep, ret in HR.
  destruct (strip (get_message t)) as [|c s].
  - destruct (update_none_ok id Error w Hdoc) as (w1 & Hrun & Hst & Hfr).
    rewrite Hrun in HR. exists w1. split; [right; now split|exact Hfr].
  - destruct (update_none_ok id Processing w Hdoc) as (w1 & Hrun1 & Hst1 & Hfr1).
    rewrite Hrun1 in HR.
    pose proof (analyze_preserves_docs E (get_message t) w1) as Hdocs.
    destruct (analyze_sentiment_with_gemini E (get_message t) w1)
      as [[r|ex] w2]; cbn [snd] in Hdocs;
      assert (Hdoc2 : find_doc id (docs w2) <> None)
        by (rewrite Hdocs; now apply status_in_some in Hst1).
    + destruct (update_cases id Processed (Some r) w2 Hdoc2)
        as [[ex Hrun2] | (w3 & Hrun2 & Hst3 & Hfr3)]; rewrite Hrun2 in HR.
      * destruct (update_none_ok id Error w2 Hdoc2) as (w3 & Hrun3 & Hst3 & Hfr3).
        rewrite Hrun3 in HR. exists w3. split; [right; now split|].
        intros j Hj. rewrite Hfr3, Hdocs by exact Hj. now apply Hfr1.
      * eexists. split; [left; split; [exact HR|exact Hst3]|].
        cbn [docs]. intros j Hj. rewrite Hfr3, Hdocs by exact Hj. now apply Hfr1.
    + destruct (update_none_ok id Error w2 Hdoc2) as (w3 & Hrun3 & Hst3 & Hfr3).
      rewrite Hrun3 in HR. exists w3. split; [right; now split|].
      intros j Hj. rewrite Hfr3, Hdocs by exact Hj. now apply Hfr1.
Qed.

Lemma reached_cons (ds : list (str * ticket)) (st : status)
    (x : str * ticket) (l : list (str * ticket)) (s : status) :
  status_in ds (fst x) = Some s ->
  reached ds st (x :: l) = (if status_eqb s st then 1 else 0) + reached ds st l.
Proof.
  intros H. unfold reached. cbn [filter]. rewrite H.
  now destruct (status_eqb s st).
Qed.

Lemma reached_ext (ds ds' : list (str * ticket)) (st : status)
    (l : list (str * ticket)) :
  (forall d, In d l -> find_doc (fst d) ds' = find_doc (fst d) ds) ->
  reached ds' st l = reached ds st l.
Proof.
  intros H. unfold reached. f_equal. apply filter_ext_in.
  intros d Hd. unfold status_in. now rewrite (H d Hd).
Qed.

(** The loop: the two counters grow by the numbers of tickets of the
    batch that it leaves Processed and in Error. *)
Lemma for_each_counts (E : env) (l : list (str * ticket)) :
  forall (w : world) (p e : nat),
    NoDup (map fst l) ->
    (forall d, In d l -> find_doc (fst d) (docs w) <> None) ->
    exists w',
      for_each (process_ticket E) l (p, e) w =
        (Ok (p + reached (docs w') Processed l, e + reached (docs w') Error l), w')
      /\ (forall j, ~ In j (map fst l) -> find_doc j (docs w') = find_doc j (docs w)).
Proof.
  induction l as [|x l IH]; intros w p e Hnd Hin.
  - exists w. split; [|reflexivity]. cbn. now rewrite !Nat.add_0_r.
  - cbn [map] in Hnd. apply NoDup_cons_iff in Hnd. destruct Hnd as [Hx Hnd].
    destruct (process_ticket_outcome E x w p e (Hin x (or_introl eq_refl)))
      as (w1 & Hout & Hfr1).
    assert (Hin1 : forall d, In d l -> find_doc (fst d) (docs w1) <> None).
    { intros d Hd. rewrite Hfr1; [apply Hin; now right|].
      intros Heq. apply Hx. rewrite <- Heq. now apply in_map. }
    cbn [for_each]. unfold bind.
    destruct Hout as [[Hrun Hst] | [Hrun Hst]]; rewrite Hrun;
      match goal with |- context [for_each _ l (?p1, ?e1) w1] =>
        destruct (IH w1 p1 e1 Hnd Hin1) as (w' & Hrun' & Hfr') end;
      exists w'; (split;
        [ rewrite Hrun';
          assert (Hst' : status_in (docs w') (fst x) = Some _)
            by (unfold status_in; rewrite (Hfr' _ Hx); exact Hst);
          rewrite !(reached_cons _ _ _ _ _ Hst'); cbn [status_eqb];
          do 2 f_equal; f_equal; lia
        | intros j Hj; cbn [map] in Hj;
          rewrite Hfr' by (intros H; apply Hj; now right);
          apply Hfr1; intros ->; apply Hj; now left ]).
Qed.

Lemma NoDup_map_filter {A B} (f : A -> B) (g : A -> bool) (l : list A) :
  NoDup (map f l) -> NoDup (map f (filter g l)).
Proof.
  induction l as [|x l IH]; cbn; [auto|].
  intros H. apply NoDup_cons_iff in H. destruct H as [Hx H].
  destruct (g x); [|now apply IH]. cbn. constructor; [|now apply IH].
  intros Hin. apply Hx. apply in_map_iff in Hin. destruct Hin as (y & Hy & Hin).
  apply filter_In in Hin. apply in_map_iff. exists y. tauto.
Qed.

Lemma In_firstn {A} (n : nat) (l : list A) (x : A) : In x (firstn n l) -> In x l.
Proof.
  intros H. rewrite <- (firstn_skipn n l). apply in_or_app. now left.
Qed.

Lemma NoDup_map_firstn {A B} (f : A -> B) (n : nat) (l : list A) :
  NoDup (map f l) -> NoDup (map f (firstn n l)).
Proof.
  revert n. induction l as [|x l IH]; intros [|n]; cbn; auto using NoDup_nil.
  intros H. apply NoDup_cons_iff in H. destruct H as [Hx H].
  constructor; [|now apply IH].
  intros Hin. apply Hx. apply in_map_iff in Hin. destruct Hin as (y & Hy & Hin).
  apply In_firstn in Hin. apply in_map_iff. now exists y.
Qed.

(** With a client that never raises: [process_tickets_batch] returns
    nothing; when no ticket is pending it does nothing, otherwise its last
    log line carries the number of tickets of the batch that it left
    Processed and the number that it left in Error. *)
Lemma batch_counts_reliable (E : env) (w : world) :
  NoDup (map fst (docs w)) ->
  exists w',
    process_tickets_batch E w = (Ok VNone, w')
    /\ let batch := firstn (batch_size E) (filter is_new (docs w)) in
       match batch with
       | [] => w' = w
       | _ => exists tr,
                trace w' = tr ++ [EvBatchLog (reached (docs w') Processed batch)
                                             (reached (docs w') Error batch)]
       end.
Proof.
  intros Hnd. unfold process_tickets_batch, bind, get_pending_tickets.
  set (batch := firstn (batch_size E) (filter is_new (docs w))).
  assert (Hb : NoDup (map fst batch))
    by (apply NoDup_map_firstn, NoDup_map_filter, Hnd).
  assert (Hin : forall d, In d batch -> find_doc (fst d) (docs w) <> None).
  { intros d Hd. apply In_firstn, filter_In in Hd. destruct Hd as [Hd _].
    apply find_doc_in_ids. now apply in_map. }
  destruct (for_each_counts E batch w 0 0 Hb Hin) as (w' & Hrun & _).
  destruct batch as [|x l] eqn:Hbatch.
  - exists w. split; reflexivity.
  - rewrite Hrun. unfold emit, ret. eexists. split; [reflexivity|].
    cbn [docs trace fst snd]. eexists. reflexivity.
Qed.

(** A blank ticket, end to end: Error, and the classifier is never called. *)
Example batch_of_blank_ticket :
  exists w',
    process_tickets_batch E_down w_blank = (Ok VNone, w')
    /\ status_in (docs w') (py "t1") = Some Error
    /\ calls w' = 0
    /\ trace w' = [EvWrite (py "t1") Error; EvBatchLog 0 1].
Proof. eexists. split; [vm_compute; reflexivity|]. repeat split. Qed.

(** A ticket that the classifier answers in fences, end to end. *)
Example batch_of_angry_ticket :
  exists w' t',
    process_tickets_batch E_fenced w_angry = (Ok VNone, w')
    /\ find_doc (py "t1") (docs w') = Some t'
    /\ status_of t' = Processed
    /\ sentiment t' = Some (VStr (py "anger"))
    /\ confidence t' = Some (VFloat f_095)
    /\ keywords t' = Some (VList [VStr (py "down")])
    /\ calls w' = 1
    /\ last (trace w') (EvSleep 0) = EvBatchLog 1 0.
Proof. do 2 eexists. split; [vm_compute; reflexivity|]. repeat split. Qed.

(** The response with the integer confidence 10^400, end to end: three
    calls, and the ticket is left in Error. *)
Example batch_of_huge_confidence :
  exists w',
    process_tickets_batch E_huge w_angry = (Ok VNone, w')
    /\ status_in (docs w') (py "t1") = Some Error
    /\ calls w' = 3
    /\ last (trace w') (EvSleep 0) = EvBatchLog 0 1.
Proof. eexists. split; [vm_compute; reflexivity|]. repeat split. Qed.

End BatchFacts.

(** ** The text normalizer *)

Module NormalizerFacts.
Import Normalizer StrFacts.

(** *** Substitutions on runs *)

Section RunFacts.
Variable drop : N -> str -> bool.
Variable repl : N -> N.
(** The characters that the substitution looks at. *)
Variable act : N -> bool.
Hypothesis inert : forall a tl, act a = false -> drop a tl = false /\ repl a = a.
Hypothesis dropped :
  forall a tl, drop a tl = true -> exists b tl', tl = b :: tl' /\ repl b = repl a.
Hypothesis act_repl : forall a, act a = true -> act (repl a) = true.

Local Abbreviation T := (rewrite_runs drop repl).

Lemma rr_hd (s : str) : hd_error (T s) = option_map repl (hd_error s).
Proof.
  induction s as [|a tl IH]; simpl; [reflexivity|].
  destruct (drop a tl) eqn:Hd; [|reflexivity].
  destruct (dropped _ _ Hd) as (b & tl' & -> & Hb).
  rewrite IH. simpl. now rewrite Hb.
Qed.

Lemma rr_nonempty (s : str) : s <> [] -> T s <> [].
Proof.
  intros Hs Ht. pose proof (rr_hd s) as H. rewrite Ht in H.
  destruct s; [congruence|discriminate].
Qed.

Lemma rr_last (s : str) : last_char (T s) = option_map repl (last_char s).
Proof.
  induction s as [|a tl IH]; [reflexivity|].
  destruct tl as [|b tl'].
  - simpl. destruct (drop a []) eqn:Hd; [|reflexivity].
    destruct (dropped _ _ Hd) as (? & ? & ? & _). discriminate.
  - change (last_char (a :: b :: tl')) with (last_char (b :: tl')).
    rewrite <- IH.
    assert (Hne : T (b :: tl') <> []) by (apply rr_nonempty; discriminate).
    remember (b :: tl') as tl eqn:Htl. cbn [rewrite_runs].
    destruct (drop a tl); [reflexivity|].
    destruct (T tl); [congruence|reflexivity].
Qed.

Lemma rr_inert_cons (a : N) (tl : str) : act a = false -> T (a :: tl) = a :: T tl.
Proof.
  intros Ha. destruct (inert a tl Ha) as [Hd Hr]. simpl. now rewrite Hd, Hr.
Qed.

(** A prefix of characters that the substitution does not look at is
    found after it exactly when it is found before it. *)
Lemma rr_prefix (p s : str) :
  Forall (fun x => act x = false) p ->
  strip_prefix p (T s) = option_map T (strip_prefix p s).
Proof.
  intros Hp. revert s. induction Hp as [|x p Hx Hp IH]; intros s; [reflexivity|].
  destruct s as [|a tl]; [reflexivity|].
  destruct (act a) eqn:Ha.
  - assert (Hxa : (x =? a)%N = false)
      by (apply N.eqb_neq; intros ->; congruence).
    cbn [strip_prefix]. rewrite Hxa. cbn [option_map].
    pose proof (rr_hd (a :: tl)) as Hh. cbn [hd_error option_map] in Hh.
    destruct (T (a :: tl)) as [|h rest]; [reflexivity|].
    injection Hh as ->. cbn [strip_prefix].
    assert (Hxr : (x =? repl a)%N = false).
    { apply N.eqb_neq. intros ->. apply act_repl in Ha. congruence. }
    now rewrite Hxr.
  - rewrite rr_inert_cons by exact Ha. cbn [strip_prefix].
    destruct (x =? a)%N; [apply IH|reflexivity].
Qed.

(** A pattern that is found at the head after the substitution only when
    it is found at the head before it, is found somewhere after the
    substitution only when it is found somewhere before it. *)
Lemma rr_reflect (test : str -> bool) :
  (forall s, test (T s) = true -> test s = true) ->
  forall s, any_suffix test (T s) = true -> any_suffix test s = true.
Proof.
  intros Hhead. induction s as [|a tl IH]; [easy|].
  cbn [any_suffix]. intros H. apply orb_true_iff.
  cbn [rewrite_runs] in H. destruct (drop a tl) eqn:Hd.
  - right. now apply IH.
  - cbn [any_suffix] in H. apply orb_true_iff in H. destruct H as [H | H].
    + left. apply Hhead. cbn [rewrite_runs]. now rewrite Hd.
    + right. now apply IH.
Qed.

Lemma rr_cons_inv (a : N) (s r : str) :
  act a = false -> T s = a :: r -> exists s', s = a :: s' /\ T s' = r.
Proof.
  intros Ha Hs.
  pose proof (rr_prefix [a] s (Forall_cons _ Ha (Forall_nil _))) as H.
  rewrite Hs in H. cbn [strip_prefix] in H. rewrite N.eqb_refl in H.
  destruct s as [|b s']; [discriminate|]. cbn [strip_prefix] in H.
  destruct (a =? b)%N eqn:Hab; [|discriminate].
  apply N.eqb_eq in Hab. subst b. injection H as H. now exists s'.
Qed.

Lemma rr_startswith (p s : str) :
  Forall (fun x => act x = false) p -> startswith (T s) p = startswith s p.
Proof.
  intros Hp. unfold startswith. rewrite rr_prefix by exact Hp.
  now destruct (strip_prefix p s).
Qed.

(** *** URLs through a substitution that leaves the characters of
        [https://] alone and makes no URL character of another one *)

Hypothesis scheme_inert : Forall (fun x => act x = false) (py "https://").
Hypothesis url_repl : forall a, is_url_char (repl a) = true -> is_url_char a = true.

Lemma scheme_parts :
  Forall (fun x => act x = false) (py "http")
  /\ Forall (fun x => act x = false) (py "s")
  /\ Forall (fun x => act x = false) (py "://").
Proof.
  pose proof scheme_inert as H.
  change (py "https://") with (py "http" ++ py "s" ++ py "://") in H.
  apply Forall_app in H. destruct H as [H1 H]. apply Forall_app in H. tauto.
Qed.

Lemma url_run_pos (r : str) :
  url_run r <> 0 <-> exists u r', r = u :: r' /\ is_url_char u = true.
Proof.
  destruct r as [|u r']; simpl.
  - split; [congruence|]. intros (? & ? & ? & _). discriminate.
  - destruct (is_url_char u) eqn:Hu; split; try congruence.
    + intros _. now exists u, r'.
    + intros (? & ? & [= <- <-] & H). congruence.
Qed.

Lemma url_run_reflect (r : str) : url_run (T r) <> 0 -> url_run r <> 0.
Proof.
  intros H. apply url_run_pos in H. destruct H as (u & r' & Hr & Hu).
  pose proof (rr_hd r) as Hh. rewrite Hr in Hh.
  destruct r as [|a r0]; [discriminate|]. cbn in Hh. injection Hh as ->.
  apply url_run_pos. exists a, r0. split; [reflexivity|]. now apply url_repl.
Qed.

Lemma url_tail_reflect (s : str) : url_tail (T s) <> 0 -> url_tail s <> 0.
Proof.
  unfold url_tail. rewrite rr_prefix.
  - destruct (strip_prefix (py "://") s) as [r|]; cbn [option_map]; [|congruence].
    destruct (url_run (T r)) eqn:E; [congruence|]. intros _.
    assert (Hr : url_run r <> 0) by (apply url_run_reflect; congruence).
    destruct (url_run r); [congruence|discriminate].
  - apply scheme_parts.
Qed.

Lemma url_len_zero (s : str) :
  url_len s = 0 <->
  match strip_prefix (py "http") s with
  | Some r => url_tail r = 0
              /\ match strip_prefix (py "s") r with
                 | Some r' => url_tail r' = 0
                 | None => True
                 end
  | None => True
  end.
Proof.
  unfold url_len. destruct (strip_prefix (py "http") s) as [r|]; [|tauto].
  destruct (strip_prefix (py "s") r) as [r'|].
  - destruct (url_tail r'), (url_tail r); simpl; intuition congruence.
  - destruct (url_tail r); simpl; intuition congruence.
Qed.

Lemma url_at_reflect (s : str) : url_at (T s) = true -> url_at s = true.
Proof.
  unfold url_at. rewrite !negb_true_iff, !Nat.eqb_neq. intros H Hz. apply H.
  apply url_len_zero. apply url_len_zero in Hz.
  destruct scheme_parts as (Hhttp & Hs & _).
  rewrite rr_prefix by exact Hhttp.
  destruct (strip_prefix (py "http") s) as [r|]; cbn [option_map]; [|exact I].
  destruct Hz as [Hz1 Hz2]. split.
  - destruct (Nat.eq_dec (url_tail (T r)) 0) as [|Hn]; [assumption|].
    now apply url_tail_reflect in Hn.
  - rewrite rr_prefix by exact Hs.
    destruct (strip_prefix (py "s") r) as [r'|]; cbn [option_map]; [|exact I].
    destruct (Nat.eq_dec (url_tail (T r')) 0) as [|Hn]; [assumption|].
    now apply url_tail_reflect in Hn.
Qed.

Lemma has_url_reflect (s : str) : has_url (T s) = true -> has_url s = true.
Proof. apply rr_reflect. exact url_at_reflect. Qed.

End RunFacts.

(** *** The two kinds of substitution *)

Lemma is_space_32 : is_space 32 = true.
Proof. reflexivity. Qed.

Lemma ws_inert (a : N) (tl : str) :
  is_space a = false -> ws_drop a tl = false /\ ws_repl a = a.
Proof. intros H. unfold ws_drop, ws_repl. now rewrite H. Qed.

Lemma ws_dropped (a : N) (tl : str) :
  ws_drop a tl = true -> exists b tl', tl = b :: tl' /\ ws_repl b = ws_repl a.
Proof.
  unfold ws_drop, ws_repl. intros H. apply andb_true_iff in H. destruct H as [Ha Hb].
  destruct tl as [|b tl']; [discriminate|]. exists b, tl'. now rewrite Ha, Hb.
Qed.

Lemma ws_act_repl (a : N) : is_space a = true -> is_space (ws_repl a) = true.
Proof. intros H. unfold ws_repl. now rewrite H. Qed.

Lemma sq_inert (c : N) (n : nat) (a : N) (tl : str) :
  (a =? c)%N = false -> squeeze_drop c n a tl = false /\ a = a.
Proof. intros H. unfold squeeze_drop. now rewrite H. Qed.

Lemma sq_dropped (c : N) (n : nat) (a : N) (tl : str) :
  squeeze_drop c (S n) a tl = true -> exists b tl', tl = b :: tl' /\ b = a.
Proof.
  unfold squeeze_drop. intros H. apply andb_true_iff in H. destruct H as [Ha Hs].
  apply N.eqb_eq in Ha. subst a.
  apply startswith_iff in Hs. destruct Hs as [r ->]. now exists c, (repeat c n ++ r).
Qed.

Lemma sq_act_repl (c a : N) : (a =? c)%N = true -> (a =? c)%N = true.
Proof. auto. Qed.

(** *** Trimming *)

Lemma lstrip_hd (s : str) (a : N) :
  hd_error (lstrip s) = Some a -> is_space a = false.
Proof.
  induction s as [|b tl IH]; simpl; [discriminate|].
  destruct (is_space b) eqn:Hb; [exact IH|]. simpl. now intros [= <-].
Qed.

Lemma last_char_cons (a : N) (s : str) :
  s <> [] -> last_char (a :: s) = last_char s.
Proof. destruct s; [congruence|reflexivity]. Qed.

Lemma lstrip_last (s : str) (a : N) :
  last_char (lstrip s) = Some a -> last_char s = Some a.
Proof.
  induction s as [|b tl IH]; simpl lstrip; [discriminate|].
  destruct (is_space b); [|auto]. intros H. rewrite last_char_cons; [auto|].
  intros ->. discriminate.
Qed.

Lemma rstrip_last (s : str) (a : N) :
  last_char (rstrip s) = Some a -> is_space a = false.
Proof.
  induction s as [|b tl IH]; simpl rstrip; [discriminate|].
  destruct (rstrip tl) as [|c r] eqn:Hr.
  - destruct (is_space b) eqn:Hb; [discriminate|]. simpl. now intros [= <-].
  - rewrite last_char_cons by discriminate. exact IH.
Qed.

Lemma strip_trimmed (s : str) : trimmed (strip s) = true.
Proof.
  unfold trimmed, strip. apply andb_true_iff. split.
  - destruct (hd_error (lstrip (rstrip s))) as [a|] eqn:H; [|reflexivity].
    apply lstrip_hd in H. now rewrite H.
  - destruct (last_char (lstrip (rstrip s))) as [a|] eqn:H; [|reflexivity].
    apply lstrip_last, rstrip_last in H. now rewrite H.
Qed.

Lemma lstrip_fixed (s : str) :
  match hd_error s with Some a => negb (is_space a) | None => true end = true ->
  lstrip s = s.
Proof.
  destruct s as [|a tl]; simpl; [reflexivity|].
  now destruct (is_space a).
Qed.

Lemma rstrip_fixed (s : str) :
  match last_char s with Some a => negb (is_space a) | None => true end = true ->
  rstrip s = s.
Proof.
  induction s as [|a tl IH]; [reflexivity|].
  destruct tl as [|b tl'].
  - simpl. now destruct (is_space a).
  - rewrite last_char_cons by discriminate. intros H.
    specialize (IH H). remember (b :: tl') as t eqn:Ht. cbn [rstrip].
    rewrite IH. now subst t.
Qed.

Lemma trimmed_strip (s : str) : trimmed s = true -> strip s = s.
Proof.
  unfold trimmed, strip. intros H. apply andb_true_iff in H. destruct H as [Hh Hl].
  rewrite (rstrip_fixed s Hl). now apply lstrip_fixed.
Qed.

(** A substitution that keeps the first and the last character as they
    are, up to what it does to whitespace, keeps a text trimmed. *)
Lemma rr_trimmed (drop : N -> str -> bool) (repl : N -> N) (s : str) :
  (forall a tl, drop a tl = true ->
                exists b tl', tl = b :: tl' /\ repl b = repl a) ->
  (forall a, is_space a = false -> is_space (repl a) = false) ->
  trimmed s = true -> trimmed (rewrite_runs drop repl s) = true.
Proof.
  intros Hd Hr. unfold trimmed. rewrite (rr_hd drop repl Hd), (rr_last drop repl Hd).
  intros H. apply andb_true_iff in H. destruct H as [Hh Hl].
  apply andb_true_iff. split.
  - destruct (hd_error s) as [a|]; [|reflexivity]. cbn [option_map].
    apply negb_true_iff in Hh. now rewrite (Hr a Hh).
  - destruct (last_char s) as [a|]; [|reflexivity]. cbn [option_map].
    apply negb_true_iff in Hl. now rewrite (Hr a Hl).
Qed.

(** *** Whitespace *)

Lemma sub_ws_clean (s : str) : any_suffix ws_at (sub_ws s) = false.
Proof.
  induction s as [|a tl IH]; [reflexivity|].
  unfold sub_ws in *. cbn [rewrite_runs].
  destruct (ws_drop a tl) eqn:Hd; [exact IH|].
  cbn [any_suffix]. rewrite IH, orb_false_r.
  unfold ws_at, ws_repl. destruct (is_space a) eqn:Ha.
  - rewrite is_space_32. cbn [andb negb N.eqb Pos.eqb orb].
    unfold ws_drop in Hd. rewrite Ha in Hd. cbn [andb] in Hd.
    destruct tl as [|b tl']; [reflexivity|].
    destruct (ws_inert b tl' Hd) as [Hdb Hrb].
    cbn [rewrite_runs]. rewrite Hdb. unfold ws_repl. now rewrite Hd.
  - now rewrite Ha.
Qed.

Lemma sub_ws_fixed (s : str) : any_suffix ws_at s = false -> sub_ws s = s.
Proof.
  induction s as [|a tl IH]; [reflexivity|].
  cbn [any_suffix]. intros H. apply orb_false_iff in H. destruct H as [Ha Htl].
  unfold sub_ws in *. cbn [rewrite_runs]. rewrite (IH Htl).
  unfold ws_at in Ha. unfold ws_drop, ws_repl.
  destruct (is_space a); [|reflexivity].
  cbn [andb] in *. apply orb_false_iff in Ha. destruct Ha as [H32 Hn].
  rewrite Hn. apply negb_false_iff, N.eqb_eq in H32. now subst a.
Qed.

Lemma clean_no_newline (s : str) : any_suffix ws_at s = false -> ~ In 10%N s.
Proof.
  induction s as [|a tl IH]; [easy|].
  cbn [any_suffix]. intros H. apply orb_false_iff in H. destruct H as [Ha Htl].
  intros [-> | Hin]; [discriminate Ha|]. now apply IH.
Qed.

(** *** Runs of a punctuation character *)

Lemma run_at_cons (c : N) (n : nat) (a : N) (tl : str) :
  run_at c n (a :: tl) = squeeze_drop c n a tl.
Proof.
  unfold run_at, squeeze_drop, startswith. cbn [repeat strip_prefix].
  rewrite N.eqb_sym. now destruct (a =? c)%N.
Qed.

Lemma squeeze_fixed (c : N) (n : nat) (s : str) :
  any_suffix (run_at c n) s = false -> squeeze c n s = s.
Proof.
  induction s as [|a tl IH]; [reflexivity|].
  cbn [any_suffix]. intros H. apply orb_false_iff in H. destruct H as [Ha Htl].
  unfold squeeze in *. cbn [rewrite_runs].
  rewrite run_at_cons in Ha. now rewrite Ha, (IH Htl).
Qed.

Lemma startswith_repeat_le (c : N) (k n : nat) (s : str) :
  k <= n -> startswith s (repeat c n) = true -> startswith s (repeat c k) = true.
Proof.
  intros Hk H. apply startswith_iff in H. destruct H as [r ->].
  replace n with (k + (n - k)) by lia. rewrite repeat_app, <- app_assoc.
  apply startswith_app.
Qed.

Lemma startswith_cons (c a : N) (p tl : str) :
  startswith (a :: tl) (c :: p) = (c =? a)%N && startswith tl p.
Proof.
  unfold startswith. cbn [strip_prefix]. now destruct (c =? a)%N.
Qed.

(** A short run at the head is there after the substitution exactly when
    it is there before. *)
Lemma squeeze_run_prefix (c : N) (n : nat) (s : str) :
  forall k, k <= n ->
  startswith (squeeze c n s) (repeat c k) = startswith s (repeat c k).
Proof.
  induction s as [|a tl IH]; intros k Hk; [reflexivity|].
  destruct k as [|k]; [reflexivity|].
  unfold squeeze in *. cbn [rewrite_runs repeat].
  destruct (squeeze_drop c n a tl) eqn:Hd.
  - unfold squeeze_drop in Hd. apply andb_true_iff in Hd. destruct Hd as [Ha Hs].
    apply N.eqb_eq in Ha. subst a.
    change (c :: repeat c k) with (repeat c (S k)). rewrite (IH (S k) Hk).
    rewrite (startswith_repeat_le c (S k) n tl Hk Hs).
    cbn [repeat]. rewrite startswith_cons, N.eqb_refl. cbn [andb].
    symmetry. apply (startswith_repeat_le c k n tl); [lia|exact Hs].
  - rewrite !startswith_cons. rewrite IH by lia. reflexivity.
Qed.

Lemma squeeze_clean (c : N) (n : nat) (s : str) :
  any_suffix (run_at c n) (squeeze c n s) = false.
Proof.
  induction s as [|a tl IH]; [reflexivity|].
  unfold squeeze in *. cbn [rewrite_runs].
  destruct (squeeze_drop c n a tl) eqn:Hd; [exact IH|].
  cbn [any_suffix]. rewrite IH, orb_false_r.
  rewrite run_at_cons. unfold squeeze_drop at 1.
  change (rewrite_runs (squeeze_drop c n) (fun a => a) tl) with (squeeze c n tl).
  rewrite (squeeze_run_prefix c n tl n (le_n n)).
  exact Hd.
Qed.

(** *** What a substitution on the runs of [c] keeps *)

Section SqueezeKeeps.
Variables (c : N) (n : nat).

Local Abbreviation Q := (squeeze c (S n)).

Lemma sq_startswith (p s : str) :
  Forall (fun x => (x =? c)%N = false) p -> startswith (Q s) p = startswith s p.
Proof.
  apply (rr_startswith (squeeze_drop c (S n)) (fun a => a) (fun a => (a =? c)%N)
           (sq_inert c (S n)) (sq_dropped c n) (sq_act_repl c)).
Qed.

Lemma sq_hd (s : str) : hd_error (Q s) = hd_error s.
Proof.
  unfold squeeze. rewrite (rr_hd _ _ (sq_dropped c n)). now destruct (hd_error s).
Qed.

Lemma sq_trimmed (s : str) : trimmed s = true -> trimmed (Q s) = true.
Proof. apply rr_trimmed; [apply sq_dropped|auto]. Qed.

Lemma sq_run_other (c' : N) (n' : nat) (s : str) :
  c' <> c ->
  any_suffix (run_at c' n') s = false -> any_suffix (run_at c' n') (Q s) = false.
Proof.
  intros Hc H. destruct (any_suffix (run_at c' n') (Q s)) eqn:E; [|reflexivity].
  rewrite <- H. symmetry. revert E. apply rr_reflect.
  intros t Ht. unfold run_at in *. erewrite <- sq_startswith; [exact Ht|].
  apply Forall_forall. intros x Hx. apply repeat_spec in Hx. subst x.
  now apply N.eqb_neq.
Qed.

Lemma sq_ws (s : str) :
  is_space c = false ->
  any_suffix ws_at s = false -> any_suffix ws_at (Q s) = false.
Proof.
  intros Hc H. destruct (any_suffix ws_at (Q s)) eqn:E; [|reflexivity].
  rewrite <- H. symmetry. revert E. apply rr_reflect. clear s H.
  intros s H. change (ws_at (Q s) = true) in H.
  destruct (Q s) as [|a r] eqn:Hq; [discriminate|].
  assert (Ha : is_space a = true) by (cbn in H; now apply andb_true_iff in H).
  assert (Hac : (a =? c)%N = false) by (apply N.eqb_neq; intros ->; congruence).
  destruct (rr_cons_inv (squeeze_drop c (S n)) (fun a => a) (fun a => (a =? c)%N)
              (sq_inert c (S n)) (sq_dropped c n) (sq_act_repl c) a s r Hac Hq)
    as (s' & -> & Hr).
  pose proof (sq_hd s') as Hh. unfold squeeze in Hh. rewrite Hr in Hh.
  unfold ws_at in *. destruct r, s'; cbn in Hh; try discriminate; try exact H.
  now injection Hh as ->.
Qed.

Lemma sq_has_url (s : str) :
  Forall (fun x => (x =? c)%N = false) (py "https://") ->
  has_url s = false -> has_url (Q s) = false.
Proof.
  intros Hc H. destruct (has_url (Q s)) eqn:E; [|reflexivity].
  rewrite <- H. symmetry. revert E.
  apply (has_url_reflect (squeeze_drop c (S n)) (fun a => a) (fun a => (a =? c)%N)
           (sq_inert c (S n)) (sq_dropped c n) (sq_act_repl c) Hc).
  auto.
Qed.

End SqueezeKeeps.

(** *** Lines *)

Lemma splitlines_one (s : str) : ~ In 10%N s -> splitlines s = [s].
Proof.
  induction s as [|a tl IH]; [reflexivity|].
  intros H. cbn [splitlines].
  destruct (a =? 10)%N eqn:Ha.
  - apply N.eqb_eq in Ha. subst a. exfalso. apply H. now left.
  - rewrite IH; [reflexivity|]. intros Hin. apply H. now right.
Qed.

(** On a text of one line, the whole text goes or stays. *)
Lemma sub_lines_one (ps : list str) (s : str) :
  ~ In 10%N s ->
  sub_lines ps s = if existsb (startswith s) ps then [] else s.
Proof.
  intros H. unfold sub_lines. rewrite (splitlines_one s H). cbn [map joinlines].
  reflexivity.
Qed.

(** *** URLs *)

Lemma sub_urls_fixed (s : str) : has_url s = false -> sub_urls s = s.
Proof.
  unfold sub_urls, has_url. induction s as [|a tl IH]; [reflexivity|].
  cbn [any_suffix]. intros H. apply orb_false_iff in H. destruct H as [Ha Htl].
  unfold url_at in Ha. apply negb_false_iff, Nat.eqb_eq in Ha.
  cbn [sub_urls_from]. rewrite Ha. now rewrite (IH Htl).
Qed.

Lemma any_suffix_lstrip (test : str -> bool) (s : str) :
  any_suffix test (lstrip s) = true -> any_suffix test s = true.
Proof.
  induction s as [|a tl IH]; [easy|]. cbn [lstrip].
  destruct (is_space a); [|auto]. intros H. cbn [any_suffix].
  apply orb_true_iff. right. now apply IH.
Qed.

Lemma rstrip_is_prefix (s : str) : exists w, s = rstrip s ++ w.
Proof.
  induction s as [|a tl [w IH]]; [now exists []|].
  cbn [rstrip]. destruct (rstrip tl) as [|c r].
  - destruct (is_space a).
    + now exists (a :: tl).
    + exists tl. reflexivity.
  - exists w. cbn [app]. now rewrite IH at 1.
Qed.

Lemma any_suffix_app (test : str -> bool) (p q : str) :
  (forall a b, test a = true -> test (a ++ b) = true) ->
  any_suffix test p = true -> any_suffix test (p ++ q) = true.
Proof.
  intros Ht. induction p as [|a p IH]; [easy|].
  cbn [any_suffix app]. intros H. apply orb_true_iff in H. apply orb_true_iff.
  destruct H as [H | H]; [left; now apply (Ht (a :: p) q) | right; now apply IH].
Qed.

Lemma strip_prefix_app_r (p s r q : str) :
  strip_prefix p s = Some r -> strip_prefix p (s ++ q) = Some (r ++ q).
Proof.
  intros H. apply strip_prefix_some in H. subst s.
  rewrite <- app_assoc. apply strip_prefix_app.
Qed.

Lemma url_run_app (r q : str) : url_run (r ++ q) = 0 -> url_run r = 0.
Proof.
  destruct r as [|u r]; [reflexivity|]. cbn. now destruct (is_url_char u).
Qed.

Lemma url_tail_app (s q : str) : url_tail (s ++ q) = 0 -> url_tail s = 0.
Proof.
  unfold url_tail. destruct (strip_prefix (py "://") s) as [r|] eqn:H; [|reflexivity].
  rewrite (strip_prefix_app_r _ _ _ q H).
  destruct (url_run (r ++ q)) eqn:E; [|discriminate].
  apply url_run_app in E. now rewrite E.
Qed.

Lemma url_at_app (a b : str) : url_at a = true -> url_at (a ++ b) = true.
Proof.
  unfold url_at. rewrite !negb_true_iff, !Nat.eqb_neq. intros H Hz. apply H.
  apply url_len_zero. apply url_len_zero in Hz.
  destruct (strip_prefix (py "http") a) as [r|] eqn:Hr; [|exact I].
  rewrite (strip_prefix_app_r _ _ _ b Hr) in Hz. destruct Hz as [Hz1 Hz2].
  split; [now apply url_tail_app in Hz1|].
  destruct (strip_prefix (py "s") r) as [r'|] eqn:Hr'; [|exact I].
  rewrite (strip_prefix_app_r _ _ _ b Hr') in Hz2. now apply url_tail_app in Hz2.
Qed.

Lemma has_url_strip (s : str) : has_url s = false -> has_url (strip s) = false.
Proof.
  intros H. destruct (has_url (strip s)) eqn:E; [|reflexivity].
  rewrite <- H. symmetry. unfold has_url, strip in *.
  apply any_suffix_lstrip in E.
  destruct (rstrip_is_prefix s) as [w Hw]. rewrite Hw.
  apply any_suffix_app; [exact url_at_app|exact E].
Qed.

Lemma has_url_sub_ws (s : str) : has_url s = false -> has_url (sub_ws s) = false.
Proof.
  intros H. destruct (has_url (sub_ws s)) eqn:E; [|reflexivity].
  rewrite <- H. symmetry. revert E.
  apply (has_url_reflect ws_drop ws_repl is_space ws_inert ws_dropped ws_act_repl).
  - repeat constructor.
  - intros a. unfold ws_repl. destruct (is_space a); [discriminate|auto].
Qed.

(** *** Fixed points of [clean_text] *)

(** The three punctuation substitutions in a row. *)
Lemma punct_startswith (p s : str) :
  Forall (fun x => (x =? 46)%N = false) p ->
  Forall (fun x => (x =? 33)%N = false) p ->
  Forall (fun x => (x =? 63)%N = false) p ->
  startswith (sub_quests (sub_bangs (sub_dots s))) p = startswith s p.
Proof.
  intros H1 H2 H3. unfold sub_quests, sub_bangs, sub_dots.
  now rewrite !sq_startswith.
Qed.

Lemma clean_text_stable (s : str) :
  trimmed s = true ->
  any_suffix ws_at s = false ->
  existsb (startswith s) header_prefixes = false ->
  existsb (startswith s) [py "--"] = false ->
  has_url s = false ->
  any_suffix (run_at 46 3) s = false ->
  any_suffix (run_at 33 1) s = false ->
  any_suffix (run_at 63 1) s = false ->
  clean_text s = s.
Proof.
  intros Ht Hw Hh Hs Hu Hd Hb Hq.
  destruct s as [|a s0]; [reflexivity|]. unfold clean_text.
  rewrite (trimmed_strip _ Ht), (sub_ws_fixed _ Hw).
  unfold sub_headers, sub_signature.
  rewrite (sub_lines_one _ _ (clean_no_newline _ Hw)), Hh.
  rewrite (sub_lines_one _ _ (clean_no_newline _ Hw)), Hs.
  rewrite (sub_urls_fixed _ Hu).
  unfold sub_dots, sub_bangs, sub_quests.
  rewrite (squeeze_fixed _ _ _ Hd), (squeeze_fixed _ _ _ Hb), (squeeze_fixed _ _ _ Hq).
  apply (trimmed_strip _ Ht).
Qed.

(** C3, as the code has it. On a text in which the URL pattern matches
    nowhere, cleaning twice is cleaning once. *)
Theorem clean_text_idempotent_without_urls (x : str) :
  has_url x = false -> clean_text (clean_text x) = clean_text x.
Proof.
  intros Hx. destruct x as [|a0 x0]; [reflexivity|].
  set (x := a0 :: x0) in *. set (s1 := sub_ws (strip x)).
  assert (Hw1 : any_suffix ws_at s1 = false) by apply sub_ws_clean.
  assert (Ht1 : trimmed s1 = true).
  { apply rr_trimmed; [exact ws_dropped| |apply strip_trimmed].
    intros a Ha. unfold ws_repl. now rewrite Ha. }
  assert (Hu1 : has_url s1 = false) by now apply has_url_sub_ws, has_url_strip.
  assert (Hnl : ~ In 10%N s1) by now apply clean_no_newline.
  assert (Hc : clean_text x =
               strip (sub_quests (sub_bangs (sub_dots
                 (sub_urls (sub_signature (sub_headers s1)))))))
    by reflexivity.
  rewrite Hc. clear Hc.
  unfold sub_headers. rewrite (sub_lines_one _ _ Hnl).
  destruct (existsb (startswith s1) header_prefixes) eqn:Hh; [reflexivity|].
  unfold sub_signature. rewrite (sub_lines_one _ _ Hnl).
  destruct (existsb (startswith s1) [py "--"]) eqn:Hs; [reflexivity|].
  rewrite (sub_urls_fixed _ Hu1).
  set (o := sub_quests (sub_bangs (sub_dots s1))).
  assert (Hto : trimmed o = true) by (subst o; now apply sq_trimmed, sq_trimmed, sq_trimmed).
  rewrite (trimmed_strip _ Hto).
  apply clean_text_stable.
  - exact Hto.
  - subst o. apply sq_ws, sq_ws, sq_ws; auto.
  - assert (E : existsb (startswith o) header_prefixes =
                 existsb (startswith s1) header_prefixes).
    { subst o. unfold header_prefixes, existsb.
      rewrite !punct_startswith; try reflexivity; repeat constructor. }
    now rewrite E.
  - assert (E : existsb (startswith o) [py "--"] =
                 existsb (startswith s1) [py "--"]).
    { subst o. unfold existsb.
      rewrite !punct_startswith; try reflexivity; repeat constructor. }
    now rewrite E.
  - subst o. apply sq_has_url, sq_has_url, sq_has_url; auto; repeat constructor.
  - subst o. apply sq_run_other, sq_run_other; try discriminate.
    apply (squeeze_clean 46 3).
  - subst o. apply sq_run_other; try discriminate. apply (squeeze_clean 33 1).
  - subst o. apply (squeeze_clean 63 1).
Qed.

Lemma clean_text_idempotent_without_urls_witness :
  clean_text (clean_text (py "  Hello    world!!!  Why???  Wait.....  ")) =
  clean_text (py "  Hello    world!!!  Why???  Wait.....  ").
Proof.
  apply (clean_text_idempotent_without_urls
           (py "  Hello    world!!!  Why???  Wait.....  ")).
  vm_compute. reflexivity.
Defined.

(** C3 as stated fails: the URL is taken out after the whitespace has been
    collapsed, which leaves two spaces in a row for the second pass. *)
Lemma clean_text_not_idempotent :
  clean_text (py "a http://x b") = py "a  b"
  /\ clean_text (py "a  b") = py "a b"
  /\ clean_text (clean_text (py "a http://x b")) <> clean_text (py "a http://x b").
Proof.
  split; [vm_compute; reflexivity|]. split; [vm_compute; reflexivity|].
  vm_compute. discriminate.
Qed.

Example clean_text_ex1 :
  clean_text (py "  Hello    world!!!  Why???  Wait.....  ") =
  py "Hello world! Why? Wait...".
Proof. vm_compute. reflexivity. Qed.

Example clean_text_ex2 :
  clean_text (py "see https://example.com/a?b=1 now") = py "see  now".
Proof. vm_compute. reflexivity. Qed.

Example clean_text_ex3 : clean_text (py "From: bob hello there") = [].
Proof. vm_compute. reflexivity. Qed.

(** The header pattern is applied after the line feeds have become
    spaces: a header line in the middle of a text stays. *)
Example clean_text_ex4 :
  clean_text (py "Hi" ++ [10%N] ++ py "Subject: x" ++ [10%N] ++ py "bye") =
  py "Hi Subject: x bye".
Proof. vm_compute. reflexivity. Qed.

End NormalizerFacts.

(** ** More on the text normalizer *)

Module NormalizerMore.
Import Normalizer StrFacts NormalizerFacts.

(** *** Lengths *)

Lemma rr_length (drop : N -> str -> bool) (repl : N -> N) (s : str) :
  length (rewrite_runs drop repl s) <= length s.
Proof.
  induction s as [|a tl IH]; [reflexivity|]. cbn [rewrite_runs].
  destruct (drop a tl); cbn [length]; lia.
Qed.

Lemma lstrip_length (s : str) : length (lstrip s) <= length s.
Proof.
  induction s as [|a tl IH]; [reflexivity|]. cbn [lstrip].
  destruct (is_space a); cbn [length]; lia.
Qed.

Lemma rstrip_length (s : str) : length (rstrip s) <= length s.
Proof.
  destruct (rstrip_is_prefix s) as [w Hw]. rewrite Hw at 2.
  rewrite length_app. lia.
Qed.

Lemma strip_length (s : str) : length (strip s) <= length s.
Proof.
  unfold strip. pose proof (lstrip_length (rstrip s)). pose proof (rstrip_length s).
  lia.
Qed.

Lemma splitlines_cons (s : str) : exists l ls, splitlines s = l :: ls.
Proof.
  destruct s as [|a tl]; [now exists [], []|]. cbn [splitlines].
  destruct (a =? 10)%N; [now eexists; eexists|].
  destruct (splitlines tl); now eexists; eexists.
Qed.

Lemma joinlines_cons (l : str) (ls : list str) :
  ls <> [] -> joinlines (l :: ls) = l ++ 10%N :: joinlines ls.
Proof. destruct ls; [congruence|reflexivity]. Qed.

(** Cutting into lines and joining them again gives the text back. *)
Lemma joinlines_splitlines (s : str) : joinlines (splitlines s) = s.
Proof.
  induction s as [|a tl IH]; [reflexivity|]. cbn [splitlines].
  destruct (splitlines_cons tl) as (l & ls & Hl). rewrite Hl in *.
  destruct (a =? 10)%N eqn:Ha.
  - apply N.eqb_eq in Ha. subst a.
    rewrite joinlines_cons by discriminate. now rewrite IH.
  - destruct ls as [|l' ls].
    + cbn [joinlines] in *. now rewrite IH.
    + rewrite joinlines_cons by discriminate.
      rewrite joinlines_cons in IH by discriminate.
      cbn [app]. now rewrite IH.
Qed.

Lemma joinlines_length_le (f : str -> str) (ls : list str) :
  (forall l, length (f l) <= length l) ->
  length (joinlines (map f ls)) <= length (joinlines ls).
Proof.
  intros Hf. induction ls as [|l ls IH]; [reflexivity|].
  destruct ls as [|l' ls]; [apply Hf|].
  change (map f (l :: l' :: ls)) with (f l :: map f (l' :: ls)).
  remember (l' :: ls) as r eqn:Hr.
  assert (Hm : map f r <> []) by (subst r; discriminate).
  assert (Hn : r <> []) by (subst r; discriminate).
  rewrite !joinlines_cons by assumption.
  rewrite !length_app. cbn [length]. specialize (Hf l). lia.
Qed.

Lemma sub_lines_length (ps : list str) (s : str) :
  length (sub_lines ps s) <= length s.
Proof.
  unfold sub_lines. rewrite <- (joinlines_splitlines s) at 2.
  apply joinlines_length_le. intros l.
  destruct (existsb (startswith l) ps); cbn [length]; lia.
Qed.

Lemma sub_urls_from_length (s : str) :
  forall skip, length (sub_urls_from skip s) <= length s.
Proof.
  induction s as [|a tl IH]; intros skip; [reflexivity|]. cbn [sub_urls_from].
  destruct skip as [|k].
  - destruct (url_len (a :: tl)); cbn [length];
      [specialize (IH 0) | specialize (IH n)]; lia.
  - specialize (IH k). cbn [length]. lia.
Qed.

(** X1. Cleaning never makes a text longer. *)
Theorem clean_text_not_longer (x : str) : length (clean_text x) <= length x.
Proof.
  destruct x as [|a0 x0]; [reflexivity|]. set (x := a0 :: x0).
  unfold clean_text. fold x. cbv zeta.
  eapply Nat.le_trans; [apply strip_length|].
  unfold sub_quests, sub_bangs, sub_dots, squeeze.
  eapply Nat.le_trans; [apply rr_length|].
  eapply Nat.le_trans; [apply rr_length|].
  eapply Nat.le_trans; [apply rr_length|].
  eapply Nat.le_trans; [apply sub_urls_from_length|].
  eapply Nat.le_trans; [apply sub_lines_length|].
  eapply Nat.le_trans; [apply sub_lines_length|].
  eapply Nat.le_trans; [apply rr_length|].
  apply strip_length.
Qed.

(** X2. What [clean_text] returns has no whitespace at either end:
    trimming it again changes nothing. *)
Theorem clean_text_is_trimmed (x : str) :
  trimmed (clean_text x) = true /\ strip (clean_text x) = clean_text x.
Proof.
  assert (H : trimmed (clean_text x) = true).
  { destruct x as [|a0 x0]; [reflexivity|]. unfold clean_text. apply strip_trimmed. }
  split; [exact H|now apply trimmed_strip].
Qed.

(** *** Patterns in a part of a text *)

Lemma any_suffix_found (test : str -> bool) (pre post : str) :
  post <> [] -> test post = true -> any_suffix test (pre ++ post) = true.
Proof.
  intros Hne Ht. induction pre as [|a pre IH].
  - destruct post as [|b post]; [congruence|]. cbn [app any_suffix]. now rewrite Ht.
  - cbn [app any_suffix]. rewrite IH. apply orb_true_r.
Qed.

Lemma run_at_app (c : N) (n : nat) (a b : str) :
  run_at c n a = true -> run_at c n (a ++ b) = true.
Proof.
  unfold run_at. intros H. apply startswith_iff in H. destruct H as [r ->].
  rewrite <- app_assoc. apply startswith_app.
Qed.

Lemma any_suffix_strip (test : str -> bool) (s : str) :
  (forall a b, test a = true -> test (a ++ b) = true) ->
  any_suffix test s = false -> any_suffix test (strip s) = false.
Proof.
  intros Ht H. destruct (any_suffix test (strip s)) eqn:E; [|reflexivity].
  rewrite <- H. symmetry. unfold strip in E. apply any_suffix_lstrip in E.
  destruct (rstrip_is_prefix s) as [w Hw]. rewrite Hw.
  now apply any_suffix_app.
Qed.

(** After the three punctuation substitutions no long run is left. *)
Lemma punct_clean (s : str) :
  let o := sub_quests (sub_bangs (sub_dots s)) in
  any_suffix (run_at 46 3) o = false
  /\ any_suffix (run_at 33 1) o = false
  /\ any_suffix (run_at 63 1) o = false.
Proof.
  cbv zeta. unfold sub_quests, sub_bangs, sub_dots. split; [|split].
  - apply sq_run_other, sq_run_other; try discriminate. apply (squeeze_clean 46 3).
  - apply sq_run_other; try discriminate. apply (squeeze_clean 33 1).
  - apply (squeeze_clean 63 1).
Qed.

Lemma clean_text_runs (x : str) :
  any_suffix (run_at 46 3) (clean_text x) = false
  /\ any_suffix (run_at 33 1) (clean_text x) = false
  /\ any_suffix (run_at 63 1) (clean_text x) = false.
Proof.
  destruct x as [|a0 x0]; [repeat split|]. unfold clean_text.
  match goal with |- context [strip (sub_quests (sub_bangs (sub_dots ?u)))] =>
    destruct (punct_clean u) as (H1 & H2 & H3) end.
  repeat split; apply any_suffix_strip; auto using run_at_app.
Qed.

(** X3. What [clean_text] returns contains no four periods in a row, no
    two exclamation marks in a row and no two question marks in a row. *)
Theorem clean_text_has_no_long_runs (x pre post : str) :
  clean_text x <> pre ++ py "...." ++ post
  /\ clean_text x <> pre ++ py "!!" ++ post
  /\ clean_text x <> pre ++ py "??" ++ post.
Proof.
  destruct (clean_text_runs x) as (H1 & H2 & H3).
  repeat split; intros H.
  - rewrite H in H1.
    rewrite (any_suffix_found (run_at 46 3) pre (py "...." ++ post)) in H1;
      [discriminate|discriminate|reflexivity].
  - rewrite H in H2.
    rewrite (any_suffix_found (run_at 33 1) pre (py "!!" ++ post)) in H2;
      [discriminate|discriminate|reflexivity].
  - rewrite H in H3.
    rewrite (any_suffix_found (run_at 63 1) pre (py "??" ++ post)) in H3;
      [discriminate|discriminate|reflexivity].
Qed.

(** *** A header or signature prefix *)

Lemma sub_ws_startswith (p s : str) :
  Forall (fun x => is_space x = false) p ->
  startswith (sub_ws s) p = startswith s p.
Proof.
  apply (rr_startswith ws_drop ws_repl is_space ws_inert ws_dropped ws_act_repl).
Qed.

(** A text that, once trimmed, begins with one of the header prefixes or
    with the signature mark is cleaned to nothing, whatever follows. *)
Lemma header_prefix_cleans_to_nothing (x p : str) :
  In p (header_prefixes ++ [py "--"]) ->
  startswith (strip x) p = true ->
  clean_text x = [].
Proof.
  intros Hp Hs. destruct x as [|a0 x0]; [reflexivity|]. set (x := a0 :: x0) in *.
  set (s1 := sub_ws (strip x)).
  assert (Hw1 : any_suffix ws_at s1 = false) by apply sub_ws_clean.
  assert (Hnl : ~ In 10%N s1) by now apply clean_no_newline.
  assert (Hs1 : startswith s1 p = true).
  { subst s1. rewrite sub_ws_startswith; [exact Hs|].
    cbn in Hp. destruct Hp as [<- | [<- | [<- | [<- | [<- | []]]]]];
      repeat constructor. }
  assert (Hc : clean_text x =
               strip (sub_quests (sub_bangs (sub_dots
                 (sub_urls (sub_signature (sub_headers s1)))))))
    by reflexivity.
  rewrite Hc. clear Hc.
  unfold sub_headers. rewrite (sub_lines_one _ _ Hnl).
  destruct (existsb (startswith s1) header_prefixes) eqn:Hh; [reflexivity|].
  unfold sub_signature. rewrite (sub_lines_one _ _ Hnl).
  assert (Hsig : existsb (startswith s1) [py "--"] = true).
  { apply in_app_or in Hp. destruct Hp as [Hp | [<- | []]].
    - assert (existsb (startswith s1) header_prefixes = true)
        by (apply existsb_exists; now exists p).
      congruence.
    - cbn [existsb]. now rewrite Hs1. }
  now rewrite Hsig.
Qed.

End NormalizerMore.

(** ** More on the classifier call *)

Module ClassifierMore.
Import Normalizer Classifier StrFacts ClassifierFacts NormalizerMore Samples.

(** A message that is short once cleaned is answered at the first attempt,
    without a call. *)
Lemma analyze_short (E : env) (m : str) (w : world) :
  length (clean_text m) < 10 ->
  analyze_sentiment_with_gemini E m w = (Ok too_short, w).
Proof.
  intros H. apply Nat.ltb_lt in H.
  unfold analyze_sentiment_with_gemini, stop_max_attempt_number.
  cbn [retry_call]. unfold try_except, analyze_once. now rewrite H.
Qed.

(** X4. A message whose cleaned text has fewer than 10 characters is
    classified neutral with confidence 0.5 and no keywords; the classifier
    is not called and the world is left as it is. *)
Theorem short_message_is_neutral (E : env) (m : str) (w : world) :
  length (clean_text m) < 10 ->
  analyze_sentiment_with_gemini E m w = (Ok too_short, w)
  /\ dget (py "sentiment") too_short = Some (VStr (py "neutral"))
  /\ dget (py "confidence") too_short = Some (VFloat f_half)
  /\ dget (py "keywords") too_short = Some (VList []).
Proof.
  intros H. split; [now apply analyze_short|]. repeat split.
Qed.

Lemma short_message_is_neutral_witness :
  analyze_sentiment_with_gemini E_down (py "  ok!!  ") w_blank = (Ok too_short, w_blank)
  /\ dget (py "sentiment") too_short = Some (VStr (py "neutral"))
  /\ dget (py "confidence") too_short = Some (VFloat f_half)
  /\ dget (py "keywords") too_short = Some (VList []).
Proof.
  apply (short_message_is_neutral E_down (py "  ok!!  ") w_blank).
  vm_compute. lia.
Defined.

(** X5. A message that, once trimmed, begins with [From:], [To:],
    [Subject:], [Date:] or [--] is cleaned to the empty text, whatever
    follows the prefix, and is therefore classified as too short: neutral,
    without a call of the classifier. *)
Theorem header_message_is_neutral (E : env) (m p : str) (w : world) :
  In p (header_prefixes ++ [py "--"]) ->
  startswith (strip m) p = true ->
  clean_text m = []
  /\ analyze_sentiment_with_gemini E m w = (Ok too_short, w).
Proof.
  intros Hp Hs.
  assert (Hc : clean_text m = []) by now apply (header_prefix_cleans_to_nothing m p).
  split; [exact Hc|]. apply analyze_short. rewrite Hc. cbn. lia.
Qed.

Lemma header_message_is_neutral_witness :
  clean_text (py "  Subject: my internet has been down for three days!") = []
  /\ analyze_sentiment_with_gemini E_down
       (py "  Subject: my internet has been down for three days!") w_blank
     = (Ok too_short, w_blank).
Proof.
  apply (header_message_is_neutral E_down
           (py "  Subject: my internet has been down for three days!")
           (py "Subject:") w_blank).
  - vm_compute. tauto.
  - vm_compute. reflexivity.
Defined.

(** *** What validation raises and what it returns *)

Lemma validate_raises (E : env) (v : pyval) (e : exn) :
  validate E v = Raise e ->
  (exists k, e = MissingKey k) \/ (exists k, e = KeyError k)
  \/ e = NotADict \/ e = OverflowError \/ e = TypeError.
Proof.
  intros H. destruct v; unfold validate in H;
    try (injection H as <-; tauto).
  peel H. { apply check_keys_raises in H. tauto. }
  peel H. { apply subscript_raises in H. subst e. right; left. eauto. }
  peel H. { apply subscript_raises in H. subst e. right; left. eauto. }
  peel H. { apply clamp_confidence_raises in H. tauto. }
  peel H. { apply subscript_raises in H. subst e. right; left. eauto. }
  peel H. { apply subscript_raises in H. subst e. right; left. eauto. }
  peel H. { apply slice5_raises in H. tauto. }
  discriminate.
Qed.

Lemma check_keys_ok (ks : list str) (d : dict) :
  check_keys ks d = Ok tt -> forall k, In k ks -> dhas k d = true.
Proof.
  induction ks as [|k0 ks IH]; cbn [check_keys]; [easy|].
  destruct (dhas k0 d) eqn:Hk; [|discriminate].
  intros H k [<- | Hin]; auto.
Qed.

(** What an accepted response becomes, field by field. *)
Lemma validate_ok_inv (E : env) (d r : dict) :
  validate E (VDict d) = Ok r ->
  exists s0 c0 k0 c,
    dget (py "sentiment") d = Some s0
    /\ dget (py "confidence") d = Some c0
    /\ dget (py "keywords") d = Some k0
    /\ clamp_confidence E c0 = Ok c
    /\ (forall k, In k required_keys -> dhas k d = true)
    /\ r = dset (py "keywords")
             (VList (match k0 with VList l => firstn 5 l | _ => [] end))
             (let r2 := dset (py "confidence") (VFloat c)
                          (if is_valid_sentiment s0 then d
                           else dset (py "sentiment") (VStr (py "neutral")) d) in
              if is_list k0 then r2 else dset (py "keywords") (VList []) r2).
Proof.
  unfold validate.
  destruct (check_keys required_keys d) as [[]|] eqn:Hck; [|discriminate].
  cbn [rbind]. cbv zeta.
  destruct (subscript d (py "sentiment")) as [s0|] eqn:Hs; [|discriminate].
  cbn [rbind]. cbv zeta.
  match goal with |- context [subscript ?x (py "confidence")] =>
    set (r1 := x) end.
  assert (Hc1 : subscript r1 (py "confidence") = subscript d (py "confidence")).
  { unfold subscript. subst r1. destruct (is_valid_sentiment s0); [reflexivity|].
    now rewrite dget_dset_other by (vm_compute; discriminate). }
  rewrite Hc1.
  destruct (subscript d (py "confidence")) as [c0|] eqn:Hc0; [|discriminate].
  cbn [rbind]. cbv zeta.
  destruct (clamp_confidence E c0) as [c|] eqn:Hcl; [|discriminate].
  cbn [rbind]. cbv zeta.
  set (r2 := dset (py "confidence") (VFloat c) r1).
  assert (Hk2 : subscript r2 (py "keywords") = subscript d (py "keywords")).
  { unfold subscript. subst r2 r1.
    rewrite dget_dset_other by (vm_compute; discriminate).
    destruct (is_valid_sentiment s0); [reflexivity|].
    now rewrite dget_dset_other by (vm_compute; discriminate). }
  rewrite Hk2.
  destruct (subscript d (py "keywords")) as [k0|] eqn:Hk0; [|discriminate].
  cbn [rbind]. cbv zeta.
  assert (Hk3 : subscript (if is_list k0 then r2
                           else dset (py "keywords") (VList []) r2) (py "keywords")
                = Ok (if is_list k0 then k0 else VList [])).
  { destruct (is_list k0).
    - now rewrite Hk2.
    - unfold subscript. now rewrite dget_dset_same. }
  rewrite Hk3. cbn [rbind].
  assert (Hsl : slice5 (if is_list k0 then k0 else VList [])
                = Ok (VList (match k0 with VList l => firstn 5 l | _ => [] end)))
    by now destruct k0.
  rewrite Hsl. cbn [rbind]. intros [= <-].
  unfold subscript in Hs, Hc0, Hk0.
  destruct (dget (py "sentiment") d); [|discriminate]. injection Hs as ->.
  destruct (dget (py "confidence") d); [|discriminate]. injection Hc0 as ->.
  destruct (dget (py "keywords") d); [|discriminate]. injection Hk0 as ->.
  exists s0, c0, k0, c. repeat split; try reflexivity; try assumption.
  now apply check_keys_ok.
Qed.

(** X6. A response that passes validation had the four required keys, and
    validation touches the sentiment, the confidence and the keywords only:
    the summary and every other key of the response come out as they
    went in. *)
Theorem validate_keeps_other_keys (E : env) (d r : dict) :
  validate E (VDict d) = Ok r ->
  (forall k, In k required_keys -> dhas k d = true)
  /\ (forall k, k <> py "sentiment" -> k <> py "confidence" -> k <> py "keywords" ->
                dget k r = dget k d).
Proof.
  intros H. apply validate_ok_inv in H.
  destruct H as (s0 & c0 & k0 & c & _ & _ & _ & _ & Hkeys & ->).
  split; [exact Hkeys|]. intros k H1 H2 H3. cbv zeta.
  rewrite dget_dset_other by congruence.
  destruct (is_list k0).
  - rewrite dget_dset_other by congruence.
    destruct (is_valid_sentiment s0); [reflexivity|].
    now rewrite dget_dset_other by congruence.
  - rewrite !dget_dset_other by congruence.
    destruct (is_valid_sentiment s0); [reflexivity|].
    now rewrite dget_dset_other by congruence.
Qed.

Lemma validate_keeps_other_keys_witness :
  (forall k, In k required_keys -> dhas k sample_dict = true)
  /\ (forall k, k <> py "sentiment" -> k <> py "confidence" -> k <> py "keywords" ->
                dget k angry_result = dget k sample_dict).
Proof.
  apply (validate_keeps_other_keys E_fenced sample_dict angry_result).
  vm_compute. reflexivity.
Defined.

(** X7. In an accepted response the sentiment is kept when it is one of
    [anger], [confusion], [delight], [neutral] (in these exact letters) and
    is [neutral] otherwise; the keywords are the first five of the list
    given, or none when no list was given; the confidence is the clamped
    one. *)
Theorem validate_repairs_fields (E : env) (d r : dict) :
  validate E (VDict d) = Ok r ->
  exists s0 c0 k0 c,
    dget (py "sentiment") d = Some s0
    /\ dget (py "confidence") d = Some c0
    /\ dget (py "keywords") d = Some k0
    /\ clamp_confidence E c0 = Ok c
    /\ dget (py "sentiment") r
       = Some (if is_valid_sentiment s0 then s0 else VStr (py "neutral"))
    /\ dget (py "confidence") r = Some (VFloat c)
    /\ dget (py "keywords") r
       = Some (VList (match k0 with VList l => firstn 5 l | _ => [] end)).
Proof.
  intros H. apply validate_ok_inv in H.
  destruct H as (s0 & c0 & k0 & c & Hs & Hc & Hk & Hcl & _ & ->).
  exists s0, c0, k0, c. repeat split; try assumption; cbv zeta.
  - rewrite dget_dset_other by (vm_compute; discriminate).
    destruct (is_list k0);
      rewrite ?(dget_dset_other (py "keywords")) by (vm_compute; discriminate);
      rewrite dget_dset_other by (vm_compute; discriminate);
      (destruct (is_valid_sentiment s0); [exact Hs|apply dget_dset_same]).
  - rewrite dget_dset_other by (vm_compute; discriminate).
    destruct (is_list k0);
      rewrite ?(dget_dset_other (py "keywords")) by (vm_compute; discriminate);
      apply dget_dset_same.
  - apply dget_dset_same.
Qed.

Lemma validate_repairs_fields_witness :
  exists s0 c0 k0 c,
    dget (py "sentiment") shouted_dict = Some s0
    /\ dget (py "confidence") shouted_dict = Some c0
    /\ dget (py "keywords") shouted_dict = Some k0
    /\ clamp_confidence E_fenced c0 = Ok c
    /\ dget (py "sentiment") shouted_result
       = Some (if is_valid_sentiment s0 then s0 else VStr (py "neutral"))
    /\ dget (py "confidence") shouted_result = Some (VFloat c)
    /\ dget (py "keywords") shouted_result
       = Some (VList (match k0 with VList l => firstn 5 l | _ => [] end)).
Proof.
  apply (validate_repairs_fields E_fenced shouted_dict shouted_result).
  vm_compute. reflexivity.
Defined.

(** A response with a capitalised sentiment, a confidence given as a
    string that does not parse and six keywords. *)
Example shouted_response_repaired :
  dget (py "sentiment") shouted_result = Some (VStr (py "neutral"))
  /\ dget (py "confidence") shouted_result = Some (VFloat f_half)
  /\ dget (py "keywords") shouted_result
     = Some (VList [VStr (py "a"); VStr (py "b"); VStr (py "c");
                    VStr (py "d"); VStr (py "e")])
  /\ dget (py "summary") shouted_result = Some VNone.
Proof. vm_compute. repeat split. Qed.

(** *** The attempts *)

Lemma retry_call_ok {A} (fn : M A) (fuel : nat) :
  forall n w a w',
    retry_call fuel n fn w = (Ok a, w') -> exists w0 w1, fn w0 = (Ok a, w1).
Proof.
  induction fuel as [|fuel IH]; intros n w a w'; [discriminate|].
  cbn [retry_call]. unfold try_except.
  destruct (fn w) as [[a0|e] w1] eqn:Hfn.
  - intros [= <- <-]. now exists w, w1.
  - destruct (stop_after_attempt n); [discriminate|].
    unfold bind, sleep. apply IH.
Qed.

Lemma analyze_once_ok (E : env) (m : str) (w w' : world) (d : dict) :
  analyze_once E m w = (Ok d, w') ->
  d = too_short \/ exists v, validate E v = Ok d.
Proof.
  unfold analyze_once. destruct (length (clean_text m) <? 10).
  - intros [= <- _]. now left.
  - unfold bind, generate, lift.
    destruct (generate_content E (calls w) (prompt_head E ++ clean_text m))
      as [text|]; [|discriminate].
    unfold parse_response. destruct text as [|a text]; [discriminate|].
    destruct (json_loads E (unfence (strip (a :: text)))) as [v|]; [|discriminate].
    intros [= H _]. right. now exists v.
Qed.

(** Whatever the classifier answers, a result that
    [analyze_sentiment_with_gemini] returns has a sentiment among [anger],
    [confusion], [delight] and [neutral], a confidence between 0 and 1, at
    most five keywords, and a summary. *)
Lemma analyze_ok_fields (E : env) (m : str) (w w' : world) (d : dict) :
  analyze_sentiment_with_gemini E m w = (Ok d, w') ->
  (exists s, dget (py "sentiment") d = Some (VStr s) /\ In s valid_sentiments)
  /\ (exists c, dget (py "confidence") d = Some (VFloat c)
                /\ SFleb f_zero c = true /\ SFleb c f_one = true)
  /\ (exists k, dget (py "keywords") d = Some (VList k) /\ length k <= 5)
  /\ dhas (py "summary") d = true.
Proof.
  intros H. apply retry_call_ok in H. destruct H as (w0 & w1 & H).
  apply analyze_once_ok in H. destruct H as [-> | [v Hv]].
  - split; [exists (py "neutral"); split; [reflexivity|cbn; tauto]|].
    split; [exists f_half; repeat split|].
    split; [exists []; split; [reflexivity|cbn; lia]|reflexivity].
  - destruct (validate_ok_repaired E v d Hv) as (Hs & Hc & Hk).
    split; [exact Hs|]. split; [exact Hc|]. split; [exact Hk|].
    destruct v; try discriminate Hv.
    apply validate_ok_inv in Hv.
    destruct Hv as (s0 & c0 & k0 & c & _ & _ & _ & _ & Hkeys & ->).
    assert (Hsum : dhas (py "summary") d0 = true) by (apply Hkeys; cbn; tauto).
    unfold dhas in *. cbv zeta.
    rewrite dget_dset_other by (vm_compute; discriminate).
    destruct (is_list k0);
      rewrite ?(dget_dset_other (py "keywords")) by (vm_compute; discriminate);
      rewrite dget_dset_other by (vm_compute; discriminate);
      (destruct (is_valid_sentiment s0);
       [exact Hsum | now rewrite dget_dset_other by (vm_compute; discriminate)]).
Qed.

(** One attempt: it makes at most one call, lets the store and the clock
    alone and does not fail for want of fuel. *)
Lemma analyze_once_step (E : env) (m : str) (w : world) :
  exists r w1,
    analyze_once E m w = (r, w1)
    /\ r <> Raise OutOfFuel
    /\ docs w1 = docs w /\ clock w1 = clock w
    /\ calls w <= calls w1 <= S (calls w).
Proof.
  unfold analyze_once. destruct (length (clean_text m) <? 10).
  - exists (Ok too_short), w. repeat split; try discriminate; lia.
  - unfold bind, generate, lift.
    destruct (generate_content E (calls w) (prompt_head E ++ clean_text m))
      as [text|].
    + do 2 eexists. split; [reflexivity|]. cbn [docs clock calls].
      split; [|repeat split; lia].
      unfold parse_response. destruct text as [|a text]; [discriminate|].
      destruct (json_loads E (unfence (strip (a :: text)))) as [v|]; [|discriminate].
      intros H. apply validate_raises in H.
      destruct H as [[k H] | [[k H] | [H | [H | H]]]]; discriminate.
    + do 2 eexists. split; [reflexivity|]. cbn [docs clock calls].
      repeat split; try discriminate; lia.
Qed.

(** X8. Whatever the message and the classifier, one run of
    [analyze_sentiment_with_gemini] ends (with a result or with the
    exception of its last attempt), calls the classifier at most three
    times, sleeps for at most 6000 ms in all and does not touch the
    store. *)
Theorem analyze_makes_at_most_three_calls (E : env) (m : str) (w : world) :
  exists r w',
    analyze_sentiment_with_gemini E m w = (r, w')
    /\ r <> Raise OutOfFuel
    /\ calls w <= calls w' <= 3 + calls w
    /\ (clock w <= clock w' <= clock w + 6000)%Z
    /\ docs w' = docs w.
Proof.
  unfold analyze_sentiment_with_gemini, stop_max_attempt_number.
  cbn [retry_call]. unfold try_except at 1.
  destruct (analyze_once_step E m w) as (r1 & w1 & -> & Hr1 & Hd1 & Hc1 & Hn1).
  destruct r1 as [d|e1].
  { do 2 eexists. split; [reflexivity|]. repeat split; try discriminate; try lia.
    exact Hd1. }
  change (stop_after_attempt 1) with false. cbv iota.
  unfold bind at 1, sleep at 1. unfold try_except at 1.
  match goal with |- context [analyze_once E m ?w0] =>
    destruct (analyze_once_step E m w0) as (r2 & w2 & -> & Hr2 & Hd2 & Hc2 & Hn2) end.
  cbn [docs clock calls] in *.
  destruct r2 as [d|e2].
  { do 2 eexists. split; [reflexivity|].
    change (exponential_sleep 1) with 2000%Z in *.
    repeat split; try discriminate; try lia. congruence. }
  change (stop_after_attempt 2) with false. cbv iota.
  unfold bind at 1, sleep at 1. unfold try_except at 1.
  match goal with |- context [analyze_once E m ?w0] =>
    destruct (analyze_once_step E m w0) as (r3 & w3 & -> & Hr3 & Hd3 & Hc3 & Hn3) end.
  cbn [docs clock calls] in *.
  change (exponential_sleep 1) with 2000%Z in *.
  change (exponential_sleep 2) with 4000%Z in *.
  destruct r3 as [d|e3].
  { do 2 eexists. split; [reflexivity|].
    repeat split; try discriminate; try lia. congruence. }
  change (stop_after_attempt 3) with true. cbv iota. unfold raise.
  do 2 eexists. split; [reflexivity|].
  repeat split; try assumption; try lia. congruence.
Qed.

End ClassifierMore.

(** ** More on the worker *)

Module WorkerMore.
Import Normalizer Classifier Worker StoreFacts BatchFacts ClassifierFacts
       ClassifierMore Samples Spec.

(** *** Relations that every step of the processing respects *)

Section Respects.
Variable R : world -> world -> Prop.
Hypothesis R_refl : forall w, R w w.
Hypothesis R_trans : forall a b c, R a b -> R b c -> R a c.

Lemma respects_ret {A} (a : A) : respects R (ret a).
Proof. intros w. apply R_refl. Qed.

Lemma respects_raise {A} (e : exn) : respects R (@raise A e).
Proof. intros w. apply R_refl. Qed.

Lemma respects_lift {A} (r : result A) : respects R (lift r).
Proof. intros w. apply R_refl. Qed.

Lemma respects_bind {A B} (m : M A) (k : A -> M B) :
  respects R m -> (forall a, respects R (k a)) -> respects R (bind m k).
Proof.
  intros Hm Hk w. unfold bind. specialize (Hm w).
  destruct (m w) as [[a|e] w1]; cbn [snd] in *; [|exact Hm].
  eapply R_trans; [exact Hm|apply Hk].
Qed.

Lemma respects_try_except {A} (m : M A) (h : exn -> M A) :
  respects R m -> (forall e, respects R (h e)) -> respects R (try_except m h).
Proof.
  intros Hm Hh w. unfold try_except. specialize (Hm w).
  destruct (m w) as [[a|e] w1]; cbn [snd] in *; [exact Hm|].
  eapply R_trans; [exact Hm|apply Hh].
Qed.

Hypothesis R_sleep : forall ms, respects R (sleep ms).

Lemma respects_retry_call {A} (fn : M A) (fuel : nat) :
  respects R fn -> forall n, respects R (retry_call fuel n fn).
Proof.
  intros Hfn. induction fuel as [|fuel IH]; intros n.
  - apply respects_raise.
  - cbn [retry_call]. apply respects_try_except; [exact Hfn|]. intros e.
    destruct (stop_after_attempt n); [apply respects_raise|].
    apply respects_bind; [apply R_sleep|]. intros _. apply IH.
Qed.

Hypothesis R_generate : forall E prompt, respects R (generate E prompt).

Lemma respects_analyze (E : env) (m : str) :
  respects R (analyze_sentiment_with_gemini E m).
Proof.
  apply respects_retry_call. unfold analyze_once.
  destruct (length (clean_text m) <? 10); [apply respects_ret|].
  apply respects_bind; [apply R_generate|]. intros text. apply respects_lift.
Qed.

(** The tickets at hand, and what a status update of one of them to a
    status other than New does. *)
Variable ids : list str.
Hypothesis R_update :
  forall id st data,
    In id ids -> st <> New -> respects R (update_ticket_status id st data).

Lemma respects_process_ticket (E : env) (counts : nat * nat) (x : str * ticket) :
  In (fst x) ids -> respects R (process_ticket E counts x).
Proof.
  intros Hin. unfold process_ticket. destruct counts as [p e].
  apply respects_try_except.
  - destruct (strip (get_message (snd x))).
    + apply respects_bind; [now apply R_update|]. intros _. apply respects_ret.
    + apply respects_bind; [now apply R_update|]. intros _.
      apply respects_bind; [apply respects_analyze|]. intros r.
      apply respects_bind; [now apply R_update|]. intros _.
      apply respects_bind; [apply R_sleep|]. intros _. apply respects_ret.
  - intros _. apply respects_bind; [|intros _; apply respects_ret].
    apply respects_try_except; [now apply R_update|].
    intros _. apply respects_ret.
Qed.

Lemma respects_for_each (E : env) (l : list (str * ticket)) :
  (forall x, In x l -> In (fst x) ids) ->
  forall counts, respects R (for_each (process_ticket E) l counts).
Proof.
  induction l as [|x l IH]; intros Hl counts; cbn [for_each].
  - apply respects_ret.
  - apply respects_bind.
    + apply respects_process_ticket. apply Hl. now left.
    + intros c. apply IH. intros y Hy. apply Hl. now right.
Qed.

End Respects.

(** *** The batch always comes back *)

Lemma process_ticket_returns (E : env) (counts : nat * nat) (x : str * ticket)
    (w : world) :
  exists c w', process_ticket E counts x w = (Ok c, w').
Proof.
  unfold process_ticket. destruct counts as [p e]. unfold try_except at 1.
  match goal with |- context [match ?m w with _ => _ end] =>
    destruct (m w) as [[c|ex] w1] end.
  - now exists c, w1.
  - unfold bind, try_except, ret.
    destruct (update_ticket_status (fst x) Error None w1) as [[[]|ex'] w2];
      now eexists; eexists.
Qed.

Lemma for_each_returns (E : env) (l : list (str * ticket)) :
  forall counts w, exists c w', for_each (process_ticket E) l counts w = (Ok c, w').
Proof.
  induction l as [|x l IH]; intros counts w; cbn [for_each].
  - now exists counts, w.
  - unfold bind. destruct (process_ticket_returns E counts x w) as (c1 & w1 & ->).
    apply IH.
Qed.

Lemma batch_returns_none (E : env) (w : world) :
  exists w', process_tickets_batch E w = (Ok VNone, w').
Proof.
  unfold process_tickets_batch, bind, get_pending_tickets.
  destruct (firstn (batch_size E) (filter is_new (docs w))) as [|x l] eqn:Hb.
  - now exists w.
  - destruct (for_each_returns E (x :: l) (0, 0) w) as (c & w1 & ->).
    unfold emit, ret. now eexists.
Qed.

(** *** The documents stay *)

Lemma same_identity_refl (ds : list (str * ticket)) : Forall2 same_identity ds ds.
Proof. induction ds; constructor; [repeat split|assumption]. Qed.

Lemma same_identity_trans (a b c : list (str * ticket)) :
  Forall2 same_identity a b -> Forall2 same_identity b c -> Forall2 same_identity a c.
Proof.
  intros Hab. revert c. induction Hab as [|x y a b Hxy Hab IH]; intros c Hbc.
  - inversion Hbc. constructor.
  - inversion Hbc as [|y' z b' c' Hyz Hbc']. subst. constructor; [|now apply IH].
    destruct Hxy as (H1 & H2 & H3), Hyz as (H4 & H5 & H6).
    repeat split; congruence.
Qed.

Lemma keeps_documents_refl (w : world) : keeps_documents w w.
Proof. apply same_identity_refl. Qed.

Lemma keeps_documents_trans (a b c : world) :
  keeps_documents a b -> keeps_documents b c -> keeps_documents a c.
Proof. apply same_identity_trans. Qed.

Lemma update_doc_keeps (id : str) (f : ticket -> ticket) (ds ds' : list (str * ticket)) :
  (forall t, message (f t) = message t /\ timestamp (f t) = timestamp t) ->
  update_doc id f ds = Some ds' -> Forall2 same_identity ds ds'.
Proof.
  intros Hf. revert ds'. induction ds as [|[i t] ds IH]; intros ds'; cbn [update_doc].
  - discriminate.
  - destruct (str_eqb id i).
    + intros [= <-]. constructor; [|apply same_identity_refl].
      destruct (Hf t) as [H1 H2]. repeat split; cbn [fst snd]; congruence.
    + destruct (update_doc id f ds) as [r|]; [|discriminate].
      intros [= <-]. constructor; [repeat split|now apply IH].
Qed.

Lemma apply_update_keeps (st : status) (now : Z)
    (fields : option (pyval * pyval * pyval * pyval)) (t : ticket) :
  message (apply_update st now fields t) = message t
  /\ timestamp (apply_update st now fields t) = timestamp t.
Proof. destruct fields as [[[[? ?] ?] ?]|]; split; reflexivity. Qed.

(** What a status update does to the world, whatever it is given. *)
Lemma update_ticket_status_cases (id : str) (st : status) (data : option dict)
    (w : world) :
  (exists e, update_ticket_status id st data w = (Raise e, w))
  \/ (exists fields ds',
        update_doc id (apply_update st (clock w) fields) (docs w) = Some ds'
        /\ update_ticket_status id st data w =
             (Ok tt, {| docs := ds'; clock := clock w; calls := calls w;
                        trace := trace w ++ [EvWrite id st] |})).
Proof.
  assert (Hw : forall fields,
    (exists e,
       (match update_doc id (apply_update st (clock w) fields) (docs w) with
        | Some ds => (Ok tt, {| docs := ds; clock := clock w; calls := calls w;
                                trace := trace w ++ [EvWrite id st] |})
        | None => (Raise (NotFound id), w)
        end) = (Raise e, w))
    \/ (exists fields' ds',
          update_doc id (apply_update st (clock w) fields') (docs w) = Some ds'
          /\ (match update_doc id (apply_update st (clock w) fields) (docs w) with
              | Some ds => (Ok tt, {| docs := ds; clock := clock w; calls := calls w;
                                      trace := trace w ++ [EvWrite id st] |})
              | None => (Raise (NotFound id), w)
              end) = (Ok tt, {| docs := ds'; clock := clock w; calls := calls w;
                                trace := trace w ++ [EvWrite id st] |}))).
  { intros fields.
    destruct (update_doc id (apply_update st (clock w) fields) (docs w)) as [ds|] eqn:Hu.
    - right. exists fields, ds. now rewrite Hu.
    - left. now eexists. }
  unfold update_ticket_status, bind, lift.
  destruct data as [[|kv d]|]; try apply Hw.
  unfold rbind.
  destruct (subscript (kv :: d) (py "sentiment")); [|left; now eexists].
  destruct (subscript (kv :: d) (py "summary")); [|left; now eexists].
  destruct (subscript (kv :: d) (py "confidence")); [|left; now eexists].
  destruct (subscript (kv :: d) (py "keywords")); [|left; now eexists].
  apply Hw.
Qed.

Lemma update_keeps_documents (id : str) (st : status) (data : option dict) :
  respects keeps_documents (update_ticket_status id st data).
Proof.
  intros w.
  destruct (update_ticket_status_cases id st data w)
    as [[e ->] | (fields & ds' & Hu & ->)]; cbn [snd].
  - apply keeps_documents_refl.
  - unfold keeps_documents. cbn [docs].
    apply (update_doc_keeps id _ _ _ (apply_update_keeps st (clock w) fields) Hu).
Qed.

Lemma generate_keeps_documents (E : env) (prompt : str) :
  respects keeps_documents (generate E prompt).
Proof.
  intros w. unfold generate.
  destruct (generate_content E (calls w) prompt); apply same_identity_refl.
Qed.

Lemma batch_respects_keeps (E : env) :
  respects keeps_documents (process_tickets_batch E).
Proof.
  unfold process_tickets_batch.
  apply (respects_bind keeps_documents keeps_documents_trans).
  - intros w0. apply keeps_documents_refl.
  - intros tickets. destruct tickets as [|x l].
    + apply (respects_ret keeps_documents keeps_documents_refl).
    + apply (respects_bind keeps_documents keeps_documents_trans).
      * apply (respects_for_each keeps_documents keeps_documents_refl
                 keeps_documents_trans
                 (fun ms w0 => keeps_documents_refl _)
                 generate_keeps_documents
                 (map fst (x :: l))
                 (fun id st data _ _ => update_keeps_documents id st data)).
        intros y Hy. now apply in_map.
      * intros c.
        apply (respects_bind keeps_documents keeps_documents_trans).
        -- intros w0. exact (same_identity_refl (docs w0)).
        -- intros _. apply (respects_ret keeps_documents keeps_documents_refl).
Qed.

Lemma keeps_documents_ids (w w' : world) :
  keeps_documents w w' -> map fst (docs w') = map fst (docs w).
Proof.
  unfold keeps_documents, same_identity. intros Hk.
  induction Hk as [|a b l l' (H1 & _) Hk IH]; [reflexivity|].
  cbn [map]. now rewrite IH, H1.
Qed.

(** X9. [process_tickets_batch] never raises and returns nothing; it
    neither adds nor removes a document, keeps their order, and leaves the
    message and the creation time of every document as they were. *)
Theorem batch_keeps_the_documents (E : env) (w : world) :
  exists w',
    process_tickets_batch E w = (Ok VNone, w')
    /\ map fst (docs w') = map fst (docs w)
    /\ Forall2 (fun a b => fst a = fst b
                           /\ message (snd a) = message (snd b)
                           /\ timestamp (snd a) = timestamp (snd b))
               (docs w) (docs w').
Proof.
  destruct (batch_returns_none E w) as (w' & Hrun). exists w'.
  split; [exact Hrun|].
  assert (Hk : keeps_documents w w').
  { change w' with (snd (Ok VNone, w')). rewrite <- Hrun.
    apply batch_respects_keeps. }
  split; [now apply keeps_documents_ids|exact Hk].
Qed.

(** *** What the batch writes *)

Lemma appends_refl (P : event -> Prop) (w : world) : appends P w w.
Proof. exists []. split; [now rewrite app_nil_r|constructor]. Qed.

Lemma appends_trans (P : event -> Prop) (a b c : world) :
  appends P a b -> appends P b c -> appends P a c.
Proof.
  intros (e1 & H1 & F1) (e2 & H2 & F2). exists (e1 ++ e2). split.
  - now rewrite H2, H1, app_assoc.
  - now apply Forall_app.
Qed.

Lemma appends_one (P : event -> Prop) (w w' : world) (e : event) :
  trace w' = trace w ++ [e] -> P e -> appends P w w'.
Proof. intros H He. exists [e]. split; [exact H|now constructor]. Qed.

Lemma sleep_appends (ids : list str) (ms : Z) :
  respects (appends (batch_event ids)) (sleep ms).
Proof. intros w. now apply (appends_one _ _ _ (EvSleep ms)). Qed.

Lemma generate_appends (ids : list str) (E : env) (prompt : str) :
  respects (appends (batch_event ids)) (generate E prompt).
Proof.
  intros w. unfold generate.
  destruct (generate_content E (calls w) prompt);
    now apply (appends_one _ _ _ (EvGenerate prompt)).
Qed.

Lemma update_appends (ids : list str) (id : str) (st : status) (data : option dict) :
  In id ids -> st <> New ->
  respects (appends (batch_event ids)) (update_ticket_status id st data).
Proof.
  intros Hin Hst w.
  destruct (update_ticket_status_cases id st data w)
    as [[e ->] | (fields & ds' & Hu & ->)]; cbn [snd].
  - apply appends_refl.
  - now apply (appends_one _ _ _ (EvWrite id st)).
Qed.

(** X10. The only store updates that [process_tickets_batch] makes are to
    tickets of the batch it fetched, and none of them sets the status New:
    a ticket is never put back in the queue. *)
Theorem batch_writes_only_its_tickets (E : env) (w : world) :
  exists w' evs,
    process_tickets_batch E w = (Ok VNone, w')
    /\ trace w' = trace w ++ evs
    /\ forall id st,
         In (EvWrite id st) evs ->
         st <> New
         /\ In id (map fst (firstn (batch_size E) (filter is_new (docs w)))).
Proof.
  destruct (batch_returns_none E w) as (w' & Hrun).
  set (ids := map fst (firstn (batch_size E) (filter is_new (docs w)))).
  assert (Ha : appends (batch_event ids) w w').
  { change w' with (snd (Ok VNone, w')). rewrite <- Hrun.
    unfold process_tickets_batch, bind, get_pending_tickets.
    fold ids.
    destruct (firstn (batch_size E) (filter is_new (docs w))) as [|x l] eqn:Hb.
    - apply appends_refl.
    - pose proof (respects_for_each (appends (batch_event ids))
                    (appends_refl _) (appends_trans _)
                    (sleep_appends ids) (generate_appends ids)
                    ids (update_appends ids) E (x :: l)) as Hfe.
      assert (Hl : forall y, In y (x :: l) -> In (fst y) ids)
        by (intros y Hy; subst ids; now apply in_map).
      specialize (Hfe Hl (0, 0) w).
      destruct (for_each (process_ticket E) (x :: l) (0, 0) w) as [[c|e] w1];
        cbn [snd] in *; [|exact Hfe].
      eapply appends_trans; [exact Hfe|].
      now apply (appends_one _ _ _ (EvBatchLog (fst c) (snd c))). }
  destruct Ha as (evs & Htr & Hall). exists w', evs.
  split; [exact Hrun|]. split; [exact Htr|].
  intros id st Hin. rewrite Forall_forall in Hall.
  specialize (Hall _ Hin). cbn in Hall. tauto.
Qed.

(** *** Where each ticket of the batch ends *)

Lemma update_with_fields (id : str) (st : status) (d : dict) (w : world)
    (t : ticket) (s su c k : pyval) :
  find_doc id (docs w) = Some t ->
  dget (py "sentiment") d = Some s -> dget (py "summary") d = Some su ->
  dget (py "confidence") d = Some c -> dget (py "keywords") d = Some k ->
  exists w',
    update_ticket_status id st (Some d) w = (Ok tt, w')
    /\ find_doc id (docs w') = Some (apply_update st (clock w) (Some (s, su, c, k)) t)
    /\ (forall j, j <> id -> find_doc j (docs w') = find_doc j (docs w)).
Proof.
  intros Hdoc Hs Hsu Hc Hk.
  destruct (update_doc_found id (apply_update st (clock w) (Some (s, su, c, k))) _ _ Hdoc)
    as (ds' & Hu & Hf).
  exists {| docs := ds'; clock := clock w; calls := calls w;
            trace := trace w ++ [EvWrite id st] |}.
  split; [|split; [exact Hf|]].
  - unfold update_ticket_status, bind, lift, subscript.
    destruct d as [|kv d]; [discriminate|].
    rewrite Hs, Hsu, Hc, Hk. cbn [rbind]. now rewrite Hu.
  - intros j Hj. now apply (update_doc_other id _ _ _ j Hu).
Qed.

Lemma status_in_find (ds : list (str * ticket)) (id : str) (st : status) :
  status_in ds id = Some st -> exists t, find_doc id ds = Some t /\ status_of t = st.
Proof.
  unfold status_in. destruct (find_doc id ds) as [t|]; [|discriminate].
  intros [= <-]. now exists t.
Qed.

(** One ticket whose document is in the store: it ends Processed with a
    valid classification, or it ends in Error; no other document changes. *)
Lemma process_ticket_post (E : env) (id : str) (t : ticket) (w : world)
    (counts : nat * nat) :
  find_doc id (docs w) <> None ->
  exists c1 w1 t',
    process_ticket E counts (id, t) w = (Ok c1, w1)
    /\ find_doc id (docs w1) = Some t'
    /\ ((status_of t' = Processed /\ classified t') \/ status_of t' = Error)
    /\ (forall j, j <> id -> find_doc j (docs w1) = find_doc j (docs w)).
Proof.
  intros Hdoc. destruct counts as [p e].
  remember (process_ticket E (p, e) (id, t) w) as R eqn:HR.
  unfold process_ticket in HR. cbn [fst snd] in HR.
  unfold try_except, bind, sleep, ret in HR.
  assert (Herr : forall w0,
            find_doc id (docs w0) <> None ->
            exists w3 t',
              update_ticket_status id Error None w0 = (Ok tt, w3)
              /\ find_doc id (docs w3) = Some t' /\ status_of t' = Error
              /\ (forall j, j <> id -> find_doc j (docs w3) = find_doc j (docs w0))).
  { intros w0 H0. destruct (update_none_ok id Error w0 H0) as (w3 & Hr & Hst & Hfr).
    apply status_in_find in Hst. destruct Hst as (t' & Hf & Hs). now exists w3, t'. }
  destruct (strip (get_message t)) as [|ch s].
  - destruct (Herr w Hdoc) as (w1 & t' & Hrun & Hf & Hs & Hfr).
    rewrite Hrun in HR. exists (p, S e), w1, t'. repeat split; auto.
  - destruct (update_none_ok id Processing w Hdoc) as (w1 & Hrun1 & Hst1 & Hfr1).
    rewrite Hrun1 in HR.
    pose proof (analyze_preserves_docs E (get_message t) w1) as Hdocs.
    destruct (analyze_sentiment_with_gemini E (get_message t) w1)
      as [[r|ex] w2] eqn:Han; cbn [snd] in Hdocs;
      assert (Hdoc2 : find_doc id (docs w2) <> None)
        by (rewrite Hdocs; now apply status_in_some in Hst1).
    + destruct (analyze_ok_fields E _ _ _ _ Han)
        as ((sv & Hsv & Hin) & (cv & Hcv & Hc0 & Hc1) & (kv & Hkv & Hlen) & Hsum).
      unfold dhas in Hsum.
      destruct (dget (py "summary") r) as [su|] eqn:Hsu; [|discriminate].
      destruct (find_doc id (docs w2)) as [t2|] eqn:Ht2; [|congruence].
      destruct (update_with_fields id Processed r w2 t2 _ _ _ _ Ht2 Hsv Hsu Hcv Hkv)
        as (w3 & Hrun3 & Hf3 & Hfr3).
      rewrite Hrun3 in HR. do 3 eexists. split; [exact HR|]. cbn [docs].
      split; [exact Hf3|]. split.
      * left. split; [reflexivity|]. unfold classified. cbn.
        split; [now exists sv|]. split; [now exists cv|]. split; [now exists kv|].
        split; discriminate.
      * intros j Hj. rewrite Hfr3, Hdocs by exact Hj. now apply Hfr1.
    + destruct (Herr w2 Hdoc2) as (w3 & t' & Hrun3 & Hf & Hs & Hfr).
      rewrite Hrun3 in HR. exists (p, S e), w3, t'. repeat split; auto.
      intros j Hj. rewrite Hfr, Hdocs by exact Hj. now apply Hfr1.
Qed.

Lemma for_each_post (E : env) (l : list (str * ticket)) :
  forall (w : world) (counts : nat * nat),
    NoDup (map fst l) ->
    (forall d, In d l -> find_doc (fst d) (docs w) <> None) ->
    exists c' w',
      for_each (process_ticket E) l counts w = (Ok c', w')
      /\ (forall d, In d l ->
            exists t', find_doc (fst d) (docs w') = Some t'
                       /\ ((status_of t' = Processed /\ classified t')
                           \/ status_of t' = Error))
      /\ (forall j, ~ In j (map fst l) -> find_doc j (docs w') = find_doc j (docs w)).
Proof.
  induction l as [|[id t] l IH]; intros w counts Hnd Hin.
  - exists counts, w. split; [reflexivity|]. split; [intros d []|reflexivity].
  - cbn [map fst] in Hnd. apply NoDup_cons_iff in Hnd. destruct Hnd as [Hx Hnd].
    destruct (process_ticket_post E id t w counts (Hin (id, t) (or_introl eq_refl)))
      as (c1 & w1 & t' & Hrun & Hf & Hst & Hfr1).
    assert (Hin1 : forall d, In d l -> find_doc (fst d) (docs w1) <> None).
    { intros d Hd. rewrite Hfr1; [apply Hin; now right|].
      intros Heq. apply Hx. rewrite <- Heq. now apply in_map. }
    destruct (IH w1 c1 Hnd Hin1) as (c' & w' & Hrun' & Hpost & Hfr').
    exists c', w'. cbn [for_each]. unfold bind. rewrite Hrun.
    split; [exact Hrun'|]. split.
    + intros d [<- | Hd]; [|now apply Hpost].
      exists t'. cbn [fst]. rewrite (Hfr' id Hx). now split.
    + intros j Hj. cbn [map fst] in Hj.
      rewrite Hfr' by (intros H; apply Hj; now right).
      apply Hfr1. intros ->. apply Hj. now left.
Qed.

(** The whole batch, on a store in which no id occurs twice. *)
Lemma batch_post (E : env) (w : world) :
  NoDup (map fst (docs w)) ->
  let batch := firstn (batch_size E) (filter is_new (docs w)) in
  exists w',
    process_tickets_batch E w = (Ok VNone, w')
    /\ (forall d, In d batch ->
          exists t', find_doc (fst d) (docs w') = Some t'
                     /\ ((status_of t' = Processed /\ classified t')
                         \/ status_of t' = Error))
    /\ (forall j, ~ In j (map fst batch) -> find_doc j (docs w') = find_doc j (docs w)).
Proof.
  intros Hnd batch. unfold process_tickets_batch, bind, get_pending_tickets.
  fold batch.
  assert (Hb : NoDup (map fst batch))
    by (apply NoDup_map_firstn, NoDup_map_filter, Hnd).
  assert (Hin : forall d, In d batch -> find_doc (fst d) (docs w) <> None).
  { intros d Hd. apply In_firstn, filter_In in Hd. destruct Hd as [Hd _].
    apply find_doc_in_ids. now apply in_map. }
  destruct (for_each_post E batch w (0, 0) Hb Hin) as (c' & w' & Hrun & Hpost & Hfr).
  destruct batch as [|x l] eqn:Hbatch.
  - exists w. split; [reflexivity|]. split; [intros d []|reflexivity].
  - rewrite Hrun. unfold emit, ret. eexists. split; [reflexivity|].
    cbn [docs]. split; [exact Hpost|exact Hfr].
Qed.

(** With a client that never raises, on distinct ids: every ticket of the
    batch ends Processed or in Error and the other documents are
    untouched. *)
Lemma batch_terminal_reliable (E : env) (w : world) :
  NoDup (map fst (docs w)) ->
  let batch := firstn (batch_size E) (filter is_new (docs w)) in
  exists w',
    process_tickets_batch E w = (Ok VNone, w')
    /\ (forall d, In d batch ->
          status_in (docs w') (fst d) = Some Processed
          \/ status_in (docs w') (fst d) = Some Error)
    /\ (forall j, ~ In j (map fst batch) -> find_doc j (docs w') = find_doc j (docs w)).
Proof.
  intros Hnd batch. destruct (batch_post E w Hnd) as (w' & Hrun & Hpost & Hfr).
  exists w'. split; [exact Hrun|]. split; [|exact Hfr].
  intros d Hd. destruct (Hpost d Hd) as (t' & Hf & Hst).
  unfold status_in. rewrite Hf.
  destruct Hst as [[-> _] | ->]; [now left|now right].
Qed.

(** X12. On a store whose document ids are distinct, every ticket that a
    batch leaves Processed carries a classification: a sentiment among
    [anger], [confusion], [delight] and [neutral], a confidence between 0
    and 1, at most five keywords, a summary and a processing time. *)
Theorem processed_tickets_are_classified (E : env) (w : world) :
  NoDup (map fst (docs w)) ->
  exists w',
    process_tickets_batch E w = (Ok VNone, w')
    /\ forall d t',
         In d (firstn (batch_size E) (filter is_new (docs w))) ->
         find_doc (fst d) (docs w') = Some t' ->
         status_of t' = Processed ->
         classified t'.
Proof.
  intros Hnd. destruct (batch_post E w Hnd) as (w' & Hrun & Hpost & _).
  exists w'. split; [exact Hrun|]. intros d t' Hd Hf Hst.
  destruct (Hpost d Hd) as (t'' & Hf' & Hcases).
  rewrite Hf in Hf'. injection Hf' as <-.
  destruct Hcases as [[_ Hc] | He]; [exact Hc|congruence].
Qed.

Lemma processed_tickets_are_classified_witness :
  exists w',
    process_tickets_batch E_fenced w_angry = (Ok VNone, w')
    /\ forall d t',
         In d (firstn (batch_size E_fenced) (filter is_new (docs w_angry))) ->
         find_doc (fst d) (docs w') = Some t' ->
         status_of t' = Processed ->
         classified t'.
Proof.
  apply (processed_tickets_are_classified E_fenced w_angry).
  repeat constructor; vm_compute; intuition discriminate.
Defined.

(** *** A document that is gone *)

Lemma update_doc_none (id : str) (f : ticket -> ticket) (ds : list (str * ticket)) :
  find_doc id ds = None -> update_doc id f ds = None.
Proof.
  induction ds as [|[i t] ds IH]; cbn [find_doc update_doc]; [reflexivity|].
  destruct (str_eqb id i); [discriminate|]. intros H. now rewrite (IH H).
Qed.

Lemma update_missing (id : str) (st : status) (data : option dict) (w : world) :
  find_doc id (docs w) = None ->
  exists e, update_ticket_status id st data w = (Raise e, w).
Proof.
  intros Hdoc.
  destruct (update_ticket_status_cases id st data w)
    as [He | (fields & ds' & Hu & _)]; [exact He|].
  rewrite (update_doc_none id _ _ Hdoc) in Hu. discriminate.
Qed.

(** X13. When the document of a fetched ticket is no longer in the store,
    the ticket is counted as an error although nothing is written: the
    store, the trace and the number of classifier calls are as before. *)
Theorem missing_document_is_counted_as_error
    (E : env) (w : world) (id : str) (t : ticket) (p e : nat) :
  find_doc id (docs w) = None ->
  process_ticket E (p, e) (id, t) w = (Ok (p, S e), w).
Proof.
  intros Hdoc. unfold process_ticket. cbn [fst snd].
  destruct (update_missing id Error None w Hdoc) as (e1 & He1).
  destruct (update_missing id Processing None w Hdoc) as (e2 & He2).
  unfold try_except, bind, ret.
  destruct (strip (get_message t)).
  - now rewrite He1, He1.
  - now rewrite He2, He1.
Qed.

Lemma missing_document_is_counted_as_error_witness :
  process_ticket E_down (0, 0) (py "gone", t_angry) w_blank = (Ok (0, 1), w_blank).
Proof.
  apply (missing_document_is_counted_as_error E_down w_blank (py "gone") t_angry 0 0).
  reflexivity.
Defined.

(** *** A queue that has been drained *)

Lemma find_doc_of_In (ds : list (str * ticket)) (i : str) (t : ticket) :
  NoDup (map fst ds) -> In (i, t) ds -> find_doc i ds = Some t.
Proof.
  induction ds as [|[j u] ds IH]; cbn [map fst find_doc]; [easy|].
  intros Hnd Hin. apply NoDup_cons_iff in Hnd. destruct Hnd as [Hj Hnd].
  destruct Hin as [[= -> ->] | Hin]; [now rewrite str_eqb_refl|].
  destruct (str_eqb i j) eqn:Hij; [|now apply IH].
  apply str_eqb_eq in Hij. subst j. exfalso. apply Hj.
  apply in_map_iff. now exists (i, t).
Qed.

Lemma In_of_find_doc (ds : list (str * ticket)) (i : str) (t : ticket) :
  find_doc i ds = Some t -> In (i, t) ds.
Proof.
  induction ds as [|[j u] ds IH]; cbn [find_doc]; [discriminate|].
  destruct (str_eqb i j) eqn:Hij.
  - apply str_eqb_eq in Hij. subst j. intros [= ->]. now left.
  - intros H. right. now apply IH.
Qed.

Lemma filter_none {A} (f : A -> bool) (l : list A) :
  (forall x, In x l -> f x = false) -> filter f l = [].
Proof.
  induction l as [|x l IH]; [reflexivity|]. intros H. cbn [filter].
  rewrite (H x (or_introl eq_refl)). apply IH. intros y Hy. apply H. now right.
Qed.

(** With a client that never raises, on distinct ids: a batch that holds
    every New ticket leaves none, and the next run changes nothing. *)
Lemma drained_reliable (E : env) (w : world) :
  NoDup (map fst (docs w)) ->
  length (filter is_new (docs w)) <= batch_size E ->
  exists w',
    process_tickets_batch E w = (Ok VNone, w')
    /\ filter is_new (docs w') = []
    /\ process_tickets_batch E w' = (Ok VNone, w').
Proof.
  intros Hnd Hlen. destruct (batch_post E w Hnd) as (w' & Hrun & Hpost & Hfr).
  rewrite (firstn_all2 _ Hlen) in Hpost, Hfr.
  exists w'. split; [exact Hrun|].
  assert (Hids : map fst (docs w') = map fst (docs w)).
  { apply keeps_documents_ids. change w' with (snd (Ok VNone, w')).
    rewrite <- Hrun. apply batch_respects_keeps. }
  assert (Hnone : filter is_new (docs w') = []).
  { apply filter_none. intros [i t'] Hin.
    assert (Hf : find_doc i (docs w') = Some t')
      by (apply find_doc_of_In; [now rewrite Hids|exact Hin]).
    unfold is_new. cbn [snd].
    destruct (in_dec str_eq_dec i (map fst (filter is_new (docs w)))) as [Hi | Hi].
    - apply in_map_iff in Hi. destruct Hi as (d & <- & Hd).
      destruct (Hpost d Hd) as (t'' & Hf' & Hst).
      rewrite Hf in Hf'. injection Hf' as <-.
      destruct Hst as [[-> _] | ->]; reflexivity.
    - rewrite (Hfr i Hi) in Hf. apply In_of_find_doc in Hf.
      destruct (status_eqb (status_of t') New) eqn:Hs; [|reflexivity].
      exfalso. apply Hi. apply in_map_iff. exists (i, t'). split; [reflexivity|].
      apply filter_In. split; [exact Hf|exact Hs]. }
  split; [exact Hnone|].
  unfold process_tickets_batch, bind, get_pending_tickets.
  rewrite Hnone. now destruct (batch_size E).
Qed.

End WorkerMore.

(** * More of the dashboard *)

Module DashboardMoreFacts.
Import Dashboard DashboardMore DashboardSamples DashboardMoreSamples.

(** ** The system counters *)

Lemma status_count_cons (s : str) (st : option str) (l : list (option str)) :
  status_count s (st :: l) = status_count s [st] + status_count s l.
Proof.
  unfold status_count. cbn [filter].
  destruct st as [s'|]; [destruct (str_eqb s' s)|]; reflexivity.
Qed.

Lemma count_doc_step (a b c d e : nat) (st : option str) :
  count_doc [(py "total", a); (py "processed", b); (py "new", c);
             (py "processing", d); (py "error", e)] st
  = Some [(py "total", S (a + status_count (py "total") [st]));
          (py "processed", b + status_count (py "processed") [st]);
          (py "new", c + status_count (py "new") [st]);
          (py "processing", d + status_count (py "processing") [st]);
          (py "error", e + status_count (py "error") [st])].
Proof.
  assert (Hn : forall n, n + 0 = n) by (intros; lia).
  assert (H1 : forall n, n + 1 = S n) by (intros; lia).
  destruct st as [s|].
  - unfold count_doc, cmem, status_count. cbn [cget cincr filter].
    destruct (str_eqb s (py "total")) eqn:HT.
    { apply str_eqb_eq in HT. subst s. cbn. now rewrite !Hn, H1. }
    destruct (str_eqb s (py "processed")) eqn:HP.
    { apply str_eqb_eq in HP. subst s. cbn. now rewrite !Hn, H1. }
    destruct (str_eqb s (py "new")) eqn:HN.
    { apply str_eqb_eq in HN. subst s. cbn. now rewrite !Hn, H1. }
    destruct (str_eqb s (py "processing")) eqn:HG.
    { apply str_eqb_eq in HG. subst s. cbn. now rewrite !Hn, H1. }
    destruct (str_eqb s (py "error")) eqn:HE.
    { apply str_eqb_eq in HE. subst s. cbn. now rewrite !Hn, H1. }
    cbn. now rewrite !Hn.
  - cbn. now rewrite !Hn.
Qed.

Lemma count_docs_run (statuses : list (option str)) (a b c d e : nat) :
  count_docs [(py "total", a); (py "processed", b); (py "new", c);
              (py "processing", d); (py "error", e)] statuses
  = Some [(py "total", a + length statuses + status_count (py "total") statuses);
          (py "processed", b + status_count (py "processed") statuses);
          (py "new", c + status_count (py "new") statuses);
          (py "processing", d + status_count (py "processing") statuses);
          (py "error", e + status_count (py "error") statuses)].
Proof.
  revert a b c d e. induction statuses as [|st l IH]; intros a b c d e.
  - unfold status_count. cbn [count_docs filter length].
    now rewrite !Nat.add_0_r.
  - cbn [count_docs]. rewrite count_doc_step, IH.
    rewrite !(status_count_cons _ st l). cbn [length].
    f_equal. repeat (apply (f_equal2 cons); [apply f_equal; lia|]).
    reflexivity.
Qed.

Lemma system_stats_run (statuses : list (option str)) :
  get_system_stats statuses
  = [(py "total", length statuses + status_count (py "total") statuses);
     (py "processed", status_count (py "processed") statuses);
     (py "new", status_count (py "new") statuses);
     (py "processing", status_count (py "processing") statuses);
     (py "error", status_count (py "error") statuses)].
Proof.
  unfold get_system_stats.
  change (fromkeys stats_keys 0)
    with [(py "total", 0); (py "processed", 0); (py "new", 0);
          (py "processing", 0); (py "error", 0)].
  now rewrite count_docs_run.
Qed.

(** X15. [get_system_stats] never takes its error path on statuses that
    are strings or missing: each of the four status counters is the number
    of documents with that status, and [total] is the number of documents
    plus, once more, those whose status is the word total itself. *)
Theorem system_stats_counts (statuses : list (option str)) :
  let stats := get_system_stats statuses in
  cget (py "total") stats
  = Some (length statuses + status_count (py "total") statuses)
  /\ forall s,
       In s [py "processed"; py "new"; py "processing"; py "error"] ->
       cget s stats = Some (status_count s statuses).
Proof.
  cbv zeta. rewrite system_stats_run. split; [reflexivity|].
  intros s [<- | [<- | [<- | [<- | []]]]]; reflexivity.
Qed.

Lemma status_count_store (st : status) (ds : list (str * ticket)) :
  status_count (status_name st)
    (map (fun d => Some (status_name (status_of (snd d)))) ds)
  = length (filter (fun d => status_eqb (status_of (snd d)) st) ds).
Proof.
  unfold status_count. induction ds as [|[i t] ds IH]; [reflexivity|].
  cbn [map filter snd].
  assert (E : str_eqb (status_name (status_of t)) (status_name st)
              = status_eqb (status_of t) st)
    by (destruct (status_of t), st; reflexivity).
  rewrite E. destruct (status_eqb (status_of t) st); cbn [length]; now rewrite IH.
Qed.

Lemma status_count_total_store (ds : list (str * ticket)) :
  status_count (py "total")
    (map (fun d => Some (status_name (status_of (snd d)))) ds) = 0.
Proof.
  unfold status_count. induction ds as [|[i t] ds IH]; [reflexivity|].
  cbn [map filter snd].
  assert (E : str_eqb (status_name (status_of t)) (py "total") = false)
    by (destruct (status_of t); reflexivity).
  now rewrite E.
Qed.

Lemma status_partition (ds : list (str * ticket)) :
  length (filter (fun d => status_eqb (status_of (snd d)) Processed) ds)
  + length (filter (fun d => status_eqb (status_of (snd d)) New) ds)
  + length (filter (fun d => status_eqb (status_of (snd d)) Processing) ds)
  + length (filter (fun d => status_eqb (status_of (snd d)) Error) ds)
  = length ds.
Proof.
  induction ds as [|[i t] ds IH]; [reflexivity|].
  cbn [filter snd]. destruct (status_of t); cbn [status_eqb length]; lia.
Qed.

(** X16. On the collection that the worker maintains, the counters of
    [get_system_stats] are exact and add up: [total] is the number of
    documents, the counter of each status is the number of documents in
    that status, and the four of them sum to [total]. *)
Theorem store_stats_add_up (w : world) :
  let stats := get_system_stats (statuses_of w) in
  let bucket st :=
    length (filter (fun d => status_eqb (status_of (snd d)) st) (docs w)) in
  cget (py "total") stats = Some (length (docs w))
  /\ (forall st, cget (status_name st) stats = Some (bucket st))
  /\ bucket Processed + bucket New + bucket Processing + bucket Error
     = length (docs w).
Proof.
  cbv zeta. rewrite system_stats_run. unfold statuses_of.
  rewrite status_count_total_store, length_map.
  split; [cbn [cget]; rewrite str_eqb_refl; f_equal; lia|].
  split; [|apply status_partition].
  intros st. rewrite <- status_count_store. now destruct st.
Qed.

(** ** The filters *)

Lemma filter_twice {A} (f g : A -> bool) (l : list A) :
  (forall x, g x = true -> f x = true) ->
  filter g (filter f l) = filter g l.
Proof.
  intros H. induction l as [|x l IH]; [reflexivity|]. cbn [filter].
  destruct (f x) eqn:Hf; cbn [filter].
  - destruct (g x); now rewrite IH.
  - destruct (g x) eqn:Hg; [|exact IH]. rewrite (H x Hg) in Hf. discriminate.
Qed.

Lemma existsb_str_In (s : str) (l : list str) :
  existsb (str_eqb s) l = true <-> In s l.
Proof.
  rewrite existsb_exists. split.
  - intros (x & Hx & He). apply str_eqb_eq in He. now subst x.
  - intros H. exists s. split; [exact H|apply str_eqb_refl].
Qed.

Lemma ts_ge_iff (c : Z) (t : ticket) :
  ts_ge c t = true <-> exists ts, timestamp t = Some ts /\ (c <= ts)%Z.
Proof.
  unfold ts_ge. destruct (timestamp t) as [ts|].
  - rewrite Z.leb_le. split; [intros H; now exists ts|].
    now intros (ts' & [= <-] & H).
  - split; [discriminate|]. now intros (ts' & [=] & _).
Qed.

Lemma ts_ge_mono (c c' : Z) (t : ticket) :
  (c' <= c)%Z -> ts_ge c t = true -> ts_ge c' t = true.
Proof.
  intros Hc. rewrite !ts_ge_iff. intros (ts & Ht & H). exists ts. split; [exact Ht|lia].
Qed.

Lemma sentiment_isin_iff (values : list str) (r : row) :
  sentiment_isin values r = true
  <-> exists s, sentiment (row_ticket r) = Some (VStr s) /\ In s values.
Proof.
  unfold sentiment_isin.
  destruct (sentiment (row_ticket r)) as [[| | | |s| |]|];
    try (split; [discriminate|intros (s' & [=] & _)]).
  rewrite existsb_str_In. split; [intros H; now exists s|].
  now intros (s' & [= <-] & H).
Qed.

Lemma source_isin_iff (values : list str) (r : row) :
  source_isin values r = true
  <-> exists s, row_source r = Some s /\ In s values.
Proof.
  unfold source_isin. destruct (row_source r) as [s|].
  - rewrite existsb_str_In. split; [intros H; now exists s|].
    now intros (s' & [= <-] & H).
  - split; [discriminate|]. now intros (s' & [=] & _).
Qed.

(** The whole of [apply_filters] is one pass over the frame. *)
Lemma apply_filters_one_pass (df : list row) (tr : str) (sf srcf : list str)
    (now : Z) :
  apply_filters df tr sf srcf now
  = filter (fun r =>
              ts_ge (cutoff_of tr now) (row_ticket r)
              && match sf with [] => true | _ => sentiment_isin sf r end
              && match srcf with [] => true | _ => source_isin srcf r end) df.
Proof.
  destruct df as [|r0 df]; [reflexivity|].
  unfold apply_filters. cbv zeta. set (l := r0 :: df). clearbody l.
  rewrite (filter_twice _ _ l (fun x H => H)).
  destruct sf as [|s sf], srcf as [|s' srcf].
  - apply filter_ext. intros r. now rewrite !andb_true_r.
  - rewrite <- DashboardFacts.filter_andb. apply filter_ext. intros r.
    now destruct (ts_ge (cutoff_of tr now) (row_ticket r)),
                 (source_isin (s' :: srcf) r).
  - rewrite <- DashboardFacts.filter_andb. apply filter_ext. intros r.
    now destruct (ts_ge (cutoff_of tr now) (row_ticket r)),
                 (sentiment_isin (s :: sf) r).
  - rewrite <- !DashboardFacts.filter_andb. apply filter_ext. intros r.
    now destruct (ts_ge (cutoff_of tr now) (row_ticket r)),
                 (sentiment_isin (s :: sf) r), (source_isin (s' :: srcf) r).
Qed.

Lemma apply_filters_in (df : list row) (tr : str) (sf srcf : list str)
    (now : Z) (r : row) :
  In r (apply_filters df tr sf srcf now)
  <-> In r df
      /\ ts_ge (cutoff_of tr now) (row_ticket r) = true
      /\ (sf = [] \/ sentiment_isin sf r = true)
      /\ (srcf = [] \/ source_isin srcf r = true).
Proof.
  rewrite apply_filters_one_pass, filter_In, !andb_true_iff.
  destruct sf as [|s sf], srcf as [|s' srcf]; intuition discriminate.
Qed.

(** X17. What [apply_filters] shows: the rows of the frame that have a
    time at or after the cutoff, whose sentiment is one of the chosen ones
    unless none is chosen, and whose source is one of the chosen ones
    unless none is chosen. A row without a time is never shown, and a row
    without a sentiment or a source is hidden as soon as a choice is made
    for that column. *)
Theorem apply_filters_shows (df : list row) (tr : str) (sf srcf : list str)
    (now : Z) (r : row) :
  In r (apply_filters df tr sf srcf now)
  <-> In r df
      /\ (exists ts, timestamp (row_ticket r) = Some ts
                     /\ (cutoff_of tr now <= ts)%Z)
      /\ (sf = [] \/ exists s, sentiment (row_ticket r) = Some (VStr s) /\ In s sf)
      /\ (srcf = [] \/ exists s, row_source r = Some s /\ In s srcf).
Proof.
  rewrite apply_filters_in, ts_ge_iff, sentiment_isin_iff, source_isin_iff.
  reflexivity.
Qed.

Lemma cutoff_bounds (tr : str) (now : Z) :
  (now - days 30 <= cutoff_of tr now <= now - hours 24)%Z.
Proof.
  unfold cutoff_of, days, hours, day_ms.
  destruct (str_eqb tr (py "Last 24 hours")); [lia|].
  destruct (str_eqb tr (py "Last 3 days")); [lia|].
  destruct (str_eqb tr (py "Last week")); lia.
Qed.

Lemma apply_filters_wider (df : list row) (tr tr' : str) (sf srcf : list str)
    (now now' : Z) :
  (cutoff_of tr' now' <= cutoff_of tr now)%Z ->
  incl (apply_filters df tr sf srcf now) (apply_filters df tr' sf srcf now').
Proof.
  intros Hc r. rewrite !apply_filters_in. intros (Hin & Ht & Hs & Hsrc).
  repeat split; try assumption. now apply (ts_ge_mono _ _ _ Hc).
Qed.

(** X18. A longer time range never hides a row: with the same choices of
    sentiment and source, what the last 24 hours show is shown by the last
    3 days, that by the last week, and every range, named or not, shows no
    more than the last month. *)
Theorem longer_range_shows_more (df : list row) (sf srcf : list str) (now : Z)
    (tr : str) :
  let shown range := apply_filters df range sf srcf now in
  incl (shown (py "Last 24 hours")) (shown (py "Last 3 days"))
  /\ incl (shown (py "Last 3 days")) (shown (py "Last week"))
  /\ incl (shown (py "Last week")) (shown (py "Last month"))
  /\ incl (shown tr) (shown (py "Last month")).
Proof.
  cbv zeta. repeat split; apply apply_filters_wider;
    try (change (cutoff_of (py "Last month") now) with (now - days 30)%Z;
         apply cutoff_bounds);
    unfold cutoff_of, days, hours, day_ms; cbn; lia.
Qed.

(** X19. Filtering a frame that was already filtered, with the same
    choices and at the same or a later time, gives what filtering the
    whole frame at that later time gives. *)
Theorem refiltering_is_filtering (df : list row) (tr : str)
    (sf srcf : list str) (now now' : Z) :
  (now <= now')%Z ->
  apply_filters (apply_filters df tr sf srcf now) tr sf srcf now'
  = apply_filters df tr sf srcf now'.
Proof.
  intros Hnow. rewrite !apply_filters_one_pass. apply filter_twice.
  intros r. rewrite !andb_true_iff. intros [[Ht Hs] Hsrc].
  repeat split; try assumption. revert Ht. apply ts_ge_mono.
  unfold cutoff_of.
  destruct (str_eqb tr (py "Last 24 hours")); [lia|].
  destruct (str_eqb tr (py "Last 3 days")); [lia|].
  destruct (str_eqb tr (py "Last week")); lia.
Qed.

Lemma refiltering_is_filtering_witness :
  apply_filters
    (apply_filters rows_3_of_10 (py "Last week") [py "anger"] [] now_10)
    (py "Last week") [py "anger"] [] (now_10 + 5)
  = apply_filters rows_3_of_10 (py "Last week") [py "anger"] [] (now_10 + 5).
Proof.
  apply (refiltering_is_filtering rows_3_of_10 (py "Last week") [py "anger"] []
           now_10 (now_10 + 5)).
  vm_compute. discriminate.
Defined.

(** ** The alert on the filtered frame *)

Lemma filter_all {A} (f : A -> bool) (l : list A) :
  (forall x, In x l -> f x = true) -> filter f l = l.
Proof.
  induction l as [|x l IH]; [reflexivity|]. intros H. cbn [filter].
  rewrite (H x (or_introl eq_refl)). f_equal. apply IH. intros y Hy. apply H. now right.
Qed.

Lemma filter_nothing {A} (f : A -> bool) (l : list A) :
  (forall x, In x l -> f x = false) -> filter f l = [].
Proof.
  induction l as [|x l IH]; [reflexivity|]. intros H. cbn [filter].
  rewrite (H x (or_introl eq_refl)). apply IH. intros y Hy. apply H. now right.
Qed.

Lemma alert_of_no_anger (df : list ticket) (now : Z) :
  (forall t, In t df -> is_anger t = false) ->
  render_alerts_section df now = None
  \/ exists q, render_alerts_section df now = Some (Stable, q) /\ (q == 0)%Q.
Proof.
  intros H. destruct df as [|t0 df]; [now left|]. right.
  unfold render_alerts_section. cbv zeta. set (l := t0 :: df) in *. clearbody l.
  rewrite (filter_nothing (fun t => is_anger t && ts_ge (now - hours 24) t) l)
    by (intros t Ht; now rewrite (H t Ht)).
  cbn [length Z.of_nat].
  destruct (0 <? length (filter (ts_ge (now - hours 24)) l)).
  - eexists. split; [reflexivity|reflexivity].
  - eexists. split; reflexivity.
Qed.

Lemma alert_of_recent_anger (df : list ticket) (now : Z) :
  (forall t, In t df -> is_anger t = true) ->
  (exists t, In t df /\ ts_ge (now - hours 24) t = true) ->
  exists q, render_alerts_section df now = Some (Critical, q) /\ (q == 1)%Q.
Proof.
  intros H (t1 & Hin & Hrec). destruct df as [|t0 df]; [destruct Hin|].
  unfold render_alerts_section. cbv zeta. set (l := t0 :: df) in *. clearbody l.
  assert (E : filter (fun t => is_anger t && ts_ge (now - hours 24) t) l
              = filter (ts_ge (now - hours 24)) l).
  { rewrite DashboardFacts.filter_andb. apply filter_all. intros t Ht. apply H.
    apply filter_In in Ht. tauto. }
  rewrite E.
  assert (Hpos : 0 < length (filter (ts_ge (now - hours 24)) l)).
  { assert (Hf : In t1 (filter (ts_ge (now - hours 24)) l))
      by (apply filter_In; now split).
    destruct (filter (ts_ge (now - hours 24)) l); [destruct Hf|cbn; lia]. }
  set (n := length (filter (ts_ge (now - hours 24)) l)) in *.
  rewrite (proj2 (Nat.ltb_lt 0 n) Hpos).
  assert (Hq : (Z.of_nat n # Pos.of_nat n == 1)%Q).
  { unfold Qeq. cbn [Qnum Qden]. rewrite Z.mul_1_l, Z.mul_1_r.
    destruct n as [|n]; [lia|]. cbn [Z.of_nat]. now rewrite Pos.of_nat_succ. }
  assert (Hc : Qle_bool (3 # 10) (Z.of_nat n # Pos.of_nat n) = true).
  { apply Qle_bool_iff. rewrite Hq. unfold Qle. cbn. lia. }
  rewrite Hc. eexists. split; [reflexivity|exact Hq].
Qed.

Lemma alert_of_nothing_recent (df : list ticket) (now : Z) :
  df <> [] ->
  (forall t, In t df -> ts_ge (now - hours 24) t = false) ->
  render_alerts_section df now = Some (Stable, 0%Q).
Proof.
  intros Hne H. destruct df as [|t0 df]; [congruence|].
  unfold render_alerts_section. cbv zeta. set (l := t0 :: df) in *. clearbody l.
  rewrite (filter_nothing (ts_ge (now - hours 24)) l H).
  reflexivity.
Qed.

Lemma filtered_sentiments (df : list row) (tr : str) (sf srcf : list str)
    (now : Z) (t : ticket) :
  sf <> [] ->
  In t (map row_ticket (apply_filters df tr sf srcf now)) ->
  exists s, sentiment t = Some (VStr s) /\ In s sf.
Proof.
  intros Hsf Hin. apply in_map_iff in Hin. destruct Hin as (r & <- & Hr).
  apply apply_filters_in in Hr. destruct Hr as (_ & _ & [Hs | Hs] & _); [easy|].
  now apply sentiment_isin_iff.
Qed.

(** X20. The alert is computed on the filtered frame, so a choice of
    sentiments that leaves anger out silences it: whatever the tickets
    are, [main] then shows no alert at all or reports stable levels with
    no anger. *)
Theorem alert_is_silenced_without_anger (df : list row) (tr : str)
    (sf srcf : list str) (now now' : Z) :
  sf <> [] ->
  ~ In (py "anger") sf ->
  main_alert df tr sf srcf now now' = None
  \/ exists q, main_alert df tr sf srcf now now' = Some (Stable, q) /\ (q == 0)%Q.
Proof.
  intros Hsf Hno. unfold main_alert. apply alert_of_no_anger.
  intros t Ht. destruct (filtered_sentiments _ _ _ _ _ _ Hsf Ht) as (s & Hs & Hin).
  unfold is_anger. rewrite Hs. destruct (str_eqb s (py "anger")) eqn:E; [|reflexivity].
  apply str_eqb_eq in E. now subst s.
Qed.

Lemma alert_is_silenced_without_anger_witness :
  main_alert rows_3_of_10 (py "Last week") [py "neutral"] [] now_10 now_10 = None
  \/ exists q,
       main_alert rows_3_of_10 (py "Last week") [py "neutral"] [] now_10 now_10
       = Some (Stable, q) /\ (q == 0)%Q.
Proof.
  apply (alert_is_silenced_without_anger rows_3_of_10 (py "Last week")
           [py "neutral"] [] now_10 now_10).
  - discriminate.
  - vm_compute. intuition discriminate.
Defined.

(** X21. With anger as the only chosen sentiment, what [main] shows for
    the alert is decided by the shown tickets alone. It shows no alert
    section exactly when the filters leave no ticket; stable levels with a
    ratio of zero when tickets are shown and none of them is of the last 24
    hours; and the high anger alert with a ratio of one as soon as one
    shown ticket is of the last 24 hours. So one angry ticket of the frame
    that is inside the time range, of the last 24 hours and of a chosen
    source suffices for the highest alert, whatever the other tickets
    are. *)
Theorem alert_is_critical_with_only_anger (df : list row) (tr : str)
    (srcf : list str) (now now' : Z) :
  let shown := map row_ticket (apply_filters df tr [py "anger"] srcf now) in
  let alert := main_alert df tr [py "anger"] srcf now now' in
  (shown = [] <-> alert = None)
  /\ (shown <> [] ->
      (forall t, In t shown -> ts_ge (now' - hours 24) t = false) ->
      alert = Some (Stable, 0%Q))
  /\ ((exists t, In t shown /\ ts_ge (now' - hours 24) t = true) ->
      exists q, alert = Some (Critical, q) /\ (q == 1)%Q)
  /\ (forall r,
        In r df ->
        is_anger (row_ticket r) = true ->
        ts_ge (cutoff_of tr now) (row_ticket r) = true ->
        ts_ge (now' - hours 24) (row_ticket r) = true ->
        srcf = [] \/ source_isin srcf r = true ->
        exists q, alert = Some (Critical, q) /\ (q == 1)%Q).
Proof.
  cbv zeta. unfold main_alert.
  set (shown := map row_ticket (apply_filters df tr [py "anger"] srcf now)).
  assert (Hang : forall t, In t shown -> is_anger t = true).
  { intros t Ht.
    destruct (filtered_sentiments df tr [py "anger"] srcf now t) as (s & Hs & Hin);
      [discriminate|exact Ht|].
    unfold is_anger. rewrite Hs. destruct Hin as [<- | []]. apply str_eqb_refl. }
  assert (Hcrit : (exists t, In t shown /\ ts_ge (now' - hours 24) t = true) ->
                  exists q, render_alerts_section shown now' = Some (Critical, q)
                            /\ (q == 1)%Q)
    by (apply alert_of_recent_anger, Hang).
  split; [|split; [|split]].
  - split; [now intros ->|]. destruct shown; [reflexivity|discriminate].
  - apply alert_of_nothing_recent.
  - exact Hcrit.
  - intros r Hr Ha Hc Hrec Hsrc. apply Hcrit. exists (row_ticket r).
    split; [|exact Hrec]. apply in_map. apply apply_filters_in.
    split; [exact Hr|]. split; [exact Hc|]. split; [|exact Hsrc].
    right. apply sentiment_isin_iff. unfold is_anger in Ha.
    destruct (sentiment (row_ticket r)) as [[| | | |s| |]|]; try discriminate.
    apply str_eqb_eq in Ha. subst s. exists (py "anger"). split; [reflexivity|now left].
Qed.

(** The three cases, on the ten tickets of [rows_3_of_10], three of them
    angry: seen right away the alert is the high one; seen two days later
    through [Last week] the levels are stable; and with a source that no
    ticket has, nothing is shown. *)
Example only_anger_recent :
  main_alert rows_3_of_10 (py "Last week") [py "anger"] [] now_10 now_10
  = Some (Critical, (3 # 3)%Q).
Proof. reflexivity. Qed.

Example only_anger_two_days_later :
  main_alert rows_3_of_10 (py "Last week") [py "anger"] [] now_10
    (now_10 + days 2)
  = Some (Stable, 0%Q).
Proof. reflexivity. Qed.

Example only_anger_of_another_source :
  main_alert rows_3_of_10 (py "Last week") [py "anger"] [py "Form"] now_10 now_10
  = None.
Proof. reflexivity. Qed.

(** ** The lists of messages *)

Local Abbreviation before := (fun a b : ticket => shown_before a b = true).

Lemma shown_before_total (a b : ticket) :
  shown_before a b = false -> shown_before b a = true.
Proof.
  unfold shown_before. destruct (timestamp a), (timestamp b); try easy.
  rewrite Z.leb_gt, Z.leb_le. lia.
Qed.

Lemma shown_before_trans (a b c : ticket) :
  shown_before a b = true -> shown_before b c = true -> shown_before a c = true.
Proof.
  unfold shown_before. destruct (timestamp a), (timestamp b), (timestamp c); try easy.
  rewrite !Z.leb_le. lia.
Qed.

Lemma insert_desc_in (t x : ticket) (l : list ticket) :
  In x (insert_desc t l) <-> x = t \/ In x l.
Proof.
  induction l as [|u l IH]; cbn [insert_desc In]; [intuition|].
  destruct (shown_before t u); cbn [In]; [intuition|].
  rewrite IH. intuition.
Qed.

Lemma insert_desc_length (t : ticket) (l : list ticket) :
  length (insert_desc t l) = S (length l).
Proof.
  induction l as [|u l IH]; [reflexivity|]. cbn [insert_desc].
  destruct (shown_before t u); cbn [length]; [reflexivity|now rewrite IH].
Qed.

Lemma insert_desc_sorted (t : ticket) (l : list ticket) :
  StronglySorted before l -> StronglySorted before (insert_desc t l).
Proof.
  induction 1 as [|u l Hs IH Hu]; cbn [insert_desc].
  - constructor; constructor.
  - destruct (shown_before t u) eqn:E.
    + constructor; [now constructor|]. constructor; [exact E|].
      eapply Forall_impl; [|exact Hu]. intros x Hx.
      exact (shown_before_trans _ _ _ E Hx).
    + constructor; [exact IH|]. apply Forall_forall. intros x Hx.
      apply insert_desc_in in Hx. destruct Hx as [-> | Hx].
      * now apply shown_before_total.
      * exact (proj1 (Forall_forall _ _) Hu x Hx).
Qed.

Lemma sort_in (x : ticket) (l : list ticket) :
  In x (sort_values_desc l) <-> In x l.
Proof.
  induction l as [|t l IH]; [reflexivity|].
  cbn [sort_values_desc fold_right In]. fold (sort_values_desc l).
  rewrite insert_desc_in, IH. intuition.
Qed.

Lemma sort_length (l : list ticket) :
  length (sort_values_desc l) = length l.
Proof.
  induction l as [|t l IH]; [reflexivity|].
  cbn [sort_values_desc fold_right]. fold (sort_values_desc l).
  now rewrite insert_desc_length, IH.
Qed.

Lemma sort_sorted (l : list ticket) : StronglySorted before (sort_values_desc l).
Proof.
  induction l as [|t l IH]; [constructor|].
  cbn [sort_values_desc fold_right]. fold (sort_values_desc l).
  now apply insert_desc_sorted.
Qed.

Lemma sorted_split (n : nat) (l : list ticket) :
  StronglySorted before l ->
  StronglySorted before (firstn n l)
  /\ forall x y, In x (firstn n l) -> In y (skipn n l) -> shown_before x y = true.
Proof.
  intros Hs. revert n. induction Hs as [|u l Hs IH Hu]; intros n.
  - rewrite firstn_nil. split; [constructor|easy].
  - destruct n as [|n]; cbn [firstn skipn]; [split; [constructor|easy]|].
    destruct (IH n) as [IH1 IH2]. split.
    + constructor; [exact IH1|]. apply Forall_forall. intros x Hx.
      apply (proj1 (Forall_forall _ _) Hu). rewrite <- (firstn_skipn n l).
      apply in_or_app. now left.
    + intros x y [<- | Hx] Hy; [|now apply IH2].
      apply (proj1 (Forall_forall _ _) Hu). rewrite <- (firstn_skipn n l).
      apply in_or_app. now right.
Qed.

(** The first [n] rows of a frame sorted by time, newest first. *)
Lemma head_of_sorted (n : nat) (l : list ticket) :
  let shown := firstn n (sort_values_desc l) in
  length shown <= n
  /\ (forall t, In t shown -> In t l)
  /\ StronglySorted before shown
  /\ (forall t, In t l ->
        In t shown
        \/ (length shown = n /\ forall s, In s shown -> shown_before s t = true)).
Proof.
  cbv zeta. destruct (sorted_split n _ (sort_sorted l)) as [H1 H2].
  split; [apply firstn_le_length|].
  split; [intros t Ht; apply sort_in; rewrite <- (firstn_skipn n); apply in_or_app; now left|].
  split; [exact H1|].
  intros t Ht. apply sort_in in Ht. rewrite <- (firstn_skipn n) in Ht.
  apply in_app_or in Ht. destruct Ht as [Ht | Ht]; [now left|]. right. split.
  - rewrite length_firstn. apply Nat.min_l.
    destruct (Nat.le_gt_cases n (length (sort_values_desc l))) as [H | H]; [exact H|].
    rewrite skipn_all2 in Ht by lia. destruct Ht.
  - intros s Hs. now apply H2.
Qed.

(** X22. The angry messages listed under the alert are at most five, each
    an angry ticket of the last 24 hours taken from the frame, listed from
    the newest to the oldest; and any angry ticket of the last 24 hours
    that is left out is no newer than each of the five listed. *)
Theorem angry_messages_are_the_newest (df : list ticket) (now : Z) :
  let shown := recent_anger_shown df now in
  let angry_recent t :=
    In t df /\ is_anger t = true /\ ts_ge (now - hours 24) t = true in
  length shown <= 5
  /\ (forall t, In t shown -> angry_recent t)
  /\ StronglySorted (fun a b => shown_before a b = true) shown
  /\ (forall t, angry_recent t ->
        In t shown
        \/ (length shown = 5 /\ forall s, In s shown -> shown_before s t = true)).
Proof.
  cbv zeta. destruct df as [|t0 df].
  - cbn [recent_anger_shown length]. split; [lia|]. split; [easy|].
    split; [constructor|]. now intros t [[] _].
  - unfold recent_anger_shown. cbv zeta. set (l := t0 :: df). clearbody l.
    destruct (head_of_sorted 5
                (filter (fun t => is_anger t && ts_ge (now - hours 24) t) l))
      as (H1 & H2 & H3 & H4).
    split; [exact H1|]. split; [|split; [exact H3|]].
    + intros t Ht. apply H2 in Ht. apply filter_In in Ht.
      rewrite andb_true_iff in Ht. tauto.
    + intros t (Hin & Ha & Hr). apply H4. apply filter_In.
      split; [exact Hin|]. now rewrite Ha, Hr.
Qed.

(** X23. [render_recent_messages] lists at most twenty rows of the frame,
    from the newest to the oldest with the rows that have no time last, and
    any row that is left out is no newer than each of the twenty listed. *)
Theorem recent_messages_are_the_newest (df : list ticket) :
  let shown := render_recent_messages df in
  length shown <= 20
  /\ (forall t, In t shown -> In t df)
  /\ StronglySorted (fun a b => shown_before a b = true) shown
  /\ (forall t, In t df ->
        In t shown
        \/ (length shown = 20 /\ forall s, In s shown -> shown_before s t = true)).
Proof.
  cbv zeta. destruct df as [|t0 df].
  - cbn [render_recent_messages length]. split; [lia|]. split; [easy|].
    split; [constructor|]. now intros t [].
  - unfold render_recent_messages. apply (head_of_sorted 20).
Qed.

Example newest_five_of_seven :
  map timestamp (recent_anger_shown df_seven 10)
  = [Some 7; Some 6; Some 5; Some 4; Some 3]%Z.
Proof. reflexivity. Qed.

(** ** The overview *)

Lemma sentiment_one_of_four (t : ticket) :
  (exists s, sentiment t = Some (VStr s) /\ In s Classifier.valid_sentiments) ->
  (if is_sentiment (py "anger") t then 1 else 0)
  + (if is_sentiment (py "confusion") t then 1 else 0)
  + (if is_sentiment (py "delight") t then 1 else 0)
  + (if is_sentiment (py "neutral") t then 1 else 0) = 1.
Proof.
  intros (s & Hs & Hin). unfold is_sentiment. rewrite Hs.
  destruct Hin as [<- | [<- | [<- | [<- | []]]]]; reflexivity.
Qed.

Lemma filter_length_cons {A} (f : A -> bool) (x : A) (l : list A) :
  length (filter f (x :: l)) = (if f x then 1 else 0) + length (filter f l).
Proof. cbn [filter]. now destruct (f x). Qed.

Lemma sentiment_counts_add_up (df : list ticket) :
  (forall t, In t df ->
     exists s, sentiment t = Some (VStr s) /\ In s Classifier.valid_sentiments) ->
  length (filter (is_sentiment (py "anger")) df)
  + length (filter (is_sentiment (py "confusion")) df)
  + length (filter (is_sentiment (py "delight")) df)
  + length (filter (is_sentiment (py "neutral")) df) = length df.
Proof.
  induction df as [|t df IH]; [reflexivity|]. intros H.
  rewrite !filter_length_cons. cbn [length].
  pose proof (sentiment_one_of_four t (H t (or_introl eq_refl))) as H1.
  specialize (IH (fun u Hu => H u (or_intror Hu))). lia.
Qed.

(** X24. When every row of a non-empty frame carries one of the four
    sentiments that the classifier may return, the overview shows for each
    of them the number of rows that carry it, and the four counts add up to
    the number of rows. The share shown next to a count is the binary64
    value of count / rows * 100. *)
Theorem overview_counts_add_up (df : list ticket) :
  df <> [] ->
  (forall t, In t df ->
     exists s, sentiment t = Some (VStr s) /\ In s Classifier.valid_sentiments) ->
  exists a c d n,
    render_sentiment_overview df
    = Some [(py "anger", a, percent a (length df));
            (py "confusion", c, percent c (length df));
            (py "delight", d, percent d (length df));
            (py "neutral", n, percent n (length df))]
    /\ a = length (filter (is_sentiment (py "anger")) df)
    /\ c = length (filter (is_sentiment (py "confusion")) df)
    /\ d = length (filter (is_sentiment (py "delight")) df)
    /\ n = length (filter (is_sentiment (py "neutral")) df)
    /\ a + c + d + n = length df
    /\ forall k, exists f, percent k (length df) = VFloat f.
Proof.
  intros Hne Hall. pose proof (sentiment_counts_add_up df Hall) as Hsum.
  destruct df as [|t0 df]; [congruence|].
  unfold render_sentiment_overview. set (l := t0 :: df) in *.
  assert (Hpos : 0 < length l) by (subst l; cbn [length]; lia). clearbody l.
  cbn [map]. do 4 eexists. split; [reflexivity|].
  repeat (split; [reflexivity|]). split; [exact Hsum|].
  intros k. unfold percent. apply Nat.ltb_lt in Hpos. rewrite Hpos.
  eexists. reflexivity.
Qed.

Lemma overview_counts_add_up_witness :
  exists a c d n,
    render_sentiment_overview df_3_of_10
    = Some [(py "anger", a, percent a (length df_3_of_10));
            (py "confusion", c, percent c (length df_3_of_10));
            (py "delight", d, percent d (length df_3_of_10));
            (py "neutral", n, percent n (length df_3_of_10))]
    /\ a = length (filter (is_sentiment (py "anger")) df_3_of_10)
    /\ c = length (filter (is_sentiment (py "confusion")) df_3_of_10)
    /\ d = length (filter (is_sentiment (py "delight")) df_3_of_10)
    /\ n = length (filter (is_sentiment (py "neutral")) df_3_of_10)
    /\ a + c + d + n = length df_3_of_10
    /\ forall k, exists f, percent k (length df_3_of_10) = VFloat f.
Proof.
  apply (overview_counts_add_up df_3_of_10).
  - discriminate.
  - intros t Ht. vm_compute in Ht.
    repeat (destruct Ht as [<- | Ht];
            [eexists; split; [reflexivity|vm_compute; tauto]|]).
    destruct Ht.
Defined.

(** Three of ten is 30 percent. *)
Example overview_of_three_in_ten :
  render_sentiment_overview df_3_of_10
  = Some [(py "anger", 3, VFloat (float_of_nat 30));
          (py "confusion", 0, VFloat f_zero);
          (py "delight", 0, VFloat f_zero);
          (py "neutral", 7, VFloat (float_of_nat 70))].
Proof. vm_compute. reflexivity. Qed.

(** The shares are rounded: with one ticket each of three sentiments every
    share is 33.33333333333333 (4691249611844266 * 2^-47), and the four
    shares, added as floats in the order shown, give 99.99999999999999
    (7036874417766399 * 2^-46), not 100. *)
Example shares_of_thirds :
  let third := S754_finite false 4691249611844266 (-47) in
  render_sentiment_overview df_thirds
  = Some [(py "anger", 0, VFloat f_zero);
          (py "confusion", 1, VFloat third);
          (py "delight", 1, VFloat third);
          (py "neutral", 1, VFloat third)]
  /\ SFadd prec emax (SFadd prec emax (SFadd prec emax f_zero third) third) third
     = S754_finite false 7036874417766399 (-46)
  /\ float_of_nat 100 = S754_finite false 7036874417766400 (-46).
Proof. vm_compute. repeat split. Qed.

End DashboardMoreFacts.

(** * The queue of New tickets and the counters across a batch *)

Module QueueFacts.
Import Worker Dashboard DashboardMore Samples.

Lemma find_doc_cons_other (i j : str) (t : ticket) (ds : list (str * ticket)) :
  j <> i -> find_doc j ((i, t) :: ds) = find_doc j ds.
Proof.
  intros H. cbn [find_doc]. destruct (str_eqb j i) eqn:E; [|reflexivity].
  apply str_eqb_eq in E. contradiction.
Qed.

(** Two collections with the same ids, where the documents picked by [P]
    fail [f] afterwards and the others are the same: the documents that
    pass [f] afterwards are those that passed before and were not picked. *)
Lemma filter_after (f : ticket -> bool) (P : str -> bool) :
  forall ds ds' : list (str * ticket),
    map fst ds' = map fst ds ->
    NoDup (map fst ds) ->
    (forall i t', In i (map fst ds) -> P i = true ->
                  find_doc i ds' = Some t' -> f t' = false) ->
    (forall i, In i (map fst ds) -> P i = false ->
               find_doc i ds' = find_doc i ds) ->
    filter (fun d => f (snd d)) ds'
    = filter (fun d => f (snd d) && negb (P (fst d))) ds.
Proof.
  induction ds as [|[i t] ds IH]; intros ds' Hids Hnd Hp Hn.
  - destruct ds'; [reflexivity|discriminate].
  - destruct ds' as [|[i' t'] ds']; [discriminate|].
    cbn [map fst] in Hids. injection Hids as -> Hids.
    cbn [map fst] in Hnd. apply NoDup_cons_iff in Hnd. destruct Hnd as [Hi Hnd].
    assert (Htail : filter (fun d => f (snd d)) ds'
                    = filter (fun d => f (snd d) && negb (P (fst d))) ds).
    { apply IH; [exact Hids|exact Hnd| |].
      - intros j u Hj HP Hf. apply (Hp j u); [now right|exact HP|].
        rewrite find_doc_cons_other; [exact Hf|]. intros ->. contradiction.
      - intros j Hj HP.
        assert (Hji : j <> i) by (intros ->; contradiction).
        pose proof (Hn j (or_intror Hj) HP) as H.
        now rewrite !find_doc_cons_other in H by exact Hji. }
    cbn [filter fst snd]. rewrite Htail.
    destruct (P i) eqn:HP.
    + rewrite andb_false_r.
      rewrite (Hp i t' (or_introl eq_refl) HP)
        by (cbn [find_doc]; now rewrite str_eqb_refl).
      reflexivity.
    + pose proof (Hn i (or_introl eq_refl) HP) as H.
      cbn [find_doc] in H. rewrite str_eqb_refl in H. injection H as ->.
      now rewrite andb_true_r.
Qed.

(** Dropping from a queue the documents whose ids are those of its first
    [n] leaves the rest of the queue. *)
Lemma filter_not_in_head (n : nat) :
  forall q : list (str * ticket),
    NoDup (map fst q) ->
    filter (fun d => negb (existsb (str_eqb (fst d)) (map fst (firstn n q)))) q
    = skipn n q.
Proof.
  induction n as [|n IH]; intros q Hnd.
  - cbn [firstn map existsb skipn]. apply DashboardMoreFacts.filter_all. reflexivity.
  - destruct q as [|x q]; [reflexivity|].
    cbn [map fst] in Hnd. apply NoDup_cons_iff in Hnd. destruct Hnd as [Hx Hnd].
    cbn [firstn map skipn filter existsb]. rewrite str_eqb_refl. cbn [orb negb].
    rewrite <- (IH q Hnd). apply filter_ext_in. intros d Hd.
    destruct (str_eqb (fst d) (fst x)) eqn:E; [|reflexivity].
    apply str_eqb_eq in E. exfalso. apply Hx. rewrite <- E. now apply in_map.
Qed.

Lemma same_id_same_doc (ds : list (str * ticket)) (d d' : str * ticket) :
  NoDup (map fst ds) -> In d ds -> In d' ds -> fst d = fst d' -> d = d'.
Proof.
  intros Hnd Hd Hd' E. destruct d as [i t], d' as [i' t']. cbn [fst] in E. subst i'.
  pose proof (WorkerMore.find_doc_of_In ds i t Hnd Hd) as H1.
  pose proof (WorkerMore.find_doc_of_In ds i t' Hnd Hd') as H2.
  congruence.
Qed.

(** What a batch does to the documents that pass a test [f] on the ticket,
    when no ticket that ends Processed or in Error passes it. *)
Lemma batch_filter (E : env) (w : world) (f : ticket -> bool) :
  NoDup (map fst (docs w)) ->
  (forall t, status_of t = Processed \/ status_of t = Error -> f t = false) ->
  let batch := firstn (batch_size E) (filter is_new (docs w)) in
  exists w',
    process_tickets_batch E w = (Ok VNone, w')
    /\ map fst (docs w') = map fst (docs w)
    /\ filter (fun d => f (snd d)) (docs w')
       = filter (fun d => f (snd d)
                          && negb (existsb (str_eqb (fst d)) (map fst batch)))
           (docs w).
Proof.
  intros Hnd Hf batch.
  destruct (WorkerMore.batch_post E w Hnd) as (w' & Hrun & Hpost & Hfr).
  fold batch in Hpost, Hfr.
  assert (Hids : map fst (docs w') = map fst (docs w)).
  { apply WorkerMore.keeps_documents_ids. change w' with (snd (Ok VNone, w')).
    rewrite <- Hrun. apply WorkerMore.batch_respects_keeps. }
  exists w'. split; [exact Hrun|]. split; [exact Hids|].
  apply (filter_after f (fun i => existsb (str_eqb i) (map fst batch)));
    [exact Hids|exact Hnd| |].
  - intros i t' _ HP Hfind.
    apply DashboardMoreFacts.existsb_str_In, in_map_iff in HP.
    destruct HP as (d & <- & Hd).
    destruct (Hpost d Hd) as (t'' & Hf' & Hst).
    rewrite Hfind in Hf'. injection Hf' as <-.
    apply Hf. tauto.
  - intros i _ HP. apply Hfr. intros Hin.
    apply DashboardMoreFacts.existsb_str_In in Hin. congruence.
Qed.

(** With a client that never raises, on distinct ids: a run takes the
    first [batch_size] tickets off the queue of New tickets. *)
Lemma queue_head_reliable (E : env) (w : world) :
  NoDup (map fst (docs w)) ->
  exists w',
    process_tickets_batch E w = (Ok VNone, w')
    /\ filter is_new (docs w') = skipn (batch_size E) (filter is_new (docs w)).
Proof.
  intros Hnd.
  destruct (batch_filter E w (fun t => status_eqb (status_of t) New) Hnd)
    as (w' & Hrun & _ & Hfil).
  { intros t [-> | ->]; reflexivity. }
  exists w'. split; [exact Hrun|].
  change (filter is_new (docs w'))
    with (filter (fun d => status_eqb (status_of (snd d)) New) (docs w')).
  rewrite Hfil.
  rewrite <- (filter_not_in_head (batch_size E) (filter is_new (docs w)))
    by (apply BatchFacts.NoDup_map_filter, Hnd).
  rewrite <- DashboardFacts.filter_andb. apply filter_ext. intros d.
  unfold is_new. apply andb_comm.
Qed.

Lemma stats_of_store (w : world) :
  let bucket st :=
    length (filter (fun d => status_eqb (status_of (snd d)) st) (docs w)) in
  get_system_stats (statuses_of w)
  = [(py "total", length (docs w)); (py "processed", bucket Processed);
     (py "new", bucket New); (py "processing", bucket Processing);
     (py "error", bucket Error)].
Proof.
  cbv zeta. rewrite DashboardMoreFacts.system_stats_run. unfold statuses_of.
  rewrite DashboardMoreFacts.status_count_total_store, length_map, Nat.add_0_r.
  rewrite <- !DashboardMoreFacts.status_count_store. reflexivity.
Qed.

(** With a client that never raises, on distinct ids: what a batch does
    to the counters of the dashboard. *)
Lemma counters_reliable (E : env) (w : world) :
  NoDup (map fst (docs w)) ->
  exists w',
    process_tickets_batch E w = (Ok VNone, w')
    /\ let before := get_system_stats (statuses_of w) in
       let after := get_system_stats (statuses_of w') in
       cget (py "total") after = cget (py "total") before
       /\ cget (py "processing") after = cget (py "processing") before
       /\ exists n, cget (py "new") before = Some n
                    /\ cget (py "new") after = Some (n - batch_size E).
Proof.
  intros Hnd.
  destruct (batch_filter E w (fun t => status_eqb (status_of t) New) Hnd)
    as (w' & Hrun & Hids & Hnew).
  { intros t [-> | ->]; reflexivity. }
  destruct (batch_filter E w (fun t => status_eqb (status_of t) Processing) Hnd)
    as (w'' & Hrun' & _ & Hproc).
  { intros t [-> | ->]; reflexivity. }
  rewrite Hrun in Hrun'. injection Hrun' as <-.
  exists w'. split; [exact Hrun|]. cbv zeta. rewrite !stats_of_store.
  assert (Hlen : length (docs w') = length (docs w))
    by (rewrite <- (length_map fst (docs w')), Hids; apply length_map).
  split; [cbn; now rewrite Hlen|]. split.
  - cbn. f_equal. rewrite Hproc. f_equal. apply filter_ext_in. intros d Hd.
    destruct (status_eqb (status_of (snd d)) Processing) eqn:Hs; [|reflexivity].
    cbn [andb].
    destruct (existsb (str_eqb (fst d))
                (map fst (firstn (batch_size E) (filter is_new (docs w))))) eqn:Hb;
      [|reflexivity].
    apply DashboardMoreFacts.existsb_str_In, in_map_iff in Hb.
    destruct Hb as (d' & Hfst & Hd').
    apply BatchFacts.In_firstn, filter_In in Hd'. destruct Hd' as [Hd' Hn].
    rewrite (same_id_same_doc (docs w) d' d Hnd Hd' Hd Hfst) in Hn.
    unfold is_new in Hn. destruct (status_of (snd d)); discriminate.
  - eexists. split; [reflexivity|]. cbn. f_equal. rewrite Hnew.
    assert (Hq : filter (fun d => status_eqb (status_of (snd d)) New
                                  && negb (existsb (str_eqb (fst d))
                                             (map fst (firstn (batch_size E)
                                                         (filter is_new (docs w))))))
                   (docs w)
                 = skipn (batch_size E) (filter is_new (docs w))).
    { rewrite <- (filter_not_in_head (batch_size E) (filter is_new (docs w)))
        by (apply BatchFacts.NoDup_map_filter, Hnd).
      rewrite <- DashboardFacts.filter_andb. apply filter_ext. intros d.
      unfold is_new. apply andb_comm. }
    rewrite Hq. apply length_skipn.
Qed.

End QueueFacts.

(** * The form agent *)

Module FormFacts.
Import FormAgent FormSamples Worker Samples.

Lemma validate_accepts (data : pyval) (text : str) :
  validate_form_data data = Returns (true, text)
  <-> exists d m,
        data = VDict d
        /\ dget (py "message") d = Some (VStr m)
        /\ strip m <> []
        /\ (Z.of_nat (length m) <= 10000)%Z
        /\ text = py "Valid".
Proof.
  unfold validate_form_data. split.
  - destruct data as [| | | | | |d]; try discriminate.
    destruct (dget (py "message") d) as [[| | | |m| |]|] eqn:Hd; try discriminate.
    destruct (strip m) eqn:Hs; [discriminate|].
    destruct (10000 <? Z.of_nat (length m))%Z eqn:Hl; [discriminate|].
    intros [= <-]. exists d, m. rewrite Hs. apply Z.ltb_ge in Hl.
    split; [reflexivity|]. split; [exact Hd|]. split; [discriminate|].
    split; [exact Hl|reflexivity].
  - intros (d & m & -> & -> & Hs & Hl & ->).
    destruct (strip m); [contradiction|].
    apply Z.ltb_ge in Hl. now rewrite Hl.
Qed.

Lemma dict_with_key_is_truthy (d : dict) (k : str) (v : pyval) :
  dget k d = Some v -> falsy (VDict d) = false.
Proof. destruct d; [discriminate|reflexivity]. Qed.

(** X27. A form is accepted exactly when the posted value is an object
    whose [message] is a string that is not blank and has at most 10000
    characters, and the store takes the submission; the answer then carries
    the id that the store gave. *)
Theorem form_is_accepted_iff (store : pyval -> str -> option str)
    (form_type success_message : str) (data : pyval) (id : str) :
  handle_form store form_type success_message data = Success success_message id
  <-> exists d m,
        data = VDict d
        /\ dget (py "message") d = Some (VStr m)
        /\ strip m <> []
        /\ (Z.of_nat (length m) <= 10000)%Z
        /\ store data form_type = Some id.
Proof.
  unfold handle_form. split.
  - destruct (falsy data); [discriminate|].
    destruct (validate_form_data data) as [[[|] text]|] eqn:Hv; try discriminate.
    apply validate_accepts in Hv. destruct Hv as (d & m & Hd & Hm & Hs & Hl & _).
    destruct (store data form_type) as [id'|] eqn:Hst; [|discriminate].
    intros [= <-]. now exists d, m.
  - intros (d & m & -> & Hm & Hs & Hl & Hst).
    rewrite (dict_with_key_is_truthy d _ _ Hm).
    assert (Hv : validate_form_data (VDict d) = Returns (true, py "Valid"))
      by (apply validate_accepts; now exists d, m).
    now rewrite Hv, Hst.
Qed.

(** X28. A [message] that is present but is not a string is not reported
    as a bad request: validation raises on it, and the handler answers with
    the status 500 and stores nothing, whatever the store would do. *)
Theorem non_string_message_is_a_server_error
    (store : pyval -> str -> option str) (form_type success_message : str)
    (d : dict) (v : pyval) :
  dget (py "message") d = Some v ->
  (forall m, v <> VStr m) ->
  validate_form_data (VDict d) = AttributeError
  /\ handle_form store form_type success_message (VDict d)
     = Failure 500 (py "Internal server error").
Proof.
  intros Hm Hv.
  assert (E : validate_form_data (VDict d) = AttributeError).
  { unfold validate_form_data. rewrite Hm.
    destruct v; try reflexivity. now destruct (Hv s). }
  split; [exact E|]. unfold handle_form.
  now rewrite (dict_with_key_is_truthy d _ _ Hm), E.
Qed.

Lemma non_string_message_is_a_server_error_witness :
  validate_form_data number_form = AttributeError
  /\ handle_contact_form store_ok number_form
     = Failure 500 (py "Internal server error").
Proof.
  apply (non_string_message_is_a_server_error store_ok (py "Contact")
           (py "Contact form submitted successfully")
           [(py "message", VInt 42)] (VInt 42)).
  - reflexivity.
  - discriminate.
Defined.

Lemma try_bind_first {A B} (u : M A) (k : A -> M B) (h : exn -> M B)
    (w w1 : world) (a : A) :
  u w = (Ok a, w1) -> try_except (bind u k) h w = try_except (k a) h w1.
Proof. unfold try_except, bind. now intros ->. Qed.

(** X29. A message that the form agent accepts is never blank for the
    worker: for a ticket that holds it and whose document is in the store,
    the worker starts by writing the status processing, not error. *)
Theorem accepted_message_is_classified (E : env) (w : world) (d : dict)
    (m text id : str) (t t0 : ticket) (counts : nat * nat) :
  validate_form_data (VDict d) = Returns (true, text) ->
  dget (py "message") d = Some (VStr m) ->
  message t = Some m ->
  find_doc id (docs w) = Some t0 ->
  exists c w' rest,
    process_ticket E counts (id, t) w = (Ok c, w')
    /\ trace w' = trace w ++ EvWrite id Processing :: rest.
Proof.
  intros Hv Hm Ht Hdoc.
  apply validate_accepts in Hv.
  destruct Hv as (d' & m' & [= <-] & Hm' & Hs & _ & _).
  rewrite Hm in Hm'. injection Hm' as <-.
  destruct (WorkerMore.process_ticket_returns E counts (id, t) w) as (c & w' & Hrun).
  exists c, w'.
  destruct (StoreFacts.update_status_run id Processing t0 w Hdoc)
    as (ds' & Hu & _ & _).
  pose proof Hrun as Hrun'.
  unfold process_ticket in Hrun'. destruct counts as [p e].
  cbn [fst snd] in Hrun'. unfold get_message in Hrun'. rewrite Ht in Hrun'.
  destruct (strip m) as [|a s] eqn:Hsm; [contradiction|].
  rewrite (try_bind_first _ _ _ _ _ _ Hu) in Hrun'.
  match type of Hrun' with
  | try_except ?body ?h ?w1 = _ =>
      assert (Happ : appends (batch_event [id]) w1 (snd (try_except body h w1)))
  end.
  { apply (WorkerMore.respects_try_except (appends (batch_event [id]))
             (WorkerMore.appends_trans _)).
    - apply (WorkerMore.respects_bind (appends (batch_event [id]))
               (WorkerMore.appends_trans _)).
      + apply (WorkerMore.respects_analyze (appends (batch_event [id]))
                 (WorkerMore.appends_refl _) (WorkerMore.appends_trans _)
                 (WorkerMore.sleep_appends [id])
                 (WorkerMore.generate_appends [id])).
      + intros r.
        apply (WorkerMore.respects_bind (appends (batch_event [id]))
                 (WorkerMore.appends_trans _)).
        * apply WorkerMore.update_appends; [now left|discriminate].
        * intros _.
          apply (WorkerMore.respects_bind (appends (batch_event [id]))
                   (WorkerMore.appends_trans _));
            [apply WorkerMore.sleep_appends|].
          intros _. intros w0. apply WorkerMore.appends_refl.
    - intros e0.
      apply (WorkerMore.respects_bind (appends (batch_event [id]))
               (WorkerMore.appends_trans _)).
      + apply (WorkerMore.respects_try_except (appends (batch_event [id]))
                 (WorkerMore.appends_trans _)).
        * apply WorkerMore.update_appends; [now left|discriminate].
        * intros _ w0. apply WorkerMore.appends_refl.
      + intros _ w0. apply WorkerMore.appends_refl. }
  rewrite Hrun' in Happ. cbn [snd] in Happ.
  destruct Happ as (evs & Htr & _). exists evs.
  split; [exact Hrun|]. rewrite Htr. cbn [trace].
  now rewrite <- app_assoc.
Qed.

Lemma accepted_message_is_classified_witness :
  exists c w' rest,
    process_ticket E_down (0, 0) (py "t2", t_angry) w_two = (Ok c, w')
    /\ trace w' = trace w_two ++ EvWrite (py "t2") Processing :: rest.
Proof.
  apply (accepted_message_is_classified E_down w_two
           [(py "message",
             VStr (py "My internet has been down for 3 days! I need it fixed NOW!"))]
           (py "My internet has been down for 3 days! I need it fixed NOW!")
           (py "Valid") (py "t2") t_angry t_angry (0, 0));
    reflexivity.
Defined.

Example good_form_is_stored :
  handle_contact_form store_ok good_form
  = Success (py "Contact form submitted successfully") (py "doc1").
Proof. reflexivity. Qed.

End FormFacts.

(** * The agent over a client whose calls may raise *)

Module AgentFacts.
Import Worker Samples Spec Dashboard DashboardMore Agent AgentSamples.

(** ** The query *)

(** C9, as the code has it. [get_pending_tickets] never raises and changes
    nothing. It returns at most [batch_size] tickets, all of status New.
    When the query raises the result is empty; otherwise it is the
    beginning of the sequence of the New tickets in the order in which the
    store lists them: the first [batch_size] of them, or all of them when
    there are fewer. *)
Theorem pending_tickets_bounded_new (C : client) (E : env) (w : world) :
  let pending := filter is_new (docs w) in
  exists l,
    Agent.get_pending_tickets C E w = (Ok l, w)
    /\ length l <= batch_size E
    /\ Forall (fun d => status_of (snd d) = New) l
    /\ (if query_raises C w then l = []
        else l = firstn (batch_size E) pending
             /\ length l = Nat.min (batch_size E) (length pending)
             /\ exists rest, pending = l ++ rest).
Proof.
  cbv zeta. unfold Agent.get_pending_tickets, try_except, query_get, ret.
  destruct (query_raises C w).
  - exists []. split; [reflexivity|]. split; [cbn; lia|]. split; [constructor|reflexivity].
  - eexists. split; [reflexivity|]. split; [|split; [|split; [|split]]].
    + rewrite length_firstn. apply Nat.le_min_l.
    + apply Forall_forall. intros d Hd. apply BatchFacts.In_firstn, filter_In in Hd.
      destruct Hd as [_ Hd]. unfold is_new in Hd.
      destruct (status_of (snd d)); simpl in Hd; congruence.
    + reflexivity.
    + apply length_firstn.
    + exists (skipn (batch_size E) (filter is_new (docs w))).
      symmetry. apply firstn_skipn.
Qed.

(** C9 as stated fails: nothing orders the result by creation time. *)
Lemma pending_tickets_not_by_creation :
  exists l,
    Agent.get_pending_tickets reliable E_down w_unordered = (Ok l, w_unordered)
    /\ map (fun d => timestamp (snd d)) l = [Some 5%Z; Some 3%Z]
    /\ created_ascending l = false.
Proof.
  eexists. split; [reflexivity|]. split; reflexivity.
Qed.

Example pending_tickets_when_the_query_raises :
  Agent.get_pending_tickets C_no_query E_down w_two = (Ok [], w_two).
Proof. reflexivity. Qed.

(** ** When no call raises *)

Lemma bind_ext {A B} (m m' : M A) (k k' : A -> M B) :
  (forall w, m w = m' w) -> (forall a w, k a w = k' a w) ->
  forall w, bind m k w = bind m' k' w.
Proof.
  intros Hm Hk w. unfold bind. rewrite Hm.
  destruct (m' w) as [[a|e] w1]; [apply Hk|reflexivity].
Qed.

Lemma try_except_ext {A} (m m' : M A) (h h' : exn -> M A) :
  (forall w, m w = m' w) -> (forall e w, h e w = h' e w) ->
  forall w, try_except m h w = try_except m' h' w.
Proof.
  intros Hm Hh w. unfold try_except. rewrite Hm.
  destruct (m' w) as [[a|e] w1]; [reflexivity|apply Hh].
Qed.

Lemma update_agrees (C : client) (id : str) (st : status) (data : option dict)
    (w : world) :
  update_raises C id st w = false ->
  Agent.update_ticket_status C id st data w = Worker.update_ticket_status id st data w.
Proof.
  intros H. unfold Agent.update_ticket_status, Worker.update_ticket_status, bind, lift.
  cbv beta.
  destruct (match data with
            | Some ((_ :: _) as d) =>
                s <-- subscript d (py "sentiment");;
                su <-- subscript d (py "summary");;
                c <-- subscript d (py "confidence");;
                k <-- subscript d (py "keywords");;
                Ok (Some (s, su, c, k))
            | _ => Ok None
            end) as [fields|e]; [now rewrite H|reflexivity].
Qed.

Lemma process_ticket_agrees (C : client) (E : env) (counts : nat * nat)
    (x : str * ticket) :
  (forall st w, update_raises C (fst x) st w = false) ->
  forall w, Agent.process_ticket C E counts x w = Worker.process_ticket E counts x w.
Proof.
  intros H. unfold Agent.process_ticket, Worker.process_ticket.
  destruct counts as [p e]. cbv zeta.
  assert (Hu : forall st data w,
            Agent.update_ticket_status C (fst x) st data w
            = Worker.update_ticket_status (fst x) st data w)
    by (intros; apply update_agrees, H).
  apply try_except_ext.
  - intros w. destruct (strip (get_message (snd x))).
    + apply bind_ext; [apply Hu|reflexivity].
    + apply bind_ext; [apply Hu|]. intros _ w1.
      apply bind_ext; [reflexivity|]. intros r w2.
      apply bind_ext; [apply Hu|reflexivity].
  - intros e0 w. apply bind_ext; [|reflexivity].
    apply try_except_ext; [apply Hu|reflexivity].
Qed.

Lemma for_each_agrees (C : client) (E : env) (l : list (str * ticket)) :
  (forall x st w, In x l -> update_raises C (fst x) st w = false) ->
  forall counts w,
    for_each (Agent.process_ticket C E) l counts w
    = for_each (Worker.process_ticket E) l counts w.
Proof.
  induction l as [|x l IH]; intros H counts w; [reflexivity|].
  cbn [for_each]. apply bind_ext.
  - apply process_ticket_agrees. intros st w0. apply H. now left.
  - intros c w0. apply IH. intros y st w1 Hy. apply H. now right.
Qed.

(** A run in which no call raises is the run of [Worker]. *)
Lemma batch_agrees (C : client) (E : env) (w : world) :
  calls_succeed C E w ->
  Agent.process_tickets_batch C E w = Worker.process_tickets_batch E w.
Proof.
  intros [Hq Hu].
  assert (Hp : Agent.get_pending_tickets C E w
               = (Ok (firstn (batch_size E) (filter is_new (docs w))), w)).
  { unfold Agent.get_pending_tickets, try_except, query_get. now rewrite Hq. }
  transitivity
    (match firstn (batch_size E) (filter is_new (docs w)) with
     | [] => ret VNone
     | (_ :: _) as tickets =>
         counts <- for_each (Agent.process_ticket C E) tickets (0, 0) ;;
         emit (EvBatchLog (fst counts) (snd counts)) ;;; ret VNone
     end w).
  { unfold Agent.process_tickets_batch. unfold bind at 1. rewrite Hp.
    now destruct (firstn (batch_size E) (filter is_new (docs w))). }
  transitivity
    (match firstn (batch_size E) (filter is_new (docs w)) with
     | [] => ret VNone
     | (_ :: _) as tickets =>
         counts <- for_each (Worker.process_ticket E) tickets (0, 0) ;;
         emit (EvBatchLog (fst counts) (snd counts)) ;;; ret VNone
     end w).
  2:{ symmetry. unfold Worker.process_tickets_batch, Worker.get_pending_tickets.
      unfold bind at 1. cbv beta iota.
      now destruct (firstn (batch_size E) (filter is_new (docs w))). }
  destruct (firstn (batch_size E) (filter is_new (docs w))) as [|x l] eqn:Hb;
    [reflexivity|].
  apply bind_ext; [|reflexivity].
  apply for_each_agrees. intros y st w0 Hy. apply Hu. now apply in_map.
Qed.

Lemma reliable_succeeds (E : env) (w : world) : calls_succeed reliable E w.
Proof. split; reflexivity. Qed.

(** A run that finds no New ticket does nothing, whether its query raises
    or not. *)
Lemma batch_of_nothing (C : client) (E : env) (w : world) :
  filter is_new (docs w) = [] ->
  Agent.process_tickets_batch C E w = (Ok VNone, w).
Proof.
  intros H. unfold Agent.process_tickets_batch, bind, Agent.get_pending_tickets,
    try_except, query_get, ret.
  destruct (query_raises C w); [reflexivity|].
  rewrite H. now destruct (batch_size E).
Qed.

(** ** The counters of the log line *)

(** C6, as the code has it. [process_tickets_batch] returns nothing. In a
    run in which no call of the store raises, on distinct document ids:
    when no ticket is pending it does nothing; otherwise its last log line
    carries the two counters, which are the number of tickets of the batch
    that it left Processed and the number that it left in Error. *)
Theorem batch_counts_are_logged (C : client) (E : env) (w : world) :
  NoDup (map fst (docs w)) ->
  calls_succeed C E w ->
  exists w',
    Agent.process_tickets_batch C E w = (Ok VNone, w')
    /\ let batch := firstn (batch_size E) (filter is_new (docs w)) in
       match batch with
       | [] => w' = w
       | _ => exists tr,
                trace w' = tr ++ [EvBatchLog (reached (docs w') Processed batch)
                                             (reached (docs w') Error batch)]
       end.
Proof.
  intros Hnd Hs. rewrite (batch_agrees C E w Hs).
  exact (BatchFacts.batch_counts_reliable E w Hnd).
Qed.

Lemma batch_counts_are_logged_witness :
  exists w',
    Agent.process_tickets_batch C_no_zz E_down w_two = (Ok VNone, w')
    /\ let batch := firstn (batch_size E_down) (filter is_new (docs w_two)) in
       match batch with
       | [] => w' = w_two
       | _ => exists tr,
                trace w' = tr ++ [EvBatchLog (reached (docs w') Processed batch)
                                             (reached (docs w') Error batch)]
       end.
Proof.
  apply (batch_counts_are_logged C_no_zz E_down w_two).
  - repeat constructor; vm_compute; intuition discriminate.
  - split; [reflexivity|]. intros id st w0 Hin. vm_compute in Hin.
    destruct Hin as [<- | [<- | []]]; reflexivity.
Defined.

(** C6 as stated fails: a batch of two tickets that both end in Error
    logs the counters 0 and 2, and the call returns [None]. *)
Lemma batch_returns_nothing :
  exists w',
    Agent.process_tickets_batch reliable E_down w_two = (Ok VNone, w')
    /\ status_in (docs w') (py "t1") = Some Error
    /\ status_in (docs w') (py "t2") = Some Error
    /\ last (trace w') (EvSleep 0) = EvBatchLog 0 2.
Proof.
  eexists. split; [vm_compute; reflexivity|]. repeat split.
Qed.

(** When the updates of a ticket raise, the ticket is counted as an error
    and stays as it was: here the blank ticket [t1] is still New while the
    log line counts two errors. *)
Example counted_as_error_and_still_new :
  exists w',
    Agent.process_tickets_batch C_no_t1 E_down w_two = (Ok VNone, w')
    /\ status_in (docs w') (py "t1") = Some New
    /\ status_in (docs w') (py "t2") = Some Error
    /\ last (trace w') (EvSleep 0) = EvBatchLog 0 2.
Proof.
  eexists. split; [vm_compute; reflexivity|]. repeat split.
Qed.

(** When the query raises, the batch does nothing. *)
Example nothing_is_done_when_the_query_raises :
  Agent.process_tickets_batch C_no_query E_down w_two = (Ok VNone, w_two).
Proof. reflexivity. Qed.

(** ** The tickets of a batch *)

(** X11. In a run in which no call of the store raises, on distinct
    document ids, every ticket of the batch is Processed or in Error when
    [process_tickets_batch] returns (none is left New or Processing), and
    every document outside the batch is untouched. *)
Theorem batch_tickets_end_terminal (C : client) (E : env) (w : world) :
  NoDup (map fst (docs w)) ->
  calls_succeed C E w ->
  let batch := firstn (batch_size E) (filter is_new (docs w)) in
  exists w',
    Agent.process_tickets_batch C E w = (Ok VNone, w')
    /\ (forall d, In d batch ->
          status_in (docs w') (fst d) = Some Processed
          \/ status_in (docs w') (fst d) = Some Error)
    /\ (forall j, ~ In j (map fst batch) -> find_doc j (docs w') = find_doc j (docs w)).
Proof.
  intros Hnd Hs. rewrite (batch_agrees C E w Hs).
  exact (WorkerMore.batch_terminal_reliable E w Hnd).
Qed.

Lemma batch_tickets_end_terminal_witness :
  let batch := firstn (batch_size E_down) (filter is_new (docs w_two)) in
  exists w',
    Agent.process_tickets_batch C_no_zz E_down w_two = (Ok VNone, w')
    /\ (forall d, In d batch ->
          status_in (docs w') (fst d) = Some Processed
          \/ status_in (docs w') (fst d) = Some Error)
    /\ (forall j, ~ In j (map fst batch) ->
          find_doc j (docs w') = find_doc j (docs w_two)).
Proof.
  apply (batch_tickets_end_terminal C_no_zz E_down w_two).
  - repeat constructor; vm_compute; intuition discriminate.
  - split; [reflexivity|]. intros id st w0 Hin. vm_compute in Hin.
    destruct Hin as [<- | [<- | []]]; reflexivity.
Defined.

(** X14. In a run in which no call of the store raises, on distinct
    document ids and with every New ticket in the batch,
    [process_tickets_batch] leaves no ticket New; the next run, whatever
    its calls do, finds nothing to do and changes nothing. *)
Theorem drained_queue_stays_empty (C : client) (E : env) (w : world) :
  NoDup (map fst (docs w)) ->
  calls_succeed C E w ->
  length (filter is_new (docs w)) <= batch_size E ->
  exists w',
    Agent.process_tickets_batch C E w = (Ok VNone, w')
    /\ filter is_new (docs w') = []
    /\ forall C', Agent.process_tickets_batch C' E w' = (Ok VNone, w').
Proof.
  intros Hnd Hs Hlen. rewrite (batch_agrees C E w Hs).
  destruct (WorkerMore.drained_reliable E w Hnd Hlen) as (w' & Hrun & Hnone & _).
  exists w'. split; [exact Hrun|]. split; [exact Hnone|].
  intros C'. now apply batch_of_nothing.
Qed.

Lemma drained_queue_stays_empty_witness :
  exists w',
    Agent.process_tickets_batch C_no_zz E_down w_two = (Ok VNone, w')
    /\ filter is_new (docs w') = []
    /\ forall C', Agent.process_tickets_batch C' E_down w' = (Ok VNone, w').
Proof.
  apply (drained_queue_stays_empty C_no_zz E_down w_two).
  - repeat constructor; vm_compute; intuition discriminate.
  - split; [reflexivity|]. intros id st w0 Hin. vm_compute in Hin.
    destruct Hin as [<- | [<- | []]]; reflexivity.
  - vm_compute. lia.
Defined.

(** X25. In a run in which no call of the store raises, on distinct
    document ids, [process_tickets_batch] takes the first [batch_size]
    tickets of the queue of New tickets and leaves the rest of the queue as
    it was, in the same order. *)
Theorem batch_takes_the_head_of_the_queue (C : client) (E : env) (w : world) :
  NoDup (map fst (docs w)) ->
  calls_succeed C E w ->
  exists w',
    Agent.process_tickets_batch C E w = (Ok VNone, w')
    /\ filter is_new (docs w') = skipn (batch_size E) (filter is_new (docs w)).
Proof.
  intros Hnd Hs. rewrite (batch_agrees C E w Hs).
  exact (QueueFacts.queue_head_reliable E w Hnd).
Qed.

Lemma batch_takes_the_head_of_the_queue_witness :
  exists w',
    Agent.process_tickets_batch C_no_zz E_down w_two = (Ok VNone, w')
    /\ filter is_new (docs w')
       = skipn (batch_size E_down) (filter is_new (docs w_two)).
Proof.
  apply (batch_takes_the_head_of_the_queue C_no_zz E_down w_two).
  - repeat constructor; vm_compute; intuition discriminate.
  - split; [reflexivity|]. intros id st w0 Hin. vm_compute in Hin.
    destruct Hin as [<- | [<- | []]]; reflexivity.
Defined.

(** X26. In a run in which no call of the store raises, on distinct
    document ids, a batch leaves the counters [total] and [processing] of
    the dashboard as they were and lowers [new] by the batch size, or to
    zero when fewer tickets were waiting. *)
Theorem batch_moves_the_counters (C : client) (E : env) (w : world) :
  NoDup (map fst (docs w)) ->
  calls_succeed C E w ->
  exists w',
    Agent.process_tickets_batch C E w = (Ok VNone, w')
    /\ let before := get_system_stats (statuses_of w) in
       let after := get_system_stats (statuses_of w') in
       cget (py "total") after = cget (py "total") before
       /\ cget (py "processing") after = cget (py "processing") before
       /\ exists n, cget (py "new") before = Some n
                    /\ cget (py "new") after = Some (n - batch_size E).
Proof.
  intros Hnd Hs. rewrite (batch_agrees C E w Hs).
  exact (QueueFacts.counters_reliable E w Hnd).
Qed.

Lemma batch_moves_the_counters_witness :
  exists w',
    Agent.process_tickets_batch C_no_zz E_down w_two = (Ok VNone, w')
    /\ let before := get_system_stats (statuses_of w_two) in
       let after := get_system_stats (statuses_of w') in
       cget (py "total") after = cget (py "total") before
       /\ cget (py "processing") after = cget (py "processing") before
       /\ exists n, cget (py "new") before = Some n
                    /\ cget (py "new") after = Some (n - batch_size E_down).
Proof.
  apply (batch_moves_the_counters C_no_zz E_down w_two).
  - repeat constructor; vm_compute; intuition discriminate.
  - split; [reflexivity|]. intros id st w0 Hin. vm_compute in Hin.
    destruct Hin as [<- | [<- | []]]; reflexivity.
Defined.

End AgentFacts.
